(** * Audit-trail export: a shallow embedding of [export_audit_trail.py]

    The script pages through a remote audit-event collection, flattens every
    JSON event into a fixed-width row and appends the rows to a CSV file.

    The embedding keeps the dynamic character of the source: events are
    Python values as [json.loads] builds them, dictionaries are
    insertion-ordered association lists, and every operation that can raise
    in Python returns in the error monad [res].

    Scope of the model.
    - JSON numbers are integers (the service sends epoch milliseconds);
      Python floats are not represented.
    - A [str] is held as the bytes of its UTF-8 encoding.  [strptime]
      reads characters off these bytes; which characters count as decimal
      digits and as white space is the interpreter's Unicode database, a
      parameter of the model.  Where the script would iterate over, index
      or measure a [str] (malformed input only) the items are bytes; the
      first item makes the script raise whatever it holds.
    - [print] output is not modelled.
    - The standard library and [requests] are modelled by what the script
      observes of them: [dict.get], subscripting, truthiness, [str.join],
      [datetime.fromtimestamp(..., UTC).strftime], [datetime.strptime],
      the naive [datetime.timestamp], [csv.DictWriter]; where the platform
      shows, it is a Linux host (POSIX time, the C library's [strftime]). *)

From Stdlib Require Import ZArith List String Ascii Bool Lia Permutation.
Import ListNotations.

Set Warnings "-register-all".

Local Open Scope string_scope.
Local Open Scope list_scope.
Local Open Scope Z_scope.

(** ** Python values, exceptions and the built-ins the script uses *)

Module Py.

(** Values produced by [response.json()], plus what the script stores. *)
Inductive pyval : Type :=
| PNone
| PBool (b : bool)
| PInt (z : Z)
| PStr (s : string)
| PList (items : list pyval)
| PDict (entries : list (string * pyval)).

(** A [dict] with string keys, in insertion order. *)
Definition dict := list (string * pyval).

Inductive exn : Type :=
| KeyError
| IndexError
| AttributeError
| TypeError
| ValueError
| ConnectionError
| JSONDecodeError
| OutOfRangeError
| SystemExit (code : Z).

Inductive res (A : Type) : Type :=
| Ok (a : A)
| Raise (e : exn).
Arguments Ok {A} a.
Arguments Raise {A} e.

Definition bind {A B} (m : res A) (k : A -> res B) : res B :=
  match m with
  | Ok a => k a
  | Raise e => Raise e
  end.

Definition is_ok {A} (m : res A) : bool :=
  match m with Ok _ => true | Raise _ => false end.

(** [for x in xs: acc = f(acc, x)], stopping at the first exception. *)
Fixpoint foldM {A B} (f : A -> B -> res A) (acc : A) (xs : list B) : res A :=
  match xs with
  | [] => Ok acc
  | x :: xs' => bind (f acc x) (fun acc' => foldM f acc' xs')
  end.

(** [[f(x) for x in xs]]. *)
Fixpoint mapM {A B} (f : A -> res B) (xs : list A) : res (list B) :=
  match xs with
  | [] => Ok []
  | x :: xs' =>
      bind (f x) (fun y => bind (mapM f xs') (fun ys => Ok (y :: ys)))
  end.

(** *** Dictionaries *)

Fixpoint dict_lookup (d : dict) (k : string) : option pyval :=
  match d with
  | [] => None
  | (k', v) :: d' => if String.eqb k' k then Some v else dict_lookup d' k
  end.

(** [d[k] = v]: an existing key keeps its position, a new key is appended. *)
Fixpoint dict_set (d : dict) (k : string) (v : pyval) : dict :=
  match d with
  | [] => [(k, v)]
  | (k', v') :: d' =>
      if String.eqb k' k then (k', v) :: d' else (k', v') :: dict_set d' k v
  end.

(** [d.get(k, dflt)] on a value known to be a dict. *)
Definition dict_get_d (d : dict) (k : string) (dflt : pyval) : pyval :=
  match dict_lookup d k with
  | Some v => v
  | None => dflt
  end.

(** [d.get(k)]. *)
Definition dict_get (d : dict) (k : string) : pyval := dict_get_d d k PNone.

(** [d[k]] on a value known to be a dict. *)
Definition dict_getitem (d : dict) (k : string) : res pyval :=
  match dict_lookup d k with
  | Some v => Ok v
  | None => Raise KeyError
  end.

Definition keys (d : dict) : list string := map fst d.

(** *** Operations on arbitrary values *)

(** [o.get(k, dflt)]: only dicts have the method. *)
Definition py_get (o : pyval) (k : string) (dflt : pyval) : res pyval :=
  match o with
  | PDict d => Ok (dict_get_d d k dflt)
  | _ => Raise AttributeError
  end.

(** [o[k]] with [k] a string. *)
Definition py_getitem_str (o : pyval) (k : string) : res pyval :=
  match o with
  | PDict d => dict_getitem d k
  | _ => Raise TypeError
  end.

Fixpoint chars (s : string) : list pyval :=
  match s with
  | EmptyString => []
  | String c s' => PStr (String c EmptyString) :: chars s'
  end.

(** [o[0]]. The keys of a JSON object are strings, so [0] is never one. *)
Definition py_getitem_0 (o : pyval) : res pyval :=
  match o with
  | PList (x :: _) => Ok x
  | PList [] => Raise IndexError
  | PStr (String c _) => Ok (PStr (String c EmptyString))
  | PStr EmptyString => Raise IndexError
  | PDict _ => Raise KeyError
  | _ => Raise TypeError
  end.

(** [bool(o)]. *)
Definition py_truthy (o : pyval) : bool :=
  match o with
  | PNone => false
  | PBool b => b
  | PInt z => negb (z =? 0)
  | PStr s => negb (String.eqb s "")
  | PList l => match l with [] => false | _ => true end
  | PDict d => match d with [] => false | _ => true end
  end.

(** [a or b], with [b] already evaluated (used where [b] cannot raise). *)
Definition py_or (a b : pyval) : pyval := if py_truthy a then a else b.

(** [o == s] for a string literal [s]. *)
Definition py_eq_str (o : pyval) (s : string) : bool :=
  match o with
  | PStr t => String.eqb t s
  | _ => false
  end.

(** The items of [for x in o]. *)
Definition py_iter (o : pyval) : res (list pyval) :=
  match o with
  | PList l => Ok l
  | PStr s => Ok (chars s)
  | PDict d => Ok (map (fun kv => PStr (fst kv)) d)
  | _ => Raise TypeError
  end.

(** [len(o)]. *)
Definition py_len (o : pyval) : res Z :=
  match o with
  | PList l => Ok (Z.of_nat (List.length l))
  | PStr s => Ok (Z.of_nat (String.length s))
  | PDict d => Ok (Z.of_nat (List.length d))
  | _ => Raise TypeError
  end.

Definition as_str (o : pyval) : res string :=
  match o with
  | PStr s => Ok s
  | _ => Raise TypeError
  end.

(** [sep.join(items)]: every item must be a [str]. *)
Definition str_join (sep : string) (items : list pyval) : res string :=
  bind (mapM as_str items) (fun strs => Ok (String.concat sep strs)).

End Py.
Export Py.

Notation "x <- m ;; k" := (bind m (fun x => k))
  (at level 61, m at next level, right associativity).

(** ** Calendar arithmetic and the [datetime] routines *)

Module Datetime.

(** Proleptic Gregorian calendar, days counted from 1970-01-01. *)
Definition is_leap (y : Z) : bool :=
  ((y mod 4 =? 0) && negb (y mod 100 =? 0)) || (y mod 400 =? 0).

Definition days_in_month (y m : Z) : Z :=
  if m =? 2 then (if is_leap y then 29 else 28)
  else if (m =? 4) || (m =? 6) || (m =? 9) || (m =? 11) then 30
  else 31.

Definition civil_from_days (days : Z) : Z * Z * Z :=
  let z := days + 719468 in
  let era := z / 146097 in
  let doe := z - era * 146097 in
  let yoe := (doe - doe / 1460 + doe / 36524 - doe / 146096) / 365 in
  let doy := doe - (365 * yoe + yoe / 4 - yoe / 100) in
  let mp := (5 * doy + 2) / 153 in
  let d := doy - (153 * mp + 2) / 5 + 1 in
  let m := if mp <? 10 then mp + 3 else mp - 9 in
  let y := yoe + era * 400 in
  ((if m <=? 2 then y + 1 else y), m, d).

Definition days_from_civil (y m d : Z) : Z :=
  let y' := if m <=? 2 then y - 1 else y in
  let era := y' / 400 in
  let yoe := y' - era * 400 in
  let mp := if m <=? 2 then m + 9 else m - 3 in
  let doy := (153 * mp + 2) / 5 + d - 1 in
  let doe := yoe * 365 + yoe / 4 - yoe / 100 + doy in
  era * 146097 + doe - 719468.

(** A civil date and time of day, as a naive [datetime] holds it. *)
Record civil : Type := mkCivil {
  year : Z; month : Z; day : Z; hour : Z; minute : Z; second : Z
}.

(** Seconds since 1970-01-01 00:00:00 of a civil time read as UTC. *)
Definition civil_seconds (c : civil) : Z :=
  days_from_civil (year c) (month c) (day c) * 86400
  + hour c * 3600 + minute c * 60 + second c.

Definition civil_of_seconds (s : Z) : civil :=
  let '(y, m, d) := civil_from_days (s / 86400) in
  let r := s mod 86400 in
  mkCivil y m d (r / 3600) ((r mod 3600) / 60) (r mod 60).

(** [datetime.min] and [datetime.max] as seconds since the epoch. *)
Definition MIN_SECONDS : Z := -62135596800.
Definition MAX_SECONDS : Z := 253402300799.

Definition in_range (s : Z) : bool :=
  (MIN_SECONDS <=? s) && (s <=? MAX_SECONDS).

Definition digit_char (n : Z) : ascii := ascii_of_nat (48 + Z.to_nat n).

Definition pad2 (n : Z) : string :=
  String (digit_char (n / 10)) (String (digit_char (n mod 10)) "").

Definition pad4 (n : Z) : string :=
  (pad2 (n / 100) ++ pad2 (n mod 100))%string.

(** [%Y] as the C library of a Linux host writes it: the year in decimal,
    without padding, so a year below 1000 has fewer than four digits. *)
Definition year_text (n : Z) : string :=
  if n <? 10 then String (digit_char n) ""
  else if n <? 100 then pad2 n
  else if n <? 1000 then String (digit_char (n / 100)) (pad2 (n mod 100))
  else pad4 n.

(** [c.strftime('%Y-%m-%d %H:%M:%S')]. *)
Definition strftime (c : civil) : string :=
  (year_text (year c) ++ "-" ++ pad2 (month c) ++ "-" ++ pad2 (day c) ++ " "
   ++ pad2 (hour c) ++ ":" ++ pad2 (minute c) ++ ":" ++ pad2 (second c))%string.

(** [datetime.fromtimestamp(ms / 1000, UTC)].

    [ms / 1000] is a float division; [fromtimestamp] rounds the quotient
    to microseconds and splits off whole seconds by flooring.  For an
    integer number of milliseconds inside the [datetime] range the float
    is within half a microsecond-step of the exact quotient of a multiple
    of one millisecond, so the whole seconds are [ms / 1000] rounded down.
    A [bool] is an [int] in Python.  Outside the range the call raises
    [ValueError], [OSError] or [OverflowError], depending on how far
    outside the timestamp is and on the C library; [OutOfRangeError]
    stands for the three, which the script never tells apart. *)
Definition fromtimestamp_ms (ms : pyval) : res civil :=
  let of_int (z : Z) :=
    let s := z / 1000 in
    if in_range s then Ok (civil_of_seconds s) else Raise OutOfRangeError in
  match ms with
  | PInt z => of_int z
  | PBool b => of_int (if b then 1 else 0)
  | _ => Raise TypeError
  end.

End Datetime.

(** ** The script: constants *)

Definition AUDIT_TRAIL_PATH : string := "api/audittrail/v1/auditevents".
Definition BATCH_LIMIT : Z := 1000.

Definition UTC_TIMESTAMP : string := "DATE & TIME (UTC)".
Definition USER_NAME : string := "USER NAME".
Definition EVENT : string := "EVENT".
Definition TARGET_NAME : string := "TARGET NAME".
Definition PROJECT_NAME : string := "PROJECT NAME".
Definition DATASET_NAME : string := "DATASET NAME".
Definition FILE_NAME : string := "FILE NAME".
Definition TARGET_USER : string := "TARGET USER".
Definition FEATURE_FLAG : string := "FEATURE FLAG".
Definition OLD_VALUE : string := "OLD VALUE".
Definition NEW_VALUE : string := "NEW VALUE".
Definition ADDED_VALUE : string := "ADDED".
Definition REMOVED_VALUE : string := "REMOVED".
Definition JOBS : string := "JOBS".
Definition COMMAND : string := "COMMAND".

Definition CSV_HEADERS : list string :=
  [ UTC_TIMESTAMP; USER_NAME; EVENT; TARGET_NAME; PROJECT_NAME; DATASET_NAME;
    FILE_NAME; TARGET_USER; FEATURE_FLAG; OLD_VALUE; NEW_VALUE; ADDED_VALUE;
    REMOVED_VALUE; JOBS; COMMAND ].

(** ** The script: event normalization *)

(** [[obj.get("name") for obj in source]] joined by commas
    (lines 268 and 269). *)
Definition join_names (source : pyval) : res pyval :=
  objs <- py_iter source ;;
  names <- mapM (fun obj => py_get obj "name" PNone) objs ;;
  joined <- str_join "," names ;;
  Ok (PStr joined).

Definition flatten_target (target_raw : pyval) : res dict :=
  target_entity <- py_get target_raw "entity" (PDict []) ;;
  entity_type <- py_get target_entity "entityType" PNone ;;
  entity_id <- py_get target_entity "id" PNone ;;
  entity_name <- py_get target_entity "name" entity_id ;;
  let target_data : dict :=
    [ ("entityType", entity_type); ("name", entity_name) ] in
  target_fields <- py_get target_raw "fieldChanges" (PList []) ;;
  if py_truthy target_fields then
    target <- py_getitem_0 target_fields ;;
    v <- py_get target "fieldName" PNone ;;
    let target_data := dict_set target_data "fieldName" v in
    v <- py_get target "fieldType" PNone ;;
    let target_data := dict_set target_data "fieldType" v in
    v <- py_get target "before" PNone ;;
    let target_data := dict_set target_data "before" v in
    v <- py_get target "after" PNone ;;
    let target_data := dict_set target_data "after" v in
    v <- py_get target "unit" PNone ;;
    let target_data := dict_set target_data "unit" v in
    added_raw <- py_get target "added" (PList []) ;;
    v <- join_names added_raw ;;
    let target_data := dict_set target_data "added" v in
    removed_raw <- py_get target "removed" (PList []) ;;
    v <- join_names removed_raw ;;
    let target_data := dict_set target_data "removed" v in
    Ok target_data
  else
    Ok target_data.

(** The dict literal of lines 181-197, in its written order. *)
Definition empty_parsed_event : dict :=
  [ (UTC_TIMESTAMP, PNone); (USER_NAME, PNone); (EVENT, PNone);
    (TARGET_NAME, PNone); (PROJECT_NAME, PNone); (DATASET_NAME, PNone);
    (FILE_NAME, PNone); (TARGET_USER, PNone); (FEATURE_FLAG, PNone);
    (JOBS, PNone); (OLD_VALUE, PNone); (NEW_VALUE, PNone);
    (ADDED_VALUE, PNone); (REMOVED_VALUE, PNone); (COMMAND, PNone) ].

(** Lines 199-209: timestamp, actor, action and containing scope. *)
Definition project_header (raw_event : pyval) (parsed_event : dict) : res dict :=
  ms <- py_getitem_str raw_event "timestamp" ;;
  moment <- Datetime.fromtimestamp_ms ms ;;
  let parsed_event :=
    dict_set parsed_event UTC_TIMESTAMP (PStr (Datetime.strftime moment)) in
  actor_data <- py_get raw_event "actor" (PDict []) ;;
  actor_id <- py_get actor_data "id" PNone ;;
  actor_name <- py_get actor_data "name" actor_id ;;
  let parsed_event := dict_set parsed_event USER_NAME actor_name in
  action_data <- py_get raw_event "action" (PDict []) ;;
  event_name <- py_get action_data "eventName" PNone ;;
  let parsed_event := dict_set parsed_event EVENT event_name in
  in_data <- py_get raw_event "in" (PDict []) ;;
  in_type <- py_get in_data "entityType" PNone ;;
  if py_eq_str in_type "project" then
    in_id <- py_get in_data "id" PNone ;;
    in_name <- py_get in_data "name" in_id ;;
    Ok (dict_set parsed_event PROJECT_NAME in_name)
  else
    Ok parsed_event.

(** Lines 211-236: the first target and its type-specific columns. *)
Definition project_target (raw_event : pyval) (parsed_event : dict) : res dict :=
  targets_raw <- py_get raw_event "targets" (PList []) ;;
  if py_truthy targets_raw then
    first_target <- py_getitem_0 targets_raw ;;
    target_data <- flatten_target first_target ;;
    let parsed_event := dict_set parsed_event TARGET_NAME (dict_get target_data "name") in
    let parsed_event := dict_set parsed_event OLD_VALUE (dict_get target_data "before") in
    let parsed_event := dict_set parsed_event NEW_VALUE (dict_get target_data "after") in
    let parsed_event := dict_set parsed_event ADDED_VALUE (dict_get target_data "added") in
    let parsed_event := dict_set parsed_event REMOVED_VALUE (dict_get target_data "removed") in
    entity_type <- dict_getitem target_data "entityType" ;;
    if py_eq_str entity_type "user" then
      Ok (dict_set parsed_event TARGET_USER (dict_get target_data "name"))
    else if py_eq_str entity_type "dataset"
            || py_eq_str entity_type "datasetSnapshot" then
      let parsed_event :=
        dict_set parsed_event DATASET_NAME (dict_get target_data "name") in
      if py_eq_str (dict_get target_data "fieldName") "filePath" then
        Ok (dict_set parsed_event FILE_NAME (dict_get target_data "after"))
      else
        Ok parsed_event
    else if py_eq_str entity_type "scheduledRun"
            || py_eq_str entity_type "job" then
      let parsed_event := dict_set parsed_event JOBS (dict_get target_data "name") in
      metadata <- py_get raw_event "metadata" (PDict []) ;;
      command <- py_get metadata "command" PNone ;;
      let parsed_event := dict_set parsed_event COMMAND command in
      metadata <- py_get raw_event "metadata" (PDict []) ;;
      schedule <- py_get metadata "schedule" PNone ;;
      new_value <-
        (if py_truthy schedule then Ok schedule
         else dict_getitem parsed_event NEW_VALUE) ;;
      Ok (dict_set parsed_event NEW_VALUE new_value)
    else if py_eq_str entity_type "featureFlag" then
      Ok (dict_set parsed_event FEATURE_FLAG (dict_get target_data "name"))
    else
      Ok parsed_event
  else
    Ok parsed_event.

(** One turn of the loop of lines 240-246. *)
Definition affecting_step (parsed_event : dict) (affecting : pyval) : res dict :=
  entity_type <- py_get affecting "entityType" PNone ;;
  if py_eq_str entity_type "dataset" then
    entity_id <- py_get affecting "id" PNone ;;
    entity_name <- py_get affecting "name" entity_id ;;
    Ok (dict_set parsed_event DATASET_NAME entity_name)
  else
    entity_type <- py_get affecting "entityType" PNone ;;
    if py_eq_str entity_type "appliedUser" || py_eq_str entity_type "user" then
      entity_id <- py_get affecting "id" PNone ;;
      entity_name <- py_get affecting "name" entity_id ;;
      Ok (dict_set parsed_event TARGET_USER entity_name)
    else
      entity_type <- py_get affecting "entityType" PNone ;;
      if py_eq_str entity_type "file" then
        entity_name <- py_get affecting "name" PNone ;;
        Ok (dict_set parsed_event FILE_NAME entity_name)
      else
        Ok parsed_event.

(** Lines 238-246: every affecting entry, in order. *)
Definition project_affecting (raw_event : pyval) (parsed_event : dict) : res dict :=
  affecting_raw <- py_get raw_event "affecting" (PList []) ;;
  if py_truthy affecting_raw then
    entries <- py_iter affecting_raw ;;
    foldM affecting_step parsed_event entries
  else
    Ok parsed_event.

(** Line 248: the command column falls back to the metadata query. *)
Definition project_command (raw_event : pyval) (parsed_event : dict) : res dict :=
  command <- dict_getitem parsed_event COMMAND ;;
  new_command <-
    (if py_truthy command then Ok command
     else
       metadata <- py_get raw_event "metadata" (PDict []) ;;
       py_get metadata "query" PNone) ;;
  Ok (dict_set parsed_event COMMAND new_command).

Definition parse_event (raw_event : pyval) : res dict :=
  parsed_event <- project_header raw_event empty_parsed_event ;;
  parsed_event <- project_target raw_event parsed_event ;;
  parsed_event <- project_affecting raw_event parsed_event ;;
  project_command raw_event parsed_event.

Definition parse_events (raw_events : pyval) : res (list dict) :=
  events <- py_iter raw_events ;;
  mapM parse_event events.

(** ** The script: sink, fetcher and export driver *)

(** What one [requests.get(...)] followed by [response.json()] can give: the
    call itself fails, or a response arrives with a status code and a body
    that decodes as JSON ([Some]) or does not ([None]). *)
Inductive http_outcome : Type :=
| ConnectionFailed
| Responded (status : Z) (body : option pyval).

Record request : Type := mkRequest {
  req_url : string;
  req_headers : dict;
  req_params : dict
}.

(** The observable actions of a run, oldest first. *)
Inductive io_event : Type :=
| IoCreate (header : list pyval)
| IoGet (r : request)
| IoAppend (rows : list (list pyval)).

(** The CSV file (absent, or its rows so far) and the action log. *)
Record world : Type := mkWorld {
  file : option (list (list pyval));
  log : list io_event
}.

Definition initial_world : world := mkWorld None [].

Definition file_rows (w : world) : list (list pyval) :=
  match file w with
  | Some rows => rows
  | None => []
  end.

(** How a stateful computation ends: it returns, it raises, or it is left
    waiting for a response that the scripted remote never gives. *)
Inductive outcome (A : Type) : Type :=
| Returned (a : A) (w : world)
| Raised (e : exn) (w : world)
| Starved (w : world).
Arguments Returned {A} a w.
Arguments Raised {A} e w.
Arguments Starved {A} w.

(** [csv.DictWriter._dict_to_list] with the default [extrasaction='raise']
    and [restval=''].  A row is kept as its list of cell values; how the
    writer renders a cell as text ([None] as the empty text, quoting) is
    left out. *)
Definition dict_to_list (fieldnames : list string) (rowdict : dict)
  : res (list pyval) :=
  if forallb (fun k => existsb (String.eqb k) fieldnames) (keys rowdict)
  then Ok (map (fun k => dict_get_d rowdict k (PStr "")) fieldnames)
  else Raise ValueError.

(** [initialize_csv]: mode ['w'] truncates, then the header row. *)
Definition initialize_csv (w : world) : world :=
  let header := map PStr CSV_HEADERS in
  mkWorld (Some [header]) (log w ++ [IoCreate header]).

(** [writer.writerows]: rows go out one by one; a row that raises stops the
    call and leaves the earlier rows written. *)
Fixpoint writerows (rowdicts : list dict)
  : list (list pyval) * option exn :=
  match rowdicts with
  | [] => ([], None)
  | rowdict :: rest =>
      match dict_to_list CSV_HEADERS rowdict with
      | Raise e => ([], Some e)
      | Ok row =>
          let '(rows, err) := writerows rest in (row :: rows, err)
      end
  end.

(** [write_to_csv]: mode ['a'] appends (creating the file if needed); the
    [with] block closes, hence flushes, the file on every exit. *)
Definition write_to_csv (parsed_events : list dict) (w : world)
  : res unit * world :=
  let '(rows, err) := writerows parsed_events in
  let w' := mkWorld (Some (file_rows w ++ rows)) (log w ++ [IoAppend rows]) in
  match err with
  | None => (Ok tt, w')
  | Some e => (Raise e, w')
  end.

(** Lines 162-166 up to the moment the request is on the wire.  The
    caller's [request_params] dict is updated in place, so the updated dict
    is handed back. *)
Definition send_request (hostname : string)
    (request_headers request_params : dict) (offset : Z) (w : world)
  : dict * world :=
  let request_params := dict_set request_params "offset" (PInt offset) in
  let audit_trail_path := (hostname ++ "/" ++ AUDIT_TRAIL_PATH)%string in
  (request_params,
   mkWorld (file w)
     (log w ++ [IoGet (mkRequest audit_trail_path request_headers
                                 request_params)])).

(** [get_events_batch], given what the remote answers to this call.  The
    status code is not looked at. *)
Definition get_events_batch (reply : http_outcome) (hostname : string)
    (request_headers request_params : dict) (offset : Z) (w : world)
  : res pyval * dict * world :=
  let '(request_params, w) :=
    send_request hostname request_headers request_params offset w in
  match reply with
  | ConnectionFailed => (Raise ConnectionError, request_params, w)
  | Responded _ None => (Raise JSONDecodeError, request_params, w)
  | Responded _ (Some data) => (Ok data, request_params, w)
  end.

(** The [while keep_extracting] loop of [export_audit_trail].  Each turn
    consumes one scripted reply; the result is the final offset, which
    the script prints. *)
Fixpoint export_loop (replies : list http_outcome) (hostname : string)
    (request_headers request_params : dict) (offset : Z) (w : world)
  : outcome Z :=
  match replies with
  | [] =>
      Starved (snd (send_request hostname request_headers request_params
                      offset w))
  | reply :: replies' =>
      let '(data, request_params, w) :=
        get_events_batch reply hostname request_headers request_params offset w in
      match (data <- data ;;
             raw_events <- py_get data "events" (PList []) ;;
             parsed_events <- parse_events raw_events ;;
             Ok (raw_events, parsed_events)) with
      | Raise e => Raised e w
      | Ok (raw_events, parsed_events) =>
          let '(written, w) := write_to_csv parsed_events w in
          match (_ <- written ;; py_len raw_events) with
          | Raise e => Raised e w
          | Ok n =>
              if n <? BATCH_LIMIT then Returned offset w
              else export_loop replies' hostname request_headers request_params
                     (offset + BATCH_LIMIT) w
          end
      end
  end.

Definition export_audit_trail (replies : list http_outcome) (hostname : string)
    (request_headers request_params : dict) (w : world) : outcome Z :=
  export_loop replies hostname request_headers request_params 0
    (initialize_csv w).

(** The requests found in a log, and the offsets they carry. *)
Definition requests_of (events : list io_event) : list request :=
  flat_map (fun ev => match ev with IoGet r => [r] | _ => [] end) events.

Definition offsets_of (events : list io_event) : list pyval :=
  map (fun r => dict_get (req_params r) "offset") (requests_of events).

(** ** The script: command line, date validation and [main] *)

(** Text as [strptime] sees it: characters decoded from UTF-8, and the two
    character classes of its regular expression. *)
Module Unicode.

Definition code (c : ascii) : Z := Z.of_nat (nat_of_ascii c).

(** The payload of a continuation byte [10xxxxxx]. *)
Definition continuation (c : ascii) : option Z :=
  if (128 <=? code c) && (code c <? 192) then Some (code c - 128) else None.

(** The first character of a text, as a code point, and the text after
    it; [None] at the end of the text and on bytes that are not the
    encoding of a character (the shortest encoding only, no surrogates,
    nothing above U+10FFFF), which the interpreter turns into characters
    that are neither digits nor white space. *)
Definition decode (s : string) : option (Z * string) :=
  match s with
  | EmptyString => None
  | String lead rest =>
      let a := code lead in
      if a <? 128 then Some (a, rest)
      else if a <? 192 then None
      else if a <? 224 then
        match rest with
        | String b rest =>
            match continuation b with
            | Some b =>
                let c := (a - 192) * 64 + b in
                if 128 <=? c then Some (c, rest) else None
            | None => None
            end
        | EmptyString => None
        end
      else if a <? 240 then
        match rest with
        | String b (String c rest) =>
            match continuation b, continuation c with
            | Some b, Some c =>
                let c := ((a - 224) * 64 + b) * 64 + c in
                if (2048 <=? c) && negb ((55296 <=? c) && (c <? 57344))
                then Some (c, rest) else None
            | _, _ => None
            end
        | _ => None
        end
      else if a <? 248 then
        match rest with
        | String b (String c (String d rest)) =>
            match continuation b, continuation c, continuation d with
            | Some b, Some c, Some d =>
                let c := (((a - 240) * 64 + b) * 64 + c) * 64 + d in
                if (65536 <=? c) && (c <? 1114112)
                then Some (c, rest) else None
            | _, _, _ => None
            end
        | _ => None
        end
      else None
  end.

(** The UTF-8 encoding of one code point. *)
Definition encode (c : Z) : string :=
  let byte (z : Z) := ascii_of_nat (Z.to_nat z) in
  if c <? 128 then String (byte c) ""
  else if c <? 2048 then
    String (byte (192 + c / 64)) (String (byte (128 + c mod 64)) "")
  else if c <? 65536 then
    String (byte (224 + c / 4096))
      (String (byte (128 + (c / 64) mod 64))
         (String (byte (128 + c mod 64)) ""))
  else
    String (byte (240 + c / 262144))
      (String (byte (128 + (c / 4096) mod 64))
         (String (byte (128 + (c / 64) mod 64))
            (String (byte (128 + c mod 64)) ""))).

(** What the interpreter's Unicode database says beyond ASCII: where the
    runs of decimal digits start (the digits 0 to 9 of a script are ten
    consecutive code points), and which code points are white space.  It
    grows from one version of Unicode to the next. *)
Record database : Type := mkDatabase {
  digit_zeros : list Z;
  white_space : list Z
}.

(** [\d] in a [str] pattern: the value of a decimal digit of any script. *)
Definition decimal (u : database) (c : Z) : option Z :=
  if c <? 128 then
    if (48 <=? c) && (c <=? 57) then Some (c - 48) else None
  else
    match find (fun zero => (zero <=? c) && (c <? zero + 10)) (digit_zeros u) with
    | Some zero => Some (c - zero)
    | None => None
    end.

(** [\s] in a [str] pattern. *)
Definition is_space (u : database) (c : Z) : bool :=
  if c <? 128 then
    (c =? 32) || ((9 <=? c) && (c <=? 13)) || ((28 <=? c) && (c <=? 31))
  else existsb (Z.eqb c) (white_space u).

End Unicode.

(** [datetime.strptime(s, "%Y-%m-%d %H:%M:%S")].  The format compiles to the
    regular expression
    [(\d\d\d\d)-(1[0-2]|0[1-9]|[1-9])-(3[0-1]|[1-2]\d|0[1-9]|[1-9]| [1-9])\s+(2[0-3]|[0-1]\d|\d):([0-5]\d|\d):(6[0-1]|[0-5]\d|\d)]
    matched at the start of the string; the first match in the engine's
    backtracking order is kept, and text left after it is an error.  Each
    piece below lists its ways to match in that order.  [\d] and [\s] are
    the Unicode classes, the bracketed ranges are ASCII; [int] then reads
    the digits of any script by their values. *)
Module Strptime.

Section Database.

Variable unicode : Unicode.database.

(** [\d]. *)
Definition digit (s : string) : list (Z * string) :=
  match Unicode.decode s with
  | Some (c, rest) =>
      match Unicode.decimal unicode c with
      | Some v => [(v, rest)]
      | None => []
      end
  | None => []
  end.

(** [[lo-hi]]: one ASCII digit from [lo] to [hi]. *)
Definition range (lo hi : Z) (s : string) : list (Z * string) :=
  match s with
  | String a rest =>
      if (48 + lo <=? Unicode.code a) && (Unicode.code a <=? 48 + hi)
      then [(Unicode.code a - 48, rest)] else []
  | EmptyString => []
  end.

(** Two one-digit pieces in a row, read as a number. *)
Definition two (p q : string -> list (Z * string)) (s : string)
  : list (Z * string) :=
  flat_map (fun '(a, r) => map (fun '(b, r') => (10 * a + b, r')) (q r)) (p s).

Definition lit (c : ascii) (s : string) : list string :=
  match s with
  | String a rest => if Ascii.eqb a c then [rest] else []
  | _ => []
  end.

(** [\s+] is greedy: the longest run first, then shorter ones.  A run has
    at most as many characters as the text has bytes. *)
Fixpoint spaces_upto (n : nat) (s : string) : list string :=
  match n with
  | O => []
  | S n' =>
      match Unicode.decode s with
      | Some (c, rest) =>
          if Unicode.is_space unicode c then spaces_upto n' rest ++ [rest]
          else []
      | None => []
      end
  end.

Definition spaces (s : string) : list string :=
  spaces_upto (String.length s) s.

Definition field_Y (s : string) : list (Z * string) :=
  flat_map (fun '(hi, r) =>
              map (fun '(lo, r') => (100 * hi + lo, r')) (two digit digit r))
           (two digit digit s).

Definition field_m (s : string) : list (Z * string) :=
  two (range 1 1) (range 0 2) s ++ two (range 0 0) (range 1 9) s
  ++ range 1 9 s.

Definition field_d (s : string) : list (Z * string) :=
  two (range 3 3) (range 0 1) s ++ two (range 1 2) digit s
  ++ two (range 0 0) (range 1 9) s ++ range 1 9 s
  ++ flat_map (range 1 9) (lit " " s).

Definition field_H (s : string) : list (Z * string) :=
  two (range 2 2) (range 0 3) s ++ two (range 0 1) digit s ++ digit s.

Definition field_M (s : string) : list (Z * string) :=
  two (range 0 5) digit s ++ digit s.

Definition field_S (s : string) : list (Z * string) :=
  two (range 6 6) (range 0 1) s ++ two (range 0 5) digit s ++ digit s.

(** All ways the expression matches a prefix, best first, each with the
    six numbers and the text left over. *)
Definition matches (s : string) : list (Datetime.civil * string) :=
  flat_map (fun '(year, s) =>
  flat_map (fun s =>
  flat_map (fun '(month, s) =>
  flat_map (fun s =>
  flat_map (fun '(day, s) =>
  flat_map (fun s =>
  flat_map (fun '(hour, s) =>
  flat_map (fun s =>
  flat_map (fun '(minute, s) =>
  flat_map (fun s =>
  map (fun '(second, s) =>
         (Datetime.mkCivil year month day hour minute second, s))
    (field_S s))
    (lit ":" s)) (field_M s)) (lit ":" s)) (field_H s)) (spaces s))
    (field_d s)) (lit "-" s)) (field_m s)) (lit "-" s)) (field_Y s).

(** The checks made when the [datetime] is built from the numbers. *)
Definition valid (c : Datetime.civil) : bool :=
  (1 <=? Datetime.year c)
  && (Datetime.day c <=? Datetime.days_in_month (Datetime.year c) (Datetime.month c))
  && (Datetime.second c <=? 59).

Definition strptime (s : string) : res Datetime.civil :=
  match matches s with
  | [] => Raise ValueError
  | (c, rest) :: _ =>
      if negb (String.eqb rest "") then Raise ValueError
      else if valid c then Ok c
      else Raise ValueError
  end.

End Database.

End Strptime.

(** The namespace holds strings or [None], so a truthy [jwt] is a string. *)
Definition build_request_headers (jwt api_key : pyval) : dict :=
  let header : dict := [("accept", PStr "application/json")] in
  if py_truthy jwt then
    match jwt with
    | PStr token => dict_set header "Authorization" (PStr ("Bearer " ++ token))
    | _ => header
    end
  else dict_set header "X-Domino-Api-Key" api_key.

(** [vars(args)] is the namespace as a dict, in [add_argument] order. *)
Definition build_request_params (args : dict) : dict :=
  let excluded (key : string) :=
    existsb (String.eqb key) ["hostname"; "jwt"; "api_key"] in
  let request_params :=
    filter (fun '(key, value) =>
              match value with
              | PNone => false
              | _ => negb (excluded key)
              end) args in
  let request_params := dict_set request_params "limit" (PInt BATCH_LIMIT) in
  dict_set request_params "sort" (PStr "-timestamp").

Fixpoint ends_with_slash (s : string) : bool :=
  match s with
  | EmptyString => false
  | String c EmptyString => Ascii.eqb c "/"
  | String _ rest => ends_with_slash rest
  end.

Fixpoint drop_last (s : string) : string :=
  match s with
  | EmptyString => EmptyString
  | String _ EmptyString => EmptyString
  | String c rest => String c (drop_last rest)
  end.

(** The namespace entry of an optional command-line argument. *)
Definition opt_arg (o : option string) : pyval :=
  match o with Some s => PStr s | None => PNone end.

(** The namespace [parser.parse_args()] returns. *)
Definition parse_args (hostname : string)
    (jwt api_key event actorName targetName withinProjectName
     startTimestamp endTimestamp : option string) : dict :=
  [ ("hostname", PStr hostname); ("jwt", opt_arg jwt);
    ("api_key", opt_arg api_key); ("event", opt_arg event);
    ("actorName", opt_arg actorName); ("targetName", opt_arg targetName);
    ("withinProjectName", opt_arg withinProjectName);
    ("startTimestamp", opt_arg startTimestamp);
    ("endTimestamp", opt_arg endTimestamp) ].

Section Host.

(** The Unicode database of the interpreter. *)
Variable unicode : Unicode.database.

(** The offset from UTC, in seconds, that the system's local time zone
    applies at the instant [u] (seconds since the epoch). *)
Variable utcoffset : Z -> Z.

(** The local wall-clock reading at instant [u], as seconds since the
    epoch; the reading must be a representable [datetime]. *)
Definition local (u : Z) : res Z :=
  let t := u + utcoffset u in
  if Datetime.in_range t then Ok t else Raise ValueError.

Definition max_fold_seconds : Z := 24 * 3600.

(** The instant at which the local clock reads [t]: what the naive
    [datetime.timestamp()] computes (with [fold = 0]). *)
Definition local_to_seconds (t : Z) : res Z :=
  lt <- local t ;;
  let a := lt - t in
  let u1 := t - a in
  t1 <- local u1 ;;
  b <- (if t1 =? t then
          let u2 := u1 - max_fold_seconds in
          lt <- local u2 ;;
          Ok (lt - u2)
        else Ok (t1 - u1)) ;;
  if (t1 =? t) && (a =? b) then Ok u1
  else
    let u2 := t - b in
    t2 <- local u2 ;;
    if t2 =? t then Ok u2
    else if t1 =? t then Ok u1
    else Ok (Z.max u1 u2).

(** [int(c.timestamp() * 1000)] for a naive [c] without microseconds: the
    float holds a whole number of seconds below 2^53 / 1000, so both the
    product and the truncation are exact. *)
Definition timestamp_ms (c : Datetime.civil) : res Z :=
  u <- local_to_seconds (Datetime.civil_seconds c) ;;
  Ok (u * 1000).

Definition validate_and_format_timestamp (raw_timestamp : string) : res pyval :=
  match (parsed_start_timestamp <- Strptime.strptime unicode raw_timestamp ;;
         ms <- timestamp_ms parsed_start_timestamp ;;
         Ok (PInt ms)) with
  | Raise ValueError => Raise (SystemExit 1)
  | other => other
  end.

(** [validate_and_format_timestamp(x) if x else None] for a namespace
    entry. *)
Definition format_if_given (raw : pyval) : res pyval :=
  if py_truthy raw then
    match raw with
    | PStr raw_timestamp => validate_and_format_timestamp raw_timestamp
    | _ => Raise TypeError
    end
  else Ok PNone.

Definition main (args : dict) (replies : list http_outcome) (w : world)
  : outcome unit :=
  if negb (py_truthy (dict_get args "jwt"))
     && negb (py_truthy (dict_get args "api_key")) then
    Raised (SystemExit 1) w
  else
    match dict_get args "hostname" with
    | PStr hostname =>
        let hostname :=
          if ends_with_slash hostname then drop_last hostname else hostname in
        let args := dict_set args "hostname" (PStr hostname) in
        match format_if_given (dict_get args "startTimestamp") with
        | Raise e => Raised e w
        | Ok start =>
            let args := dict_set args "startTimestamp" start in
            match format_if_given (dict_get args "endTimestamp") with
            | Raise e => Raised e w
            | Ok stop =>
                let args := dict_set args "endTimestamp" stop in
                let request_headers :=
                  build_request_headers (dict_get args "jwt")
                    (dict_get args "api_key") in
                let request_params := build_request_params args in
                match export_audit_trail replies hostname request_headers
                        request_params w with
                | Returned _ w' => Returned tt w'
                | Raised e w' => Raised e w'
                | Starved w' => Starved w'
                end
            end
        end
    | _ => Raised AttributeError w
    end.

End Host.

(** The status the process ends with: [sys.exit(n)] gives [n], any other
    uncaught exception gives 1, a normal return gives 0. *)
Definition exit_status {A} (o : outcome A) : option Z :=
  match o with
  | Returned _ _ => Some 0
  | Raised (SystemExit code) _ => Some code
  | Raised _ _ => Some 1
  | Starved _ => None
  end.

(** ** Notions used to state the properties *)

(** A record that has exactly the columns of the initial dict literal, in
    its order. *)
Definition has_columns (parsed_event : dict) : Prop :=
  keys parsed_event = keys empty_parsed_event.

Definition is_column (k : string) : Prop := In k (keys empty_parsed_event).

(** The row that an event contributes to the file. *)
Definition row_of_event (raw_event : pyval) : list pyval :=
  match parse_event raw_event with
  | Ok r => map (dict_get r) CSV_HEADERS
  | Raise _ => []
  end.

Definition parses (raw_event : pyval) : Prop :=
  is_ok (parse_event raw_event) = true.

(** Reading a raw event along a path: the value under key [k], [None]
    when the key or the enclosing object is missing. *)
Definition field (o : pyval) (k : string) : pyval :=
  match o with
  | PDict d => dict_get d k
  | _ => PNone
  end.

(** The display name of an entity reference: its name when the key is
    present, else its id. *)
Definition display_name (entity : pyval) : pyval :=
  match entity with
  | PDict d => dict_get_d d "name" (dict_get d "id")
  | _ => PNone
  end.

(** A column that none of the listed ones is. *)
Definition untouched (touched : list string) (k : string) : Prop :=
  Forall (fun c => String.eqb c k = false) touched.

(** The column an affecting entry writes, and the value it writes there. *)
Definition affecting_column (entry : pyval) : option string :=
  let entity_type := field entry "entityType" in
  if py_eq_str entity_type "dataset" then Some DATASET_NAME
  else if py_eq_str entity_type "appliedUser" || py_eq_str entity_type "user"
  then Some TARGET_USER
  else if py_eq_str entity_type "file" then Some FILE_NAME
  else None.

Definition affecting_value (entry : pyval) : pyval :=
  if py_eq_str (field entry "entityType") "file" then field entry "name"
  else display_name entry.

(** The value under [k] of a target's first field change, [None] without
    field changes. *)
Definition first_change (target : pyval) (k : string) : pyval :=
  match field target "fieldChanges" with
  | PList (change :: _) => field change k
  | _ => PNone
  end.

(** *** The shape of a raw event

    Sub-structures, where present, have the kind the data model gives them:
    objects for entity references, lists for sequences.  Any key may be
    missing, except the timestamp. *)

Definition is_dict (v : pyval) : bool :=
  match v with PDict _ => true | _ => false end.

Definition absent_or (ok : pyval -> bool) (d : dict) (k : string) : bool :=
  match dict_lookup d k with
  | None => true
  | Some v => ok v
  end.

(** An entity reference that carries a string name. *)
Definition named_entity (v : pyval) : bool :=
  match field v "name" with
  | PStr _ => is_dict v
  | _ => false
  end.

Definition named_entities (v : pyval) : bool :=
  match v with
  | PList entities => forallb named_entity entities
  | _ => false
  end.

Definition field_change_shape (v : pyval) : bool :=
  match v with
  | PDict d =>
      absent_or named_entities d "added"
      && absent_or named_entities d "removed"
  | _ => false
  end.

(** A sequence that is null or a list whose head, if any, is [ok]. *)
Definition head_shape (ok : pyval -> bool) (v : pyval) : bool :=
  match v with
  | PNone => true
  | PList [] => true
  | PList (x :: _) => ok x
  | _ => false
  end.

Definition target_shape (v : pyval) : bool :=
  match v with
  | PDict d =>
      absent_or is_dict d "entity"
      && absent_or (head_shape field_change_shape) d "fieldChanges"
  | _ => false
  end.

Definition affecting_shape (v : pyval) : bool :=
  match v with
  | PNone => true
  | PList entries => forallb is_dict entries
  | _ => false
  end.

Definition timestamp_shape (v : pyval) : bool :=
  match v with
  | PInt ms => Datetime.in_range (ms / 1000)
  | _ => false
  end.

Definition event_shape (raw_event : pyval) : bool :=
  match raw_event with
  | PDict d =>
      match dict_lookup d "timestamp" with
      | Some ms => timestamp_shape ms
      | None => false
      end
      && absent_or is_dict d "actor"
      && absent_or is_dict d "action"
      && absent_or is_dict d "in"
      && absent_or is_dict d "metadata"
      && absent_or (head_shape target_shape) d "targets"
      && absent_or affecting_shape d "affecting"
  | _ => false
  end.

(** The name of an entity that has one. *)
Definition name_of (entity : pyval) : string :=
  match field entity "name" with
  | PStr s => s
  | _ => ""
  end.

(** *** Runs of the export driver *)

(** The page of events that a reply delivers: the body is a JSON object
    and its "events" entry, an empty list by default, is a list. *)
Definition reply_events (reply : http_outcome) : option (list pyval) :=
  match reply with
  | Responded _ (Some (PDict d)) =>
      match dict_get_d d "events" (PList []) with
      | PList events => Some events
      | _ => None
      end
  | _ => None
  end.

(** The exception that a reply makes the fetcher raise, if any. *)
Definition fetch_error (reply : http_outcome) : option exn :=
  match reply with
  | ConnectionFailed => Some ConnectionError
  | Responded _ None => Some JSONDecodeError
  | Responded _ (Some _) => None
  end.

(** The request the driver sends for a given offset. *)
Definition request_at (hostname : string) (request_headers request_params : dict)
    (offset : Z) : request :=
  mkRequest (hostname ++ "/" ++ AUDIT_TRAIL_PATH)%string request_headers
    (dict_set request_params "offset" (PInt offset)).

(** The log of a run over the given pages: each page is fetched, then
    written, before the next one is fetched. *)
Fixpoint expected_log (hostname : string) (request_headers request_params : dict)
    (offset : Z) (pages : list (list pyval)) : list io_event :=
  match pages with
  | [] => []
  | page :: pages' =>
      IoGet (request_at hostname request_headers request_params offset)
      :: IoAppend (map row_of_event page)
      :: expected_log hostname request_headers request_params
           (offset + BATCH_LIMIT) pages'
  end.

(** Two parameter dicts that differ at most in their offset entry. *)
Definition same_but_offset (params params0 : dict) : Prop :=
  forall v, dict_set params "offset" v = dict_set params0 "offset" v.

Definition header_row : list pyval := map PStr CSV_HEADERS.

Definition full (page : list pyval) : Prop :=
  BATCH_LIMIT <= Z.of_nat (List.length page).

(** *** Dates *)

(** A civil time that a [datetime] can hold. *)
Definition valid_civil (c : Datetime.civil) : bool :=
  (1 <=? Datetime.year c) && (Datetime.year c <=? 9999)
  && (1 <=? Datetime.month c) && (Datetime.month c <=? 12)
  && (1 <=? Datetime.day c)
  && (Datetime.day c <=? Datetime.days_in_month (Datetime.year c) (Datetime.month c))
  && (0 <=? Datetime.hour c) && (Datetime.hour c <=? 23)
  && (0 <=? Datetime.minute c) && (Datetime.minute c <=? 59)
  && (0 <=? Datetime.second c) && (Datetime.second c <=? 59).

(** A civil time written as YYYY-MM-DD HH:MM:SS, every field padded with
    zeros. *)
Definition date_text (c : Datetime.civil) : string :=
  (Datetime.pad4 (Datetime.year c) ++ "-" ++ Datetime.pad2 (Datetime.month c)
   ++ "-" ++ Datetime.pad2 (Datetime.day c) ++ " "
   ++ Datetime.pad2 (Datetime.hour c) ++ ":" ++ Datetime.pad2 (Datetime.minute c)
   ++ ":" ++ Datetime.pad2 (Datetime.second c))%string.

(** What a piece of the date expression reads off one ASCII digit: the
    digit itself where [ok] holds, nothing otherwise. *)
Definition reads (p : string -> list (Z * string)) (ok : Z -> bool) : Prop :=
  forall d rest, 0 <= d <= 9 ->
    p (String (Datetime.digit_char d) rest) = if ok d then [(d, rest)] else [].

(** The local clock shows the reading [t] (seconds of a civil time read
    as UTC) at the instant [u]. *)
Definition clock_shows (utcoffset : Z -> Z) (u t : Z) : Prop :=
  u + utcoffset u = t.

(** ** Sample inputs *)

(** A Unicode database: the decimal digits and the white space that
    Unicode 14.0 has beyond ASCII. *)
Definition unicode_14 : Unicode.database :=
  Unicode.mkDatabase
    [ 1632; 1776; 1984; 2406; 2534; 2662; 2790; 2918; 3046; 3174; 3302;
      3430; 3558; 3664; 3792; 3872; 4160; 4240; 6112; 6160; 6470; 6608;
      6784; 6800; 6992; 7088; 7232; 7248; 42528; 43216; 43264; 43472;
      43504; 43600; 44016; 65296; 66720; 68912; 69734; 69872; 69942;
      70096; 70384; 70736; 70864; 71248; 71360; 71472; 71904; 72016;
      72784; 73040; 73120; 92768; 92864; 93008; 120782; 120792; 120802;
      120812; 120822; 123200; 123632; 125264; 130032 ]
    [ 133; 160; 5760; 8192; 8193; 8194; 8195; 8196; 8197; 8198; 8199;
      8200; 8201; 8202; 8232; 8233; 8239; 8287; 12288 ].

(** 2024 in Arabic-Indic digits, and the no-break space. *)
Definition arabic_indic_2024 : string :=
  (Unicode.encode 1634 ++ Unicode.encode 1632 ++ Unicode.encode 1634
   ++ Unicode.encode 1636)%string.

Definition no_break_space : string := Unicode.encode 160.

(** Two local zones used in examples: UTC itself and a fixed zone five hours
    behind it. *)
Definition zone_utc : Z -> Z := fun _ => 0.
Definition zone_minus_5h : Z -> Z := fun _ => -18000.

(** A zone with a one-hour daylight-saving rule, forward at instant 1000000
    and back at instant 2000000, base offset one hour behind UTC. *)
Definition zone_dst : Z -> Z :=
  fun u => if (1000000 <=? u) && (u <? 2000000) then 0 else -3600.

Definition nightly_job : pyval :=
  PDict [ ("entity",
            PDict [ ("entityType", PStr "job"); ("id", PStr "j-1");
                    ("name", PStr "nightly") ]) ].

Definition job_event_with_query : pyval :=
  PDict [ ("timestamp", PInt 1729185360064);
          ("action", PDict [("eventName", PStr "Run Job")]);
          ("targets", PList [nightly_job]);
          ("metadata", PDict [("query", PStr "SELECT 1")]) ].

Definition job_event_with_empty_schedule : pyval :=
  PDict [ ("timestamp", PInt 1729185360064);
          ("targets",
            PList [ PDict [ ("entity",
                              PDict [ ("entityType", PStr "scheduledRun");
                                      ("name", PStr "nightly") ]);
                            ("fieldChanges",
                              PList [ PDict [ ("fieldName", PStr "cron");
                                              ("after", PStr "0 0 * * *") ] ]) ] ]);
          ("metadata", PDict [("schedule", PStr "")]) ].

(** An event that has everything but a timestamp. *)
Definition event_without_timestamp : pyval :=
  PDict [ ("actor", PDict [("id", PStr "u-7"); ("name", PStr "ana")]);
          ("action", PDict [("eventName", PStr "Login")]) ].

(** A target whose first field change adds one entity that has an id and
    no name. *)
Definition unnamed_collaborator : pyval :=
  PDict [("entityType", PStr "user"); ("id", PStr "u-2")].

Definition target_with_unnamed_added : pyval :=
  PDict [ ("entity",
            PDict [ ("entityType", PStr "project"); ("id", PStr "p-1");
                    ("name", PStr "alpha") ]);
          ("fieldChanges",
            PList [ PDict [ ("fieldName", PStr "collaborators");
                            ("added", PList [unnamed_collaborator]) ] ]) ].

Definition event_with_unnamed_added : pyval :=
  PDict [ ("timestamp", PInt 1729185360064);
          ("actor", PDict [("id", PStr "u-7"); ("name", PStr "ana")]);
          ("action", PDict [("eventName", PStr "Add Collaborator")]);
          ("targets", PList [target_with_unnamed_added]) ].

(** A response with an error status whose body is a JSON object. *)
Definition server_error_reply : http_outcome :=
  Responded 500 (Some (PDict [("message", PStr "Internal Server Error")])).

(** A dataset event inside a project: two affecting datasets, then an
    affecting file and an affecting user that have ids and no names. *)
Definition first_dataset : pyval :=
  PDict [("entityType", PStr "dataset"); ("id", PStr "d-1"); ("name", PStr "raw")].

Definition second_dataset : pyval :=
  PDict [("entityType", PStr "dataset"); ("id", PStr "d-2"); ("name", PStr "clean")].

Definition unnamed_file : dict :=
  [("entityType", PStr "file"); ("id", PStr "f-9")].

Definition unnamed_user : dict :=
  [("entityType", PStr "appliedUser"); ("id", PStr "u-5")].

Definition dataset_event : pyval :=
  PDict [ ("timestamp", PInt 1729185360064);
          ("actor", PDict [("id", PStr "u-7"); ("name", PStr "ana")]);
          ("action", PDict [("eventName", PStr "Update Dataset")]);
          ("in", PDict [ ("entityType", PStr "project"); ("id", PStr "p-1");
                         ("name", PStr "alpha") ]);
          ("targets",
            PList [ PDict [ ("entity",
                              PDict [ ("entityType", PStr "dataset");
                                      ("id", PStr "d-0") ]);
                            ("fieldChanges",
                              PList [ PDict [ ("fieldName", PStr "filePath");
                                              ("before", PStr "/a.csv");
                                              ("after", PStr "/b.csv");
                                              ("added",
                                                PList [ PDict [("name", PStr "ana")];
                                                        PDict [("name", PStr "bo")];
                                                        PDict [("name", PStr "cy")] ]);
                                              ("removed", PList []) ] ]) ] ]);
          ("affecting",
            PList [ first_dataset; second_dataset; PDict unnamed_file;
                    PDict unnamed_user ]) ].

Definition dataset_record : dict :=
  Eval vm_compute in
    match parse_event dataset_event with
    | Ok r => r
    | Raise _ => []
    end.

(** The same event inside an organization instead of a project. *)
Definition organization_event : pyval :=
  PDict [ ("timestamp", PInt 1729185360064);
          ("in", PDict [ ("entityType", PStr "organization");
                         ("id", PStr "o-1"); ("name", PStr "acme") ]) ].

Definition organization_record : dict :=
  Eval vm_compute in
    match parse_event organization_event with
    | Ok r => r
    | Raise _ => []
    end.

Definition job_record : dict :=
  Eval vm_compute in
    match parse_event job_event_with_query with
    | Ok r => r
    | Raise _ => []
    end.

(** An event without actor or action whose target entity has an id and no
    name. *)
Definition nameless_target_event : pyval :=
  PDict [ ("timestamp", PInt 1729185360064);
          ("targets",
            PList [ PDict [ ("entity",
                              PDict [ ("entityType", PStr "featureFlag");
                                      ("id", PStr "ff-3") ]) ] ]) ].

(** An event that is nothing but its timestamp. *)
Definition bare_event : pyval := PDict [("timestamp", PInt 0)].

(** Pages for a run of the driver: two full pages and a short one. *)
Definition page_reply (events : list pyval) : http_outcome :=
  Responded 200 (Some (PDict [("events", PList events)])).

Definition full_page_a : list pyval := repeat dataset_event 1000.
Definition full_page_b : list pyval := repeat job_event_with_query 1000.
Definition short_page : list pyval := [bare_event; organization_event].

Definition sample_headers : dict :=
  [("accept", PStr "application/json"); ("X-Domino-Api-Key", PStr "k")].

Definition sample_params : dict :=
  [("event", PStr "Update Dataset"); ("limit", PInt 1000);
   ("sort", PStr "-timestamp")].

(** ** Further notions used to state properties *)

(** The entries of [event.affecting] that the loop visits. *)
Definition affecting_entries (raw_event : pyval) : list pyval :=
  match field raw_event "affecting" with
  | PList entries => entries
  | _ => []
  end.

(** Whether an affecting entry writes the column [col]. *)
Definition writes_column (col : string) (entry : pyval) : bool :=
  match affecting_column entry with
  | Some c => String.eqb c col
  | None => false
  end.

(** No affecting entry of the event writes the column [col]. *)
Definition affecting_silent (raw_event : pyval) (col : string) : bool :=
  forallb (fun entry => negb (writes_column col entry))
    (affecting_entries raw_event).

(** The entityType of a target's entity. *)
Definition target_type (target : pyval) : pyval :=
  field (field target "entity") "entityType".

Definition is_job_type (entity_type : pyval) : bool :=
  py_eq_str entity_type "scheduledRun" || py_eq_str entity_type "job".

Definition is_dataset_type (entity_type : pyval) : bool :=
  py_eq_str entity_type "dataset" || py_eq_str entity_type "datasetSnapshot".

(** The entities listed under a key: the items of a list, none otherwise. *)
Definition entities_of (v : pyval) : list pyval :=
  match v with
  | PList entities => entities
  | _ => []
  end.

(** The names of the entities listed under [k] in a target's first field
    change, joined by commas; [None] for a target without field changes. *)
Definition rendered_names (target : pyval) (k : string) : pyval :=
  if py_truthy (field target "fieldChanges")
  then PStr (String.concat "," (map name_of (entities_of (first_change target k))))
  else PNone.

(** The world a run ends in. *)
Definition final_world {A} (o : outcome A) : world :=
  match o with
  | Returned _ w => w
  | Raised _ w => w
  | Starved w => w
  end.

(** The value a run returns, if it returns. *)
Definition returned {A} (o : outcome A) : option A :=
  match o with
  | Returned a _ => Some a
  | _ => None
  end.

(** The hostname without one trailing slash. *)
Definition strip_slash (hostname : string) : string :=
  if ends_with_slash hostname then drop_last hostname else hostname.

(** At least one of the two credentials is given and not empty. *)
Definition credentials_given (jwt api_key : option string) : bool :=
  py_truthy (opt_arg jwt) || py_truthy (opt_arg api_key).

(** The namespace once [main] has cleaned the hostname and replaced the
    two dates by [start] and [stop]. *)
Definition checked_namespace (hostname : string)
    (jwt api_key event actorName targetName withinProjectName : option string)
    (start stop : pyval) : dict :=
  [ ("hostname", PStr (strip_slash hostname)); ("jwt", opt_arg jwt);
    ("api_key", opt_arg api_key); ("event", opt_arg event);
    ("actorName", opt_arg actorName); ("targetName", opt_arg targetName);
    ("withinProjectName", opt_arg withinProjectName);
    ("startTimestamp", start); ("endTimestamp", stop) ].

(** An entry of the query string: absent for [None]. *)
Definition query_entry (v : pyval) : option pyval :=
  match v with
  | PNone => None
  | _ => Some v
  end.

(** *** Sample inputs *)

(** The first target of an event. *)
Definition first_target (raw_event : pyval) : pyval :=
  match field raw_event "targets" with
  | PList (target :: _) => target
  | _ => PNone
  end.

(** A role change on a user: two field changes on the first target, and a
    second target after it. *)
Definition role_change_target : dict :=
  [ ("entity",
      PDict [ ("entityType", PStr "user"); ("id", PStr "u-7");
              ("name", PStr "ana") ]);
    ("fieldChanges",
      PList [ PDict [ ("fieldName", PStr "roles");
                      ("before", PStr "Practitioner");
                      ("after", PStr "SysAdmin");
                      ("added", PList [PDict [("name", PStr "SysAdmin")]]) ];
              PDict [ ("fieldName", PStr "status");
                      ("before", PStr "active");
                      ("after", PStr "locked") ] ]) ].

Definition role_change_fields : dict :=
  [ ("timestamp", PInt 1729185360064);
    ("actor", PDict [("id", PStr "u-1")]);
    ("action", PDict [("eventName", PStr "Change Role")]);
    ("targets", PList [PDict role_change_target; nightly_job]);
    ("metadata",
      PDict [("command", PStr "run.sh"); ("query", PStr "role=SysAdmin")]) ].

Definition role_change_event : pyval := PDict role_change_fields.

Definition role_change_record : dict :=
  Eval vm_compute in
    match parse_event role_change_event with
    | Ok r => r
    | Raise _ => []
    end.

Definition nameless_target_record : dict :=
  Eval vm_compute in
    match parse_event nameless_target_event with
    | Ok r => r
    | Raise _ => []
    end.

Definition bare_record : dict :=
  Eval vm_compute in
    match parse_event bare_event with
    | Ok r => r
    | Raise _ => []
    end.

(** A page whose second event has no timestamp. *)
Definition broken_page_start : list pyval := [bare_event].
Definition broken_page_end : list pyval := [organization_event].

(** A command line: JWT and API key, one filter, a start date. *)
Definition sample_namespace : dict :=
  parse_args "https://domino.example/" (Some "tok") (Some "k") (Some "Login")
    None None None (Some "2024-10-17 17:16:00") None.

(** A file moved inside a dataset snapshot; the only affecting entry is a
    user. *)
Definition snapshot_target : pyval :=
  PDict [ ("entity",
            PDict [ ("entityType", PStr "datasetSnapshot");
                    ("id", PStr "s-4"); ("name", PStr "snap-4") ]);
          ("fieldChanges",
            PList [ PDict [ ("fieldName", PStr "filePath");
                            ("before", PStr "/a.csv");
                            ("after", PStr "/b.csv") ] ]) ].

Definition snapshot_event : pyval :=
  PDict [ ("timestamp", PInt 1729185360064);
          ("targets", PList [snapshot_target]);
          ("affecting", PList [PDict unnamed_user]) ].

Definition snapshot_record : dict :=
  Eval vm_compute in
    match parse_event snapshot_event with
    | Ok r => r
    | Raise _ => []
    end.

(** A date argument that [main] lets pass: none, an empty one, or a text
    that [validate_and_format_timestamp] turns into a timestamp. *)
Definition date_passes (unicode : Unicode.database) (utcoffset : Z -> Z)
    (date : option string) : bool :=
  match date with
  | None => true
  | Some raw =>
      String.eqb raw ""
      || is_ok (validate_and_format_timestamp unicode utcoffset raw)
  end.

(** A file that holds rows of an earlier export. *)
Definition used_world : world :=
  mkWorld (Some [[PStr "old"]; [PStr "rows"]])
    [IoCreate [PStr "old"]; IoAppend [[PStr "rows"]]].

(** An event from the last second of the year 999. *)
Definition medieval_event : pyval :=
  PDict [("timestamp", PInt (-30610224000001))].

Definition medieval_record : dict :=
  Eval vm_compute in
    match parse_event medieval_event with
    | Ok r => r
    | Raise _ => []
    end.

(** * Verification *)

(** ** Sanity checks of the library models *)

Example strftime_1729185360064 :
  bind (Datetime.fromtimestamp_ms (PInt 1729185360064))
       (fun c => Ok (Datetime.strftime c))
  = Ok "2024-10-17 17:16:00".
Proof. reflexivity. Qed.

Example strftime_before_epoch :
  bind (Datetime.fromtimestamp_ms (PInt (-1)))
       (fun c => Ok (Datetime.strftime c))
  = Ok "1969-12-31 23:59:59".
Proof. reflexivity. Qed.

Example strftime_first_second :
  bind (Datetime.fromtimestamp_ms (PInt (-62135596800000)))
       (fun c => Ok (Datetime.strftime c))
  = Ok "1-01-01 00:00:00".
Proof. reflexivity. Qed.

Example strftime_year_999 :
  bind (Datetime.fromtimestamp_ms (PInt (-30610224000001)))
       (fun c => Ok (Datetime.strftime c))
  = Ok "999-12-31 23:59:59".
Proof. reflexivity. Qed.

Example strftime_last_second :
  bind (Datetime.fromtimestamp_ms (PInt 253402300799999))
       (fun c => Ok (Datetime.strftime c))
  = Ok "9999-12-31 23:59:59".
Proof. reflexivity. Qed.

Example fromtimestamp_out_of_range :
  Datetime.fromtimestamp_ms (PInt 253402300800000) = Raise OutOfRangeError.
Proof. reflexivity. Qed.

Example decode_encode_samples :
  map (fun c => Unicode.decode (Unicode.encode c ++ "-"))
    [ 45; 160; 1634; 65296; 120782 ]
  = map (fun c => Some (c, "-")) [ 45; 160; 1634; 65296; 120782 ].
Proof. reflexivity. Qed.

Example strptime_plain :
  Strptime.strptime unicode_14 "2024-10-17 17:16:00"
  = Ok (Datetime.mkCivil 2024 10 17 17 16 0).
Proof. reflexivity. Qed.

Example strptime_short_fields :
  Strptime.strptime unicode_14 "2024-1-5  3:4:5"
  = Ok (Datetime.mkCivil 2024 1 5 3 4 5).
Proof. reflexivity. Qed.

(** Digits of another script and a no-break space are accepted where the
    expression has [\d] and [\s], and only there. *)
Example strptime_other_scripts :
  Strptime.strptime unicode_14
    (arabic_indic_2024 ++ "-10-17" ++ no_break_space ++ "17:16:00")
  = Ok (Datetime.mkCivil 2024 10 17 17 16 0)
  /\ Strptime.strptime unicode_14
       ("2024-1" ++ Unicode.encode 1634 ++ "-17 17:16:00")
     = Raise ValueError
  /\ Strptime.strptime (Unicode.mkDatabase [] [])
       (arabic_indic_2024 ++ "-10-17 17:16:00")
     = Raise ValueError.
Proof. repeat split. Qed.

Example strptime_rejects :
  map (Strptime.strptime unicode_14)
    [ "2024-13-01 00:00:00"; "2024-02-30 00:00:00"; "2024-10-17";
      "2024-10-17 24:00:00"; "2024-10-17 17:16:60"; "2024-10-17 17:16:001";
      "0000-01-01 00:00:00"; "17/10/2024 17:16:00"; "999-12-31 23:59:59"; "" ]
  = repeat (Raise ValueError) 10.
Proof. reflexivity. Qed.

Example local_to_seconds_plain :
  local_to_seconds zone_dst 500000 = Ok 503600.
Proof. reflexivity. Qed.

Example local_to_seconds_gap :
  local_to_seconds zone_dst (1000000 - 3600 + 1800) = Ok (1000000 + 1800).
Proof. reflexivity. Qed.

Example local_to_seconds_fold :
  local_to_seconds zone_dst (2000000 - 3600 + 1800) = Ok (2000000 - 3600 + 1800).
Proof. reflexivity. Qed.

(** ** The error monad and dictionaries *)

Lemma bind_ok {A B} (m : res A) (k : A -> res B) (b : B) :
  bind m k = Ok b -> exists a, m = Ok a /\ k a = Ok b.
Proof.
  destruct m as [a | e]; simpl; intros H.
  - exists a. split; [reflexivity | exact H].
  - discriminate H.
Qed.

(** Split a hypothesis [x <- m ;; k = Ok b] into its two halves. *)
Ltac bind_inv H :=
  let a := fresh "v" in
  let Ha := fresh "E" in
  apply bind_ok in H; destruct H as (a & Ha & H).

Lemma dict_lookup_set (d : dict) (k k' : string) (v : pyval) :
  dict_lookup (dict_set d k v) k'
  = if String.eqb k k' then Some v else dict_lookup d k'.
Proof.
  induction d as [| [k0 v0] d IH]; simpl.
  - reflexivity.
  - destruct (String.eqb k0 k) eqn:E0; simpl.
    + apply String.eqb_eq in E0. subst k0.
      destruct (String.eqb k k'); reflexivity.
    + rewrite IH. destruct (String.eqb k0 k') eqn:E1; [| reflexivity].
      apply String.eqb_eq in E1. subst k0. rewrite String.eqb_sym, E0.
      reflexivity.
Qed.

Lemma dict_get_d_set (d : dict) (k k' : string) (v dflt : pyval) :
  dict_get_d (dict_set d k v) k' dflt
  = if String.eqb k k' then v else dict_get_d d k' dflt.
Proof.
  unfold dict_get_d. rewrite dict_lookup_set.
  destruct (String.eqb k k'); reflexivity.
Qed.

Lemma dict_get_set (d : dict) (k k' : string) (v : pyval) :
  dict_get (dict_set d k v) k' = if String.eqb k k' then v else dict_get d k'.
Proof. apply dict_get_d_set. Qed.

Lemma dict_get_set_same (d : dict) (k : string) (v : pyval) :
  dict_get (dict_set d k v) k = v.
Proof. rewrite dict_get_set, String.eqb_refl. reflexivity. Qed.

Lemma dict_get_set_other (d : dict) (k k' : string) (v : pyval) :
  String.eqb k k' = false -> dict_get (dict_set d k v) k' = dict_get d k'.
Proof. intros E. rewrite dict_get_set, E. reflexivity. Qed.

Lemma keys_dict_set (d : dict) (k : string) (v : pyval) :
  In k (keys d) -> keys (dict_set d k v) = keys d.
Proof.
  unfold keys. induction d as [| [k0 v0] d IH]; simpl; intros Hin.
  - contradiction.
  - destruct (String.eqb k0 k) eqn:E0; simpl.
    + reflexivity.
    + f_equal. apply IH. destruct Hin as [-> | Hin]; [| exact Hin].
      rewrite String.eqb_refl in E0. discriminate E0.
Qed.

Lemma dict_lookup_in_keys (d : dict) (k : string) :
  In k (keys d) -> exists v, dict_lookup d k = Some v.
Proof.
  unfold keys. induction d as [| [k0 v0] d IH]; simpl; intros Hin.
  - contradiction.
  - destruct (String.eqb k0 k) eqn:E0.
    + eexists; reflexivity.
    + apply IH. destruct Hin as [-> | Hin]; [| exact Hin].
      rewrite String.eqb_refl in E0. discriminate E0.
Qed.

Lemma foldM_app {A B} (f : A -> B -> res A) (acc : A) (xs ys : list B) :
  foldM f acc (xs ++ ys) = (acc' <- foldM f acc xs ;; foldM f acc' ys).
Proof.
  revert acc. induction xs as [| x xs IH]; intros acc; simpl.
  - reflexivity.
  - destruct (f acc x) as [acc' | e]; simpl; [apply IH | reflexivity].
Qed.

(** ** The column set is an invariant of normalization *)

Lemma has_columns_set (parsed_event : dict) (k : string) (v : pyval) :
  is_column k -> has_columns parsed_event ->
  has_columns (dict_set parsed_event k v).
Proof.
  unfold has_columns, is_column. intros Hk Hc.
  rewrite keys_dict_set; [exact Hc | rewrite Hc; exact Hk].
Qed.

Lemma has_columns_getitem (parsed_event : dict) (k : string) :
  is_column k -> has_columns parsed_event ->
  dict_getitem parsed_event k = Ok (dict_get parsed_event k).
Proof.
  unfold has_columns, is_column. intros Hk Hc.
  rewrite <- Hc in Hk. apply dict_lookup_in_keys in Hk as [v Hv].
  unfold dict_getitem, dict_get, dict_get_d. rewrite Hv. reflexivity.
Qed.

(** Closed membership facts such as [is_column JOBS]. *)
Ltac column := unfold is_column; vm_compute; tauto.

Create HintDb columns.
#[export] Hint Resolve has_columns_set : columns.
#[export] Hint Extern 1 (is_column _) => column : columns.

Lemma project_header_columns (raw_event : pyval) (pe pe' : dict) :
  has_columns pe -> project_header raw_event pe = Ok pe' -> has_columns pe'.
Proof.
  intros Hc H. unfold project_header in H.
  repeat bind_inv H.
  destruct (py_eq_str _ "project").
  - repeat bind_inv H. injection H as <-. auto 10 with columns.
  - injection H as <-. auto 10 with columns.
Qed.

Lemma project_target_columns (raw_event : pyval) (pe pe' : dict) :
  has_columns pe -> project_target raw_event pe = Ok pe' -> has_columns pe'.
Proof.
  intros Hc H. unfold project_target in H.
  bind_inv H. destruct (py_truthy v).
  2: { injection H as <-. exact Hc. }
  repeat bind_inv H.
  repeat match type of H with
         | (if ?c then _ else _) = Ok _ => destruct c
         end;
    repeat bind_inv H; injection H as <-; auto 15 with columns.
Qed.

Lemma affecting_step_columns (pe pe' : dict) (affecting : pyval) :
  has_columns pe -> affecting_step pe affecting = Ok pe' -> has_columns pe'.
Proof.
  intros Hc H. unfold affecting_step in H.
  bind_inv H.
  repeat match type of H with
         | (if ?c then _ else _) = Ok _ => destruct c
         | _ => bind_inv H
         end;
    injection H as <-; auto with columns.
Qed.

Lemma foldM_affecting_columns (entries : list pyval) (pe pe' : dict) :
  has_columns pe -> foldM affecting_step pe entries = Ok pe' -> has_columns pe'.
Proof.
  revert pe. induction entries as [| e entries IH]; simpl; intros pe Hc H.
  - injection H as <-. exact Hc.
  - bind_inv H. eapply IH; [| exact H].
    eapply affecting_step_columns; eassumption.
Qed.

Lemma project_affecting_columns (raw_event : pyval) (pe pe' : dict) :
  has_columns pe -> project_affecting raw_event pe = Ok pe' -> has_columns pe'.
Proof.
  intros Hc H. unfold project_affecting in H.
  bind_inv H. destruct (py_truthy v).
  - bind_inv H. eapply foldM_affecting_columns; eassumption.
  - injection H as <-. exact Hc.
Qed.

Lemma project_command_columns (raw_event : pyval) (pe pe' : dict) :
  has_columns pe -> project_command raw_event pe = Ok pe' -> has_columns pe'.
Proof.
  intros Hc H. unfold project_command in H.
  repeat bind_inv H. injection H as <-. auto with columns.
Qed.

Lemma parse_event_columns (raw_event : pyval) (r : dict) :
  parse_event raw_event = Ok r -> has_columns r.
Proof.
  intros H. unfold parse_event in H.
  bind_inv H. bind_inv H. bind_inv H.
  eapply project_command_columns; [| exact H].
  eapply project_affecting_columns; [| eassumption].
  eapply project_target_columns; [| eassumption].
  eapply project_header_columns; [| eassumption].
  reflexivity.
Qed.

(** ** Serialization of a flat record *)

Lemma dict_get_d_present (d : dict) (k : string) (dflt : pyval) :
  In k (keys d) -> dict_get_d d k dflt = dict_get d k.
Proof.
  intros Hin. apply dict_lookup_in_keys in Hin as [v Hv].
  unfold dict_get, dict_get_d. rewrite Hv. reflexivity.
Qed.

Lemma csv_headers_are_the_columns :
  Permutation (keys empty_parsed_event) CSV_HEADERS.
Proof.
  unfold CSV_HEADERS, empty_parsed_event, keys. simpl.
  do 9 apply perm_skip.
  (* JOBS stands before the four value columns in the dict literal and
     after them in the header. *)
  change [JOBS; OLD_VALUE; NEW_VALUE; ADDED_VALUE; REMOVED_VALUE; COMMAND]
    with ([JOBS] ++ [OLD_VALUE; NEW_VALUE; ADDED_VALUE; REMOVED_VALUE] ++ [COMMAND]).
  change [OLD_VALUE; NEW_VALUE; ADDED_VALUE; REMOVED_VALUE; JOBS; COMMAND]
    with ([OLD_VALUE; NEW_VALUE; ADDED_VALUE; REMOVED_VALUE] ++ [JOBS] ++ [COMMAND]).
  rewrite !app_assoc. apply Permutation_app_tail, Permutation_app_comm.
Qed.

Lemma dict_to_list_columns (r : dict) :
  has_columns r ->
  dict_to_list CSV_HEADERS r = Ok (map (dict_get r) CSV_HEADERS).
Proof.
  intros Hc. unfold dict_to_list. rewrite Hc.
  replace (forallb _ (keys empty_parsed_event)) with true by (vm_compute; reflexivity).
  f_equal. apply map_ext_in. intros k Hk.
  apply dict_get_d_present. rewrite Hc.
  eapply Permutation_in; [apply Permutation_sym, csv_headers_are_the_columns | exact Hk].
Qed.

Lemma parse_page (events : list pyval) :
  Forall parses events ->
  exists parsed,
    mapM parse_event events = Ok parsed
    /\ Forall has_columns parsed
    /\ writerows parsed = (map row_of_event events, None).
Proof.
  induction 1 as [| ev events Hev _ IH]; simpl.
  - exists []. repeat split; constructor.
  - destruct IH as (parsed & Hparsed & Hcols & Hrows).
    unfold parses in Hev. unfold row_of_event at 1.
    destruct (parse_event ev) as [r | e] eqn:Er; [| discriminate Hev].
    exists (r :: parsed). simpl. rewrite Hparsed. simpl.
    pose proof (parse_event_columns _ _ Er) as Hr.
    repeat split.
    + constructor; assumption.
    + rewrite (dict_to_list_columns r Hr), Hrows. reflexivity.
Qed.

(** C7. Every flat record that normalization produces has exactly the
    fifteen columns of the dict literal, each present (possibly [None]);
    they are the header's columns up to order, without repetition; and
    the writer serializes the record, without error, as its values in
    the header's fixed order. *)
Theorem flat_record_has_fixed_columns (raw_event : pyval) (r : dict) :
  parse_event raw_event = Ok r ->
  keys r = [ UTC_TIMESTAMP; USER_NAME; EVENT; TARGET_NAME; PROJECT_NAME;
             DATASET_NAME; FILE_NAME; TARGET_USER; FEATURE_FLAG; JOBS;
             OLD_VALUE; NEW_VALUE; ADDED_VALUE; REMOVED_VALUE; COMMAND ]
  /\ Permutation (keys r) CSV_HEADERS
  /\ NoDup CSV_HEADERS
  /\ dict_to_list CSV_HEADERS r = Ok (map (dict_get r) CSV_HEADERS).
Proof.
  intros H. apply parse_event_columns in H.
  split; [exact H |]. split; [| split].
  - rewrite H. apply csv_headers_are_the_columns.
  - unfold CSV_HEADERS.
    repeat (constructor; [vm_compute; intuition discriminate |]).
    constructor.
  - apply dict_to_list_columns. exact H.
Qed.

(** ** Reading the raw event *)

Lemma py_get_inv (o : pyval) (k : string) (dflt v : pyval) :
  py_get o k dflt = Ok v ->
  exists d, o = PDict d /\ v = dict_get_d d k dflt.
Proof.
  destruct o; simpl; intros H; try discriminate H.
  injection H as <-. eexists; split; reflexivity.
Qed.

(** [raw_event.get(k, {}).get(k2)] reads the path [k], [k2]. *)
Lemma get_sub_field (o : pyval) (k k2 : string) (sub v : pyval) :
  py_get o k (PDict []) = Ok sub ->
  py_get sub k2 PNone = Ok v ->
  v = field (field o k) k2.
Proof.
  intros H1 H2.
  apply py_get_inv in H1 as (d & -> & ->).
  apply py_get_inv in H2 as (d2 & Hd2 & ->).
  simpl. unfold dict_get, dict_get_d in *.
  destruct (dict_lookup d k) as [x |].
  - subst x. reflexivity.
  - injection Hd2 as <-. reflexivity.
Qed.

(** [e.get("name", e.get("id"))] on [e = raw_event.get(k, {})] is the
    display name of the entity under [k]. *)
Lemma get_sub_display (o : pyval) (k : string) (sub i n : pyval) :
  py_get o k (PDict []) = Ok sub ->
  py_get sub "id" PNone = Ok i ->
  py_get sub "name" i = Ok n ->
  n = display_name (field o k).
Proof.
  intros H1 H2 H3.
  apply py_get_inv in H1 as (d & -> & ->).
  apply py_get_inv in H2 as (d2 & Hd2 & ->).
  rewrite Hd2 in H3. simpl in H3. injection H3 as <-.
  simpl. unfold dict_get, dict_get_d in *.
  destruct (dict_lookup d k) as [x |].
  - subst x. reflexivity.
  - injection Hd2 as <-. reflexivity.
Qed.

Lemma get_display (e i n : pyval) :
  py_get e "id" PNone = Ok i ->
  py_get e "name" i = Ok n ->
  n = display_name e.
Proof.
  intros H2 H3.
  apply py_get_inv in H2 as (d & -> & ->).
  simpl in H3. injection H3 as <-. reflexivity.
Qed.

Lemma get_field (e : pyval) (k : string) (v : pyval) :
  py_get e k PNone = Ok v -> v = field e k.
Proof.
  intros H. apply py_get_inv in H as (d & -> & ->). reflexivity.
Qed.

(** ** Which columns each stage writes *)

Ltac untouched_inv :=
  unfold untouched in *;
  repeat match goal with
         | H : Forall _ (_ :: _) |- _ =>
             apply Forall_cons_iff in H; destruct H as [? H]
         end.

(** Close [dict_get (dict_set ... ) k = dict_get pe k] when every written
    column is known to differ from [k]. *)
Ltac frame :=
  rewrite ?dict_get_set_other by (assumption || reflexivity); reflexivity.

Lemma project_header_frame (raw_event : pyval) (pe pe' : dict) (k : string) :
  project_header raw_event pe = Ok pe' ->
  untouched [UTC_TIMESTAMP; USER_NAME; EVENT; PROJECT_NAME] k ->
  dict_get pe' k = dict_get pe k.
Proof.
  intros H Hk. untouched_inv. unfold project_header in H.
  repeat bind_inv H.
  destruct (py_eq_str _ "project").
  - repeat bind_inv H. injection H as <-. frame.
  - injection H as <-. frame.
Qed.

Lemma project_target_frame (raw_event : pyval) (pe pe' : dict) (k : string) :
  project_target raw_event pe = Ok pe' ->
  untouched [ TARGET_NAME; OLD_VALUE; NEW_VALUE; ADDED_VALUE; REMOVED_VALUE;
              TARGET_USER; DATASET_NAME; FILE_NAME; JOBS; COMMAND;
              FEATURE_FLAG ] k ->
  dict_get pe' k = dict_get pe k.
Proof.
  intros H Hk. untouched_inv. unfold project_target in H.
  bind_inv H. destruct (py_truthy v).
  2: { injection H as <-. reflexivity. }
  repeat bind_inv H.
  repeat match type of H with
         | (if ?c then _ else _) = Ok _ => destruct c
         end;
    repeat bind_inv H; injection H as <-; frame.
Qed.

Lemma affecting_step_frame (pe pe' : dict) (affecting : pyval) (k : string) :
  affecting_step pe affecting = Ok pe' ->
  untouched [DATASET_NAME; TARGET_USER; FILE_NAME] k ->
  dict_get pe' k = dict_get pe k.
Proof.
  intros H Hk. untouched_inv. unfold affecting_step in H.
  bind_inv H.
  repeat match type of H with
         | (if ?c then _ else _) = Ok _ => destruct c
         | _ => bind_inv H
         end;
    injection H as <-; frame.
Qed.

Lemma foldM_affecting_frame (entries : list pyval) (pe pe' : dict) (k : string) :
  foldM affecting_step pe entries = Ok pe' ->
  untouched [DATASET_NAME; TARGET_USER; FILE_NAME] k ->
  dict_get pe' k = dict_get pe k.
Proof.
  revert pe. induction entries as [| e entries IH]; simpl; intros pe H Hk.
  - injection H as <-. reflexivity.
  - bind_inv H. rewrite (IH _ H Hk).
    eapply affecting_step_frame; eassumption.
Qed.

Lemma project_affecting_frame (raw_event : pyval) (pe pe' : dict) (k : string) :
  project_affecting raw_event pe = Ok pe' ->
  untouched [DATASET_NAME; TARGET_USER; FILE_NAME] k ->
  dict_get pe' k = dict_get pe k.
Proof.
  intros H Hk. unfold project_affecting in H.
  bind_inv H. destruct (py_truthy v).
  - bind_inv H. eapply foldM_affecting_frame; eassumption.
  - injection H as <-. reflexivity.
Qed.

Lemma project_command_frame (raw_event : pyval) (pe pe' : dict) (k : string) :
  project_command raw_event pe = Ok pe' ->
  untouched [COMMAND] k ->
  dict_get pe' k = dict_get pe k.
Proof.
  intros H Hk. untouched_inv. unfold project_command in H.
  repeat bind_inv H. injection H as <-. frame.
Qed.

(** Closed instances of [untouched], such as
    [untouched [COMMAND] PROJECT_NAME]. *)
Ltac untouched_closed := unfold untouched; repeat constructor.

(** ** The project-name column *)

Lemma project_header_project_name (raw_event : pyval) (pe pe' : dict) :
  project_header raw_event pe = Ok pe' ->
  dict_get pe' PROJECT_NAME
  = if py_eq_str (field (field raw_event "in") "entityType") "project"
    then display_name (field raw_event "in")
    else dict_get pe PROJECT_NAME.
Proof.
  intros H. unfold project_header in H.
  do 7 bind_inv H. bind_inv H. bind_inv H.
  rewrite <- (get_sub_field _ _ _ _ _ E6 E7).
  destruct (py_eq_str v7 "project").
  - bind_inv H. bind_inv H. injection H as <-.
    rewrite dict_get_set_same.
    eapply get_sub_display; eassumption.
  - injection H as <-. frame.
Qed.

(** C9. The project-name column is the containing scope's display name
    (its name, else its id) when the scope's entityType is "project", and
    is [None] for every other entityType and for an absent scope: neither
    the target nor the affecting projection writes it.  Hence a non-null
    project name only ever comes from a project scope. *)
Theorem project_name_iff_project_scope (raw_event : pyval) (r : dict) :
  parse_event raw_event = Ok r ->
  let scope := field raw_event "in" in
  (py_eq_str (field scope "entityType") "project" = true ->
   dict_get r PROJECT_NAME = display_name scope)
  /\ (py_eq_str (field scope "entityType") "project" = false ->
      dict_get r PROJECT_NAME = PNone)
  /\ (dict_get r PROJECT_NAME <> PNone ->
      field scope "entityType" = PStr "project").
Proof.
  intros H scope. unfold parse_event in H.
  bind_inv H. bind_inv H. bind_inv H.
  assert (Hr : dict_get r PROJECT_NAME
               = if py_eq_str (field scope "entityType") "project"
                 then display_name scope else PNone).
  { rewrite (project_command_frame _ _ _ _ H) by untouched_closed.
    rewrite (project_affecting_frame _ _ _ _ E1) by untouched_closed.
    rewrite (project_target_frame _ _ _ _ E0) by untouched_closed.
    rewrite (project_header_project_name _ _ _ E). reflexivity. }
  rewrite Hr. split; [| split].
  - intros ->. reflexivity.
  - intros ->. reflexivity.
  - destruct (field scope "entityType") as [| | | s | |] eqn:Et; simpl;
      try (intros Hn; exfalso; apply Hn; reflexivity).
    destruct (String.eqb s "project") eqn:Es.
    + apply String.eqb_eq in Es. subst s. reflexivity.
    + intros Hn; exfalso; apply Hn; reflexivity.
Qed.

(** ** The affecting-entity loop *)

Lemma py_eq_str_true (v : pyval) (s : string) :
  py_eq_str v s = true -> v = PStr s.
Proof.
  destruct v; simpl; try discriminate.
  intros H. apply String.eqb_eq in H. subst. reflexivity.
Qed.

Lemma affecting_column_cases (entry : pyval) (col : string) :
  affecting_column entry = Some col ->
  col = DATASET_NAME \/ col = TARGET_USER \/ col = FILE_NAME.
Proof.
  unfold affecting_column.
  destruct (py_eq_str _ "dataset"); [intros [= <-]; auto |].
  destruct (py_eq_str _ "appliedUser" || py_eq_str _ "user");
    [intros [= <-]; auto |].
  destruct (py_eq_str _ "file"); [intros [= <-]; auto | discriminate].
Qed.

(** An entry writes its value into its column ... *)
Lemma affecting_step_value (pe pe' : dict) (entry : pyval) (col : string) :
  affecting_step pe entry = Ok pe' ->
  affecting_column entry = Some col ->
  dict_get pe' col = affecting_value entry.
Proof.
  intros H Hcol. unfold affecting_step in H.
  unfold affecting_column, affecting_value in *.
  bind_inv H. apply get_field in E. subst v.
  destruct (py_eq_str (field entry "entityType") "dataset") eqn:Ed.
  - do 2 bind_inv H. injection H as <-. injection Hcol as <-.
    apply py_eq_str_true in Ed. rewrite Ed. simpl.
    rewrite dict_get_set_same. eapply get_display; eassumption.
  - bind_inv H. apply get_field in E. subst v.
    destruct (py_eq_str (field entry "entityType") "appliedUser"
              || py_eq_str (field entry "entityType") "user") eqn:Eu.
    + do 2 bind_inv H. injection H as <-. injection Hcol as <-.
      rewrite dict_get_set_same.
      apply orb_true_iff in Eu as [Eu | Eu];
        apply py_eq_str_true in Eu; rewrite Eu; simpl;
        eapply get_display; eassumption.
    + bind_inv H. apply get_field in E. subst v.
      destruct (py_eq_str (field entry "entityType") "file") eqn:Ef;
        [| discriminate Hcol].
      bind_inv H. injection H as <-. injection Hcol as <-.
      rewrite dict_get_set_same. eapply get_field; eassumption.
Qed.

(** ... and leaves every other column as it was. *)
Lemma affecting_step_other (pe pe' : dict) (entry : pyval) (col : string) :
  affecting_step pe entry = Ok pe' ->
  affecting_column entry <> Some col ->
  dict_get pe' col = dict_get pe col.
Proof.
  intros H Hcol. unfold affecting_step in H. unfold affecting_column in Hcol.
  assert (Hne : forall c, Some c <> Some col -> String.eqb c col = false).
  { intros c Hc. apply String.eqb_neq. congruence. }
  bind_inv H. apply get_field in E. subst v.
  destruct (py_eq_str (field entry "entityType") "dataset").
  - do 2 bind_inv H. injection H as <-.
    apply dict_get_set_other, Hne, Hcol.
  - bind_inv H. apply get_field in E. subst v.
    destruct (py_eq_str (field entry "entityType") "appliedUser"
              || py_eq_str (field entry "entityType") "user").
    + do 2 bind_inv H. injection H as <-.
      apply dict_get_set_other, Hne, Hcol.
    + bind_inv H. apply get_field in E. subst v.
      destruct (py_eq_str (field entry "entityType") "file").
      * bind_inv H. injection H as <-.
        apply dict_get_set_other, Hne, Hcol.
      * injection H as <-. reflexivity.
Qed.

Lemma foldM_affecting_other (entries : list pyval) (pe pe' : dict) (col : string) :
  foldM affecting_step pe entries = Ok pe' ->
  Forall (fun entry => affecting_column entry <> Some col) entries ->
  dict_get pe' col = dict_get pe col.
Proof.
  revert pe. induction entries as [| e entries IH]; simpl; intros pe H Hall.
  - injection H as <-. reflexivity.
  - bind_inv H. apply Forall_cons_iff in Hall as [He Hall].
    rewrite (IH _ H Hall). eapply affecting_step_other; eassumption.
Qed.

(** Last write wins: the column holds what its last writer put there. *)
Lemma foldM_affecting_last (before after : list pyval) (entry : pyval)
    (pe pe' : dict) (col : string) :
  foldM affecting_step pe (before ++ entry :: after) = Ok pe' ->
  affecting_column entry = Some col ->
  Forall (fun later => affecting_column later <> Some col) after ->
  dict_get pe' col = affecting_value entry.
Proof.
  intros H Hcol Hafter. rewrite foldM_app in H.
  bind_inv H. simpl in H. bind_inv H.
  rewrite (foldM_affecting_other _ _ _ _ H Hafter).
  eapply affecting_step_value; eassumption.
Qed.

Lemma field_list_get (o : pyval) (k : string) (dflt v : pyval)
    (x : pyval) (xs : list pyval) :
  field o k = PList (x :: xs) ->
  py_get o k dflt = Ok v ->
  v = PList (x :: xs).
Proof.
  intros Hf H. apply py_get_inv in H as (d & -> & ->).
  simpl in Hf. unfold dict_get, dict_get_d in *.
  destruct (dict_lookup d k); [exact Hf | discriminate Hf].
Qed.

Lemma parse_event_affecting_last (raw_event : pyval) (r : dict)
    (before after : list pyval) (entry : pyval) (col : string) :
  parse_event raw_event = Ok r ->
  field raw_event "affecting" = PList (before ++ entry :: after) ->
  affecting_column entry = Some col ->
  Forall (fun later => affecting_column later <> Some col) after ->
  dict_get r col = affecting_value entry.
Proof.
  intros H Hf Hcol Hafter. unfold parse_event in H.
  bind_inv H. bind_inv H. bind_inv H.
  assert (Hc : untouched [COMMAND] col).
  { apply affecting_column_cases in Hcol as [-> | [-> | ->]];
      untouched_closed. }
  rewrite (project_command_frame _ _ _ _ H Hc).
  unfold project_affecting in E1. bind_inv E1.
  assert (Hv : v2 = PList (before ++ entry :: after)).
  { destruct before; simpl in *; eapply field_list_get; eassumption. }
  subst v2.
  replace (py_truthy (PList (before ++ entry :: after))) with true in E1
    by (destruct before; reflexivity).
  cbn [py_iter bind] in E1.
  eapply foldM_affecting_last; eassumption.
Qed.

(** C3. Normalization walks all entries of [event.affecting] in order; an
    entry of type "dataset" writes the dataset-name column, one of type
    "appliedUser" or "user" the target-user column, one of type "file"
    the file-name column.  Whatever stands before it, the last entry that
    writes a column decides the column's value in the flat record. *)
Theorem affecting_last_write_wins (raw_event : pyval) (r : dict)
    (before after : list pyval) (entry : pyval) (col : string) :
  parse_event raw_event = Ok r ->
  field raw_event "affecting" = PList (before ++ entry :: after) ->
  affecting_column entry = Some col ->
  Forall (fun later => affecting_column later <> Some col) after ->
  (col = DATASET_NAME \/ col = TARGET_USER \/ col = FILE_NAME)
  /\ dict_get r col = affecting_value entry.
Proof.
  intros H Hf Hcol Hafter. split.
  - eapply affecting_column_cases; eassumption.
  - eapply parse_event_affecting_last; eassumption.
Qed.

(** C10. An affecting entry of type "file" gives the file-name column its
    name and nothing else: without a "name" key the column is [None],
    whether or not the entry has an id.  An affecting entry of type
    "dataset", "user" or "appliedUser" without a "name" key gives its
    column the entry's id. *)
Theorem affecting_file_has_no_id_fallback (raw_event : pyval) (r : dict)
    (before after : list pyval) (d : dict) (col : string) :
  parse_event raw_event = Ok r ->
  field raw_event "affecting" = PList (before ++ PDict d :: after) ->
  affecting_column (PDict d) = Some col ->
  Forall (fun later => affecting_column later <> Some col) after ->
  dict_lookup d "name" = None ->
  dict_get r col = if String.eqb col FILE_NAME then PNone else dict_get d "id".
Proof.
  intros H Hf Hcol Hafter Hname.
  rewrite (parse_event_affecting_last _ _ _ _ _ _ H Hf Hcol Hafter).
  unfold affecting_column, affecting_value in *. simpl in *.
  unfold dict_get_d. unfold dict_get at 2, dict_get_d. rewrite Hname.
  destruct (py_eq_str (dict_get d "entityType") "dataset") eqn:Ed.
  - injection Hcol as <-. apply py_eq_str_true in Ed. rewrite Ed. reflexivity.
  - destruct (py_eq_str (dict_get d "entityType") "appliedUser"
              || py_eq_str (dict_get d "entityType") "user") eqn:Eu.
    + injection Hcol as <-.
      apply orb_true_iff in Eu as [Eu | Eu];
        apply py_eq_str_true in Eu; rewrite Eu; reflexivity.
    + destruct (py_eq_str (dict_get d "entityType") "file") eqn:Ef;
        [| discriminate Hcol].
      injection Hcol as <-. reflexivity.
Qed.

(** ** The target flattener *)

Lemma get_list_truthy (o : pyval) (k : string) (v : pyval) :
  py_get o k (PList []) = Ok v -> py_truthy v = true -> v = field o k.
Proof.
  intros H Ht. apply py_get_inv in H as (d & -> & ->).
  simpl. unfold dict_get, dict_get_d in *.
  destruct (dict_lookup d k); [reflexivity | discriminate Ht].
Qed.

Lemma get_list_falsy (o : pyval) (k : string) (v : pyval) :
  py_get o k (PList []) = Ok v -> py_truthy v = false ->
  py_truthy (field o k) = false.
Proof.
  intros H Ht. apply py_get_inv in H as (d & -> & ->).
  simpl. unfold dict_get, dict_get_d in *.
  destruct (dict_lookup d k); [exact Ht | reflexivity].
Qed.

(** When [o[0]] exists and has a [get] method, [o] is a list and [o[0]]
    its head. *)
Lemma getitem_0_dict (o first : pyval) (k : string) (dflt v : pyval) :
  py_getitem_0 o = Ok first ->
  py_get first k dflt = Ok v ->
  exists rest, o = PList (first :: rest).
Proof.
  intros H0 Hg. apply py_get_inv in Hg as (d & -> & _).
  destruct o as [| | | s | [| x xs] |]; simpl in H0; try discriminate H0.
  - destruct s; discriminate H0.
  - injection H0 as ->. exists xs. reflexivity.
Qed.

(** What the flattened target holds, in terms of the raw target. *)
Lemma flatten_target_fields (target_raw : pyval) (td : dict) :
  flatten_target target_raw = Ok td ->
  dict_lookup td "entityType"
  = Some (field (field target_raw "entity") "entityType")
  /\ dict_get td "name" = display_name (field target_raw "entity")
  /\ dict_get td "fieldName" = first_change target_raw "fieldName"
  /\ dict_get td "before" = first_change target_raw "before"
  /\ dict_get td "after" = first_change target_raw "after".
Proof.
  intros H. unfold flatten_target in H.
  do 5 bind_inv H.
  pose proof (get_sub_field _ _ _ _ _ E E0) as Htype.
  pose proof (get_sub_display _ _ _ _ _ E E1 E2) as Hname.
  subst v0 v2.
  destruct (py_truthy v3) eqn:Ht.
  - bind_inv H.
    pose proof (get_list_truthy _ _ _ E3 Ht) as Hv3.
    do 5 bind_inv H.
    destruct (getitem_0_dict _ _ _ _ _ E4 E5) as [rest Hrest].
    assert (Hfc : forall k, first_change target_raw k = field v0 k).
    { intros k. unfold first_change. rewrite <- Hv3, Hrest. reflexivity. }
    apply get_field in E5, E7, E8.
    do 4 bind_inv H. injection H as <-.
    rewrite !Hfc, <- E5, <- E7, <- E8.
    repeat split; reflexivity.
  - injection H as <-.
    pose proof (get_list_falsy _ _ _ E3 Ht) as Hf.
    assert (Hfc : forall k, first_change target_raw k = PNone).
    { intros k. unfold first_change.
      destruct (field target_raw "fieldChanges") as [| | | | [| c cs] |];
        try reflexivity. discriminate Hf. }
    rewrite !Hfc. repeat split; reflexivity.
Qed.

Lemma dict_getitem_get (d : dict) (k : string) (v : pyval) :
  dict_getitem d k = Ok v -> dict_get d k = v.
Proof.
  unfold dict_getitem, dict_get, dict_get_d.
  destruct (dict_lookup d k); [intros [= ->]; reflexivity | discriminate].
Qed.

Lemma dict_lookup_getitem (d : dict) (k : string) (v : pyval) :
  dict_lookup d k = Some v -> dict_getitem d k = Ok v.
Proof. unfold dict_getitem. intros ->. reflexivity. Qed.

Lemma dict_lookup_get (d : dict) (k : string) (v : pyval) :
  dict_lookup d k = Some v -> dict_get d k = v.
Proof. unfold dict_get, dict_get_d. intros ->. reflexivity. Qed.

(** ** The first target *)

(** Evaluate comparisons between column names. *)
Ltac eqb_closed :=
  repeat match goal with
         | |- context [String.eqb ?a ?b] =>
             let r := eval vm_compute in (String.eqb a b) in
             change (String.eqb a b) with r
         end;
  cbv iota.

Ltac eqb_closed_in H :=
  repeat match type of H with
         | context [String.eqb ?a ?b] =>
             let r := eval vm_compute in (String.eqb a b) in
             change (String.eqb a b) with r in H
         end;
  cbv iota in H.

Lemma project_target_job (raw_event : pyval) (pe pe' : dict)
    (target : pyval) (rest : list pyval) :
  project_target raw_event pe = Ok pe' ->
  field raw_event "targets" = PList (target :: rest) ->
  py_eq_str (field (field target "entity") "entityType") "scheduledRun"
  || py_eq_str (field (field target "entity") "entityType") "job" = true ->
  dict_get pe' JOBS = display_name (field target "entity")
  /\ dict_get pe' COMMAND = field (field raw_event "metadata") "command"
  /\ dict_get pe' NEW_VALUE
     = py_or (field (field raw_event "metadata") "schedule")
             (first_change target "after").
Proof.
  intros H Hf Hjob. unfold project_target in H.
  bind_inv H. apply (field_list_get _ _ _ _ _ _ Hf) in E. subst v.
  cbn [py_truthy py_getitem_0 bind] in H.
  bind_inv H. bind_inv H.
  destruct (flatten_target_fields _ _ E) as (Htype & Hname & _ & _ & Hafter).
  apply dict_lookup_getitem in Htype. rewrite Htype in E0.
  injection E0 as <-.
  rewrite Hname, Hafter in H.
  assert (Hty : field (field target "entity") "entityType" = PStr "scheduledRun"
                \/ field (field target "entity") "entityType" = PStr "job").
  { apply orb_true_iff in Hjob as [Hj | Hj]; apply py_eq_str_true in Hj; auto. }
  destruct Hty as [Hty | Hty]; rewrite Hty in H;
    cbn [py_eq_str String.eqb Ascii.eqb Bool.eqb orb] in H;
    do 4 bind_inv H;
    pose proof (get_sub_field _ _ _ _ _ E0 E1) as Hcommand;
    pose proof (get_sub_field _ _ _ _ _ E2 E3) as Hschedule;
    subst v1 v3; bind_inv H; injection H as <-;
    unfold dict_getitem in E4; rewrite !dict_lookup_set in E4;
    rewrite !dict_get_set; eqb_closed_in E4; eqb_closed;
    (repeat split; try reflexivity);
    unfold py_or; destruct (py_truthy _); injection E4 as <-; reflexivity.
Qed.

Lemma project_command_value (raw_event : pyval) (pe pe' : dict) :
  project_command raw_event pe = Ok pe' ->
  dict_get pe' COMMAND
  = py_or (dict_get pe COMMAND) (field (field raw_event "metadata") "query").
Proof.
  intros H. unfold project_command in H.
  bind_inv H. apply dict_getitem_get in E. rewrite E.
  bind_inv H. injection H as <-. rewrite dict_get_set_same.
  unfold py_or. destruct (py_truthy v).
  - injection E0 as <-. reflexivity.
  - bind_inv E0. eapply get_sub_field; eassumption.
Qed.

(** The target-name column is the display name of the first target's
    entity, whatever the entity's type. *)
Lemma project_target_name (raw_event : pyval) (pe pe' : dict)
    (target : pyval) (rest : list pyval) :
  project_target raw_event pe = Ok pe' ->
  field raw_event "targets" = PList (target :: rest) ->
  dict_get pe' TARGET_NAME = display_name (field target "entity").
Proof.
  intros H Hf. unfold project_target in H.
  bind_inv H. apply (field_list_get _ _ _ _ _ _ Hf) in E. subst v.
  cbn [py_truthy py_getitem_0 bind] in H.
  bind_inv H. bind_inv H.
  destruct (flatten_target_fields _ _ E) as (_ & Hname & _).
  rewrite Hname in H.
  repeat match type of H with
         | (if ?c then _ else _) = Ok _ => destruct c
         end;
    repeat bind_inv H; injection H as <-;
    rewrite !dict_get_set; eqb_closed; reflexivity.
Qed.

(** C5 (amended). For an event whose first target has entityType
    "scheduledRun" or "job", the jobs column is the target's display
    name; the command column is [metadata.command] when that is truthy and
    [metadata.query] otherwise; the new-value column is
    [metadata.schedule] when that is truthy and the first field change's
    after value otherwise. *)
Theorem job_target_projection (raw_event : pyval) (r : dict)
    (target : pyval) (rest : list pyval) :
  parse_event raw_event = Ok r ->
  field raw_event "targets" = PList (target :: rest) ->
  py_eq_str (field (field target "entity") "entityType") "scheduledRun"
  || py_eq_str (field (field target "entity") "entityType") "job" = true ->
  let metadata := field raw_event "metadata" in
  dict_get r JOBS = display_name (field target "entity")
  /\ dict_get r COMMAND = py_or (field metadata "command") (field metadata "query")
  /\ dict_get r NEW_VALUE
     = py_or (field metadata "schedule") (first_change target "after").
Proof.
  intros H Hf Hjob metadata. unfold parse_event in H.
  bind_inv H. bind_inv H. bind_inv H.
  destruct (project_target_job _ _ _ _ _ E0 Hf Hjob) as (Hjobs & Hcmd & Hnew).
  split; [| split].
  - rewrite (project_command_frame _ _ _ _ H) by untouched_closed.
    rewrite (project_affecting_frame _ _ _ _ E1) by untouched_closed.
    exact Hjobs.
  - rewrite (project_command_value _ _ _ H).
    rewrite (project_affecting_frame _ _ _ _ E1) by untouched_closed.
    rewrite Hcmd. reflexivity.
  - rewrite (project_command_frame _ _ _ _ H) by untouched_closed.
    rewrite (project_affecting_frame _ _ _ _ E1) by untouched_closed.
    exact Hnew.
Qed.

(** The command column of a job event without [metadata.command] is the
    metadata query, not [None]. *)
Lemma job_command_column_is_query :
  exists r,
    parse_event job_event_with_query = Ok r
    /\ field (field job_event_with_query "metadata") "command" = PNone
    /\ dict_get r COMMAND = PStr "SELECT 1".
Proof. eexists. repeat split. Qed.

(** A schedule that is present but empty does not override the after
    value. *)
Lemma job_empty_schedule_keeps_after :
  exists r,
    parse_event job_event_with_empty_schedule = Ok r
    /\ dict_lookup [("schedule", PStr "")] "schedule" = Some (PStr "")
    /\ dict_get r NEW_VALUE = PStr "0 0 * * *".
Proof. eexists. repeat split. Qed.

(** ** Joining the names of added and removed entities *)

Lemma mapM_names (entities : list pyval) :
  forallb named_entity entities = true ->
  mapM (fun obj => py_get obj "name" PNone) entities
  = Ok (map (fun e => PStr (name_of e)) entities).
Proof.
  induction entities as [| e entities IH]; simpl; intros H.
  - reflexivity.
  - apply andb_true_iff in H as [He H]. rewrite (IH H).
    unfold named_entity, name_of in *.
    destruct e; simpl in *; try discriminate He;
      try (destruct (dict_get entries "name"); discriminate He).
    unfold dict_get in *. 
    destruct (dict_get_d entries "name" PNone); try discriminate He.
    reflexivity.
Qed.

Lemma mapM_as_str (strs : list string) :
  mapM as_str (map PStr strs) = Ok strs.
Proof.
  induction strs as [| s strs IH]; simpl; [reflexivity |].
  rewrite IH. reflexivity.
Qed.

Lemma join_names_named (entities : list pyval) :
  forallb named_entity entities = true ->
  join_names (PList entities)
  = Ok (PStr (String.concat "," (map name_of entities))).
Proof.
  intros H. unfold join_names. cbn [py_iter bind].
  rewrite (mapM_names _ H). cbn [bind]. unfold str_join.
  rewrite <- (map_map name_of PStr), mapM_as_str. reflexivity.
Qed.

Lemma mapM_as_str_raises (items : list pyval) :
  Exists (fun v => forall s, v <> PStr s) items ->
  mapM as_str items = Raise TypeError.
Proof.
  induction 1 as [v items Hv | v items _ IH]; simpl.
  - destruct v; try reflexivity. exfalso. eapply Hv. reflexivity.
  - rewrite IH. destruct v; reflexivity.
Qed.

(** One entity without a string name makes the join raise. *)
Lemma join_names_unnamed (entities : list pyval) :
  forallb is_dict entities = true ->
  Exists (fun e => forall s, field e "name" <> PStr s) entities ->
  join_names (PList entities) = Raise TypeError.
Proof.
  intros Hd Hex. unfold join_names. cbn [py_iter bind].
  assert (Hm : mapM (fun obj => py_get obj "name" PNone) entities
               = Ok (map (fun e => field e "name") entities)).
  { clear Hex. induction entities as [| e entities IH]; simpl in *.
    - reflexivity.
    - apply andb_true_iff in Hd as [He Hd]. rewrite (IH Hd).
      destruct e; try discriminate He. reflexivity. }
  rewrite Hm. cbn [bind]. unfold str_join.
  rewrite mapM_as_str_raises; [reflexivity |].
  apply Exists_exists in Hex as (e & Hin & He).
  apply Exists_exists. exists (field e "name"). split; [| exact He].
  apply in_map_iff. exists e. split; [reflexivity | exact Hin].
Qed.

(** ** Events of the expected shape are normalized without error *)

Lemma sub_dict_ok (d : dict) (k : string) :
  absent_or is_dict d k = true ->
  exists e, dict_get_d d k (PDict []) = PDict e.
Proof.
  unfold absent_or, dict_get_d.
  destruct (dict_lookup d k) as [v |]; intros H.
  - destruct v; try discriminate H. eexists; reflexivity.
  - eexists; reflexivity.
Qed.

Lemma join_names_ok (d : dict) (k : string) :
  absent_or named_entities d k = true ->
  exists s, join_names (dict_get_d d k (PList [])) = Ok (PStr s).
Proof.
  unfold absent_or, dict_get_d.
  destruct (dict_lookup d k) as [v |]; intros H.
  - destruct v; try discriminate H.
    eexists. apply join_names_named. exact H.
  - eexists; reflexivity.
Qed.

Lemma head_shape_cases (ok : pyval -> bool) (d : dict) (k : string) :
  absent_or (head_shape ok) d k = true ->
  py_truthy (dict_get_d d k (PList [])) = false
  \/ exists x xs, dict_get_d d k (PList []) = PList (x :: xs) /\ ok x = true.
Proof.
  unfold absent_or, dict_get_d.
  destruct (dict_lookup d k) as [[| | | | [| x xs] |] |]; simpl; intros H;
    try discriminate H; auto.
  right. exists x, xs. auto.
Qed.

Lemma flatten_target_ok (target_raw : pyval) :
  target_shape target_raw = true ->
  exists td, flatten_target target_raw = Ok td.
Proof.
  destruct target_raw as [| | | | | d]; try discriminate.
  simpl. intros H.
  apply andb_true_iff in H as [Hentity Hchanges].
  destruct (sub_dict_ok _ _ Hentity) as [e He].
  unfold flatten_target. cbn [bind py_get]. rewrite He. cbn [bind py_get].
  destruct (head_shape_cases _ _ _ Hchanges) as [-> | (c & cs & -> & Hc)];
    [eexists; reflexivity |].
  cbn [py_truthy py_getitem_0 bind].
  destruct c as [| | | | | cd]; try discriminate Hc.
  simpl in Hc. apply andb_true_iff in Hc as [Hadded Hremoved].
  cbn [py_get bind].
  destruct (join_names_ok _ _ Hadded) as [sa ->].
  destruct (join_names_ok _ _ Hremoved) as [sr ->].
  cbn [bind]. eexists; reflexivity.
Qed.

Lemma project_header_ok (d : dict) (pe : dict) :
  event_shape (PDict d) = true ->
  exists pe', project_header (PDict d) pe = Ok pe'.
Proof.
  simpl. intros H.
  repeat (apply andb_true_iff in H as [H ?]).
  unfold project_header. cbn [py_getitem_str]. unfold dict_getitem.
  destruct (dict_lookup d "timestamp") as [ms |]; [| discriminate H].
  destruct ms as [| | z | | |]; try discriminate H. simpl in H.
  cbn [bind Datetime.fromtimestamp_ms]. rewrite H. cbn [bind py_get].
  destruct (sub_dict_ok d "actor") as [actor ->]; [assumption |].
  cbn [bind py_get].
  destruct (sub_dict_ok d "action") as [action ->]; [assumption |].
  cbn [bind py_get].
  destruct (sub_dict_ok d "in") as [scope ->]; [assumption |].
  cbn [bind py_get].
  destruct (py_eq_str _ "project"); eexists; reflexivity.
Qed.

Lemma project_target_ok (d : dict) (pe : dict) :
  event_shape (PDict d) = true ->
  exists pe', project_target (PDict d) pe = Ok pe'.
Proof.
  simpl. intros H.
  repeat (apply andb_true_iff in H as [H ?]).
  unfold project_target. cbn [py_get bind].
  match goal with Ht : absent_or (head_shape _) _ _ = true |- _ =>
    destruct (head_shape_cases _ _ _ Ht) as [-> | (t & ts & -> & Htargets)]
  end; [eexists; reflexivity |].
  cbn [py_truthy py_getitem_0 bind].
  destruct (flatten_target_ok _ Htargets) as [td Htd]. rewrite Htd.
  cbn [bind].
  destruct (flatten_target_fields _ _ Htd) as (Htype & _).
  rewrite (dict_lookup_getitem _ _ _ Htype). cbn [bind].
  destruct (sub_dict_ok d "metadata") as [metadata Hmeta]; [assumption |].
  repeat match goal with
         | |- exists _, (if ?c then _ else _) = Ok _ => destruct c
         end;
    try (eexists; reflexivity).
  rewrite Hmeta. cbn [bind py_get].
  unfold dict_getitem. rewrite !dict_lookup_set. eqb_closed.
  destruct (py_truthy _); eexists; reflexivity.
Qed.

Lemma affecting_step_ok (pe : dict) (entry : pyval) :
  is_dict entry = true -> exists pe', affecting_step pe entry = Ok pe'.
Proof.
  destruct entry; try discriminate. intros _.
  unfold affecting_step. cbn [py_get bind].
  repeat match goal with
         | |- exists _, (if ?c then _ else _) = Ok _ => destruct c
         end;
    eexists; reflexivity.
Qed.

Lemma foldM_affecting_ok (entries : list pyval) (pe : dict) :
  forallb is_dict entries = true ->
  exists pe', foldM affecting_step pe entries = Ok pe'.
Proof.
  revert pe. induction entries as [| e entries IH]; simpl; intros pe H.
  - eexists; reflexivity.
  - apply andb_true_iff in H as [He H].
    destruct (affecting_step_ok pe e He) as [pe1 ->]. cbn [bind].
    apply IH. exact H.
Qed.

Lemma project_affecting_ok (d : dict) (pe : dict) :
  event_shape (PDict d) = true ->
  exists pe', project_affecting (PDict d) pe = Ok pe'.
Proof.
  simpl. intros H.
  repeat (apply andb_true_iff in H as [H ?]).
  unfold project_affecting. cbn [py_get bind].
  match goal with Ht : absent_or affecting_shape _ _ = true |- _ =>
    unfold absent_or in Ht; rename Ht into Haff end.
  unfold dict_get_d.
  destruct (dict_lookup d "affecting") as [[| | | | entries |] |];
    cbn [affecting_shape] in Haff; try discriminate Haff;
    try (eexists; reflexivity).
  destruct entries as [| e entries]; [eexists; reflexivity |].
  cbn [py_truthy py_iter bind]. apply foldM_affecting_ok. exact Haff.
Qed.

Lemma project_command_ok (d : dict) (pe : dict) :
  event_shape (PDict d) = true -> has_columns pe ->
  exists pe', project_command (PDict d) pe = Ok pe'.
Proof.
  simpl. intros H Hc.
  repeat (apply andb_true_iff in H as [H ?]).
  unfold project_command.
  rewrite (has_columns_getitem pe COMMAND) by (column || exact Hc).
  cbn [bind py_get].
  destruct (sub_dict_ok d "metadata") as [metadata ->]; [assumption |].
  destruct (py_truthy _); eexists; reflexivity.
Qed.

Lemma project_header_values (raw_event : pyval) (pe pe' : dict) :
  project_header raw_event pe = Ok pe' ->
  dict_get pe' USER_NAME = display_name (field raw_event "actor")
  /\ dict_get pe' EVENT = field (field raw_event "action") "eventName".
Proof.
  intros H. unfold project_header in H.
  do 9 bind_inv H.
  pose proof (get_sub_display _ _ _ _ _ E1 E2 E3) as Huser.
  pose proof (get_sub_field _ _ _ _ _ E4 E5) as Hevent.
  subst v3 v5.
  destruct (py_eq_str v7 "project").
  - do 2 bind_inv H. injection H as <-.
    rewrite !dict_get_set. eqb_closed. split; reflexivity.
  - injection H as <-.
    rewrite !dict_get_set. eqb_closed. split; reflexivity.
Qed.

Lemma project_target_without_targets (raw_event : pyval) (pe pe' : dict) :
  project_target raw_event pe = Ok pe' ->
  field raw_event "targets" = PNone ->
  pe' = pe.
Proof.
  intros H Hf. unfold project_target in H. bind_inv H.
  destruct (py_truthy v) eqn:Ht.
  - pose proof (get_list_truthy _ _ _ E Ht) as Hv.
    rewrite Hv, Hf in Ht. discriminate Ht.
  - injection H as <-. reflexivity.
Qed.



(** What the flattener renders for [added] when every entity is named:
    the names, separated by single commas. *)
Lemma flatten_target_added_named (target_raw : pyval) (td : dict)
    (change : pyval) (changes entities : list pyval) :
  flatten_target target_raw = Ok td ->
  field target_raw "fieldChanges" = PList (change :: changes) ->
  field change "added" = PList entities ->
  forallb named_entity entities = true ->
  dict_get td "added" = PStr (String.concat "," (map name_of entities)).
Proof.
  intros H Hchanges Hadded Hnamed. unfold flatten_target in H.
  do 5 bind_inv H.
  apply (field_list_get _ _ _ _ _ _ Hchanges) in E3. subst v3.
  cbn [py_truthy py_getitem_0 bind] in H.
  do 9 bind_inv H. injection H as <-.
  assert (Hv : v8 = PList entities).
  { apply py_get_inv in E8 as (cd & -> & ->). simpl in Hadded.
    unfold dict_get, dict_get_d in *.
    destruct (dict_lookup cd "added"); [exact Hadded | discriminate Hadded]. }
  subst v8. rewrite (join_names_named _ Hnamed) in E9. injection E9 as <-.
  reflexivity.
Qed.

Example three_names_joined :
  join_names (PList [ PDict [("name", PStr "ana")];
                      PDict [("name", PStr "bo"); ("id", PStr "u-3")];
                      PDict [("id", PStr "u-4"); ("name", PStr "cy")] ])
  = Ok (PStr "ana,bo,cy").
Proof. reflexivity. Qed.

Example no_names_joined : join_names (PList []) = Ok (PStr "").
Proof. reflexivity. Qed.

(** C4. At a target whose first field change adds an entity with an id
    and no name, the flattener raises instead of rendering the id: the
    display name of the entity is "u-2", the join meets [None], and the
    error aborts the normalization of the event. *)
Theorem added_entity_without_name_raises :
  display_name unnamed_collaborator = PStr "u-2"
  /\ flatten_target target_with_unnamed_added = Raise TypeError
  /\ parse_event event_with_unnamed_added = Raise TypeError.
Proof. repeat split. Qed.

(** ** The export driver *)

Lemma dict_set_twice (d : dict) (k : string) (v v' : pyval) :
  dict_set (dict_set d k v) k v' = dict_set d k v'.
Proof.
  induction d as [| [k0 v0] d IH]; simpl.
  - rewrite String.eqb_refl. reflexivity.
  - destruct (String.eqb k0 k) eqn:E0; simpl; rewrite E0.
    + reflexivity.
    + rewrite IH. reflexivity.
Qed.

Lemma same_but_offset_refl (params : dict) : same_but_offset params params.
Proof. intros v. reflexivity. Qed.

Lemma same_but_offset_set (params params0 : dict) (v : pyval) :
  same_but_offset params params0 ->
  same_but_offset (dict_set params "offset" v) params0.
Proof. intros H v'. rewrite dict_set_twice. apply H. Qed.

(** One turn of the loop on a reply that delivers a page. *)
Lemma export_loop_page (reply : http_outcome) (replies : list http_outcome)
    (hostname : string) (request_headers params params0 : dict) (offset : Z)
    (rows : list (list pyval)) (lg : list io_event) (page : list pyval) :
  reply_events reply = Some page ->
  Forall parses page ->
  same_but_offset params params0 ->
  export_loop (reply :: replies) hostname request_headers params offset
    (mkWorld (Some rows) lg)
  = let w' :=
      mkWorld (Some (rows ++ map row_of_event page))
        (lg ++ [ IoGet (request_at hostname request_headers params0 offset);
                 IoAppend (map row_of_event page) ]) in
    if Z.of_nat (List.length page) <? BATCH_LIMIT then Returned offset w'
    else export_loop replies hostname request_headers
           (dict_set params "offset" (PInt offset)) (offset + BATCH_LIMIT) w'.
Proof.
  intros Hreply Hparses Hparams.
  destruct reply as [| status [[| | | | | d] |]]; try discriminate Hreply.
  simpl in Hreply.
  destruct (dict_get_d d "events" (PList [])) as [| | | | events |] eqn:Hevents;
    try discriminate Hreply.
  injection Hreply as ->.
  destruct (parse_page page Hparses) as (parsed & Hparsed & _ & Hrows).
  cbn [export_loop get_events_batch send_request bind py_get].
  rewrite Hevents. unfold parse_events. cbn [py_iter bind].
  rewrite Hparsed. cbn [bind].
  unfold write_to_csv. rewrite Hrows.
  cbn [file_rows file log bind py_len].
  rewrite (Hparams (PInt offset)). unfold request_at.
  rewrite <- app_assoc. reflexivity.
Qed.

(** A run of full pages only moves the offset forward. *)
Lemma export_loop_full_pages (fulls : list (list pyval)) :
  forall (replies rest : list http_outcome) (hostname : string)
         (request_headers params params0 : dict) (offset : Z)
         (rows : list (list pyval)) (lg : list io_event),
    Forall2 (fun reply page => reply_events reply = Some page) replies fulls ->
    Forall full fulls ->
    Forall (Forall parses) fulls ->
    same_but_offset params params0 ->
    exists params',
      same_but_offset params' params0
      /\ export_loop (replies ++ rest) hostname request_headers params offset
           (mkWorld (Some rows) lg)
         = export_loop rest hostname request_headers params'
             (offset + BATCH_LIMIT * Z.of_nat (List.length fulls))
             (mkWorld (Some (rows ++ flat_map (map row_of_event) fulls))
                (lg ++ expected_log hostname request_headers params0 offset
                         fulls)).
Proof.
  induction fulls as [| page fulls IH];
    intros replies rest hostname request_headers params params0 offset rows lg
           Hreplies Hfull Hparses Hparams.
  - inversion Hreplies; subst. exists params. split; [exact Hparams |].
    cbn [app List.length flat_map expected_log]. rewrite !app_nil_r.
    change (Z.of_nat 0) with 0. rewrite Z.mul_0_r, Z.add_0_r. reflexivity.
  - inversion Hreplies as [| reply page' replies' fulls' Hreply Hreplies']; subst.
    apply Forall_cons_iff in Hfull as [Hpage Hfull].
    apply Forall_cons_iff in Hparses as [Hpp Hparses].
    cbn [app].
    rewrite (export_loop_page _ _ _ _ _ params0 _ _ _ _ Hreply Hpp Hparams).
    cbv zeta.
    replace (Z.of_nat (List.length page) <? BATCH_LIMIT) with false
      by (symmetry; apply Z.ltb_ge; exact Hpage).
    destruct (IH replies' rest hostname request_headers
                (dict_set params "offset" (PInt offset)) params0
                (offset + BATCH_LIMIT)
                (rows ++ map row_of_event page)
                (lg ++ [ IoGet (request_at hostname request_headers params0 offset);
                         IoAppend (map row_of_event page) ])
                Hreplies' Hfull Hparses
                (same_but_offset_set _ _ _ Hparams))
      as (params' & Hparams' & ->).
    exists params'. split; [exact Hparams' |].
    f_equal.
    + cbn [List.length]. lia.
    + cbn [flat_map expected_log]. rewrite <- !app_assoc. reflexivity.
Qed.

Lemma expected_log_app (hostname : string) (request_headers params : dict)
    (pages pages' : list (list pyval)) (offset : Z) :
  expected_log hostname request_headers params offset (pages ++ pages')
  = expected_log hostname request_headers params offset pages
    ++ expected_log hostname request_headers params
         (offset + BATCH_LIMIT * Z.of_nat (List.length pages)) pages'.
Proof.
  revert offset. induction pages as [| page pages IH]; intros offset.
  - cbn [app expected_log List.length]. change (Z.of_nat 0) with 0.
    rewrite Z.mul_0_r, Z.add_0_r. reflexivity.
  - cbn [app expected_log List.length]. rewrite IH.
    do 4 f_equal. lia.
Qed.

Lemma offsets_of_app (lg lg' : list io_event) :
  offsets_of (lg ++ lg') = offsets_of lg ++ offsets_of lg'.
Proof. unfold offsets_of, requests_of. rewrite flat_map_app, map_app. reflexivity. Qed.

Lemma offsets_of_expected_log (hostname : string) (request_headers params : dict)
    (pages : list (list pyval)) (offset : Z) :
  offsets_of (expected_log hostname request_headers params offset pages)
  = map (fun i => PInt (offset + BATCH_LIMIT * Z.of_nat i))
        (seq 0 (List.length pages)).
Proof.
  revert offset. induction pages as [| page pages IH]; intros offset.
  - reflexivity.
  - cbn [expected_log List.length seq map].
    unfold offsets_of, requests_of in *. cbn [flat_map app map].
    unfold request_at at 1. cbn [req_params].
    rewrite dict_get_set_same. f_equal.
    + f_equal. change (Z.of_nat 0) with 0. lia.
    + rewrite IH, <- seq_shift, map_map. apply map_ext.
      intros i. f_equal. lia.
Qed.


(** C6 (amended). When the call to the remote fails, or the body of the
    response is not JSON, the fetcher raises; the exception is not
    caught, the failed request is not sent again, no later reply is asked
    for, and the process ends with status 1.  The rows of all pages
    written before stay in the file. *)
Theorem failed_fetch_ends_the_export
    (replies rest : list http_outcome) (bad : http_outcome) (e : exn)
    (fulls : list (list pyval))
    (hostname : string) (request_headers request_params : dict) (w : world) :
  Forall2 (fun reply page => reply_events reply = Some page) replies fulls ->
  Forall full fulls ->
  Forall (Forall parses) fulls ->
  fetch_error bad = Some e ->
  let run :=
    export_audit_trail (replies ++ bad :: rest) hostname request_headers
      request_params w in
  run = Raised e
          (mkWorld (Some (header_row :: flat_map (map row_of_event) fulls))
             (log w ++ IoCreate header_row
                :: expected_log hostname request_headers request_params 0 fulls
                ++ [IoGet (request_at hostname request_headers request_params
                             (BATCH_LIMIT * Z.of_nat (List.length fulls)))]))
  /\ exit_status run = Some 1.
Proof.
  intros Hreplies Hfull Hparses Hbad run.
  assert (Hrun : run = Raised e
          (mkWorld (Some (header_row :: flat_map (map row_of_event) fulls))
             (log w ++ IoCreate header_row
                :: expected_log hostname request_headers request_params 0 fulls
                ++ [IoGet (request_at hostname request_headers request_params
                             (BATCH_LIMIT * Z.of_nat (List.length fulls)))]))).
  { subst run. unfold export_audit_trail, initialize_csv.
    destruct (export_loop_full_pages fulls replies (bad :: rest)
                hostname request_headers request_params request_params 0
                [header_row] (log w ++ [IoCreate header_row])
                Hreplies Hfull Hparses (same_but_offset_refl _))
      as (params' & Hparams' & Hrun).
    fold header_row. rewrite Hrun.
    destruct bad as [| status [body |]]; simpl in Hbad;
      try discriminate Hbad; injection Hbad as <-;
      cbn [export_loop get_events_batch send_request bind file log];
      rewrite (Hparams' (PInt _)); unfold request_at;
      rewrite <- !app_assoc; reflexivity. }
  split; [exact Hrun |].
  rewrite Hrun.
  destruct bad as [| status [body |]]; simpl in Hbad;
    try discriminate Hbad; injection Hbad as <-; reflexivity.
Qed.

(** A response with a non-success status and a JSON body is taken for a
    last, empty page: the export returns normally, with status 0. *)
Lemma error_status_is_not_detected :
  fetch_error server_error_reply = None
  /\ reply_events server_error_reply = Some []
  /\ exists w,
      export_audit_trail [server_error_reply] "https://domino.example"
        [("accept", PStr "application/json")] [] initial_world
      = Returned 0 w
      /\ file w = Some [header_row]
      /\ exit_status (@Returned Z 0 w) = Some 0.
Proof. repeat split. eexists. repeat split. Qed.

(** Over full pages alone the driver never returns: it asks for one more
    page than it was given. *)
Lemma driver_keeps_fetching_after_full_pages
    (replies : list http_outcome) (fulls : list (list pyval))
    (hostname : string) (request_headers request_params : dict) (w : world) :
  Forall2 (fun reply page => reply_events reply = Some page) replies fulls ->
  Forall full fulls ->
  Forall (Forall parses) fulls ->
  exists w',
    export_audit_trail replies hostname request_headers request_params w
    = Starved w'
    /\ offsets_of (log w')
       = offsets_of (log w)
         ++ map (fun i => PInt (BATCH_LIMIT * Z.of_nat i))
              (seq 0 (S (List.length fulls))).
Proof.
  intros Hreplies Hfull Hparses.
  unfold export_audit_trail, initialize_csv.
  destruct (export_loop_full_pages fulls replies []
              hostname request_headers request_params request_params 0
              [header_row] (log w ++ [IoCreate header_row])
              Hreplies Hfull Hparses (same_but_offset_refl _))
    as (params' & Hparams' & Hrun).
  rewrite app_nil_r in Hrun. fold header_row. rewrite Hrun.
  cbn [export_loop send_request snd log]. eexists. split; [reflexivity |].
  cbn [log]. rewrite (Hparams' (PInt _)).
  rewrite !offsets_of_app, offsets_of_expected_log.
  rewrite seq_S, map_app, <- app_assoc. cbn [map].
  change (offsets_of [IoCreate header_row]) with (@nil pyval).
  cbn [app].
  assert (Hlast : forall r, offsets_of [IoGet r] = [dict_get (req_params r) "offset"])
    by reflexivity.
  rewrite Hlast. cbn [req_params]. rewrite dict_get_set_same, app_nil_r.
  reflexivity.
Qed.

(** ** Dates written as YYYY-MM-DD HH:MM:SS are accepted *)

(** Linear arithmetic with division and remainder by constants. *)
Ltac divmod := Z.div_mod_to_equations; lia.

(** ** Characters *)

Lemma code_byte (z : Z) :
  0 <= z < 256 -> Unicode.code (ascii_of_nat (Z.to_nat z)) = z.
Proof.
  intros Hz. unfold Unicode.code. rewrite nat_ascii_embedding by lia. lia.
Qed.

Lemma code_bounds (a : ascii) : 0 <= Unicode.code a < 256.
Proof.
  unfold Unicode.code. pose proof (nat_ascii_bounded a). lia.
Qed.

Lemma continuation_byte (z : Z) :
  0 <= z < 64 ->
  Unicode.continuation (ascii_of_nat (Z.to_nat (128 + z))) = Some z.
Proof.
  intros Hz. unfold Unicode.continuation. rewrite code_byte by lia.
  replace ((128 <=? 128 + z) && (128 + z <? 192)) with true
    by (symmetry; rewrite andb_true_iff, Z.leb_le, Z.ltb_lt; lia).
  f_equal. lia.
Qed.

(** Decoding undoes encoding, for every code point that is a character. *)
Lemma decode_encode (c : Z) (rest : string) :
  0 <= c < 55296 \/ 57344 <= c < 1114112 ->
  Unicode.decode (Unicode.encode c ++ rest) = Some (c, rest).
Proof.
  intros Hc. unfold Unicode.encode.
  destruct (c <? 128) eqn:E1; [| destruct (c <? 2048) eqn:E2;
    [| destruct (c <? 65536) eqn:E3]];
    rewrite ?Z.ltb_lt, ?Z.ltb_ge in *;
    cbn [String.append]; unfold Unicode.decode.
  - rewrite code_byte by lia.
    replace (c <? 128) with true by (symmetry; apply Z.ltb_lt; lia).
    reflexivity.
  - rewrite code_byte by divmod.
    replace (192 + c / 64 <? 128) with false by (symmetry; apply Z.ltb_ge; divmod).
    replace (192 + c / 64 <? 192) with false by (symmetry; apply Z.ltb_ge; divmod).
    replace (192 + c / 64 <? 224) with true by (symmetry; apply Z.ltb_lt; divmod).
    rewrite continuation_byte by divmod.
    replace ((192 + c / 64 - 192) * 64 + c mod 64) with c by divmod.
    replace (128 <=? c) with true by (symmetry; apply Z.leb_le; lia).
    reflexivity.
  - rewrite code_byte by divmod.
    replace (224 + c / 4096 <? 128) with false by (symmetry; apply Z.ltb_ge; divmod).
    replace (224 + c / 4096 <? 192) with false by (symmetry; apply Z.ltb_ge; divmod).
    replace (224 + c / 4096 <? 224) with false by (symmetry; apply Z.ltb_ge; divmod).
    replace (224 + c / 4096 <? 240) with true by (symmetry; apply Z.ltb_lt; divmod).
    rewrite !continuation_byte by divmod.
    replace (((224 + c / 4096 - 224) * 64 + (c / 64) mod 64) * 64 + c mod 64)
      with c by divmod.
    replace ((2048 <=? c) && negb ((55296 <=? c) && (c <? 57344))) with true.
    + reflexivity.
    + symmetry. rewrite andb_true_iff, negb_true_iff, andb_false_iff,
        Z.leb_le, Z.leb_gt, Z.ltb_ge. lia.
  - rewrite code_byte by divmod.
    replace (240 + c / 262144 <? 128) with false by (symmetry; apply Z.ltb_ge; divmod).
    replace (240 + c / 262144 <? 192) with false by (symmetry; apply Z.ltb_ge; divmod).
    replace (240 + c / 262144 <? 224) with false by (symmetry; apply Z.ltb_ge; divmod).
    replace (240 + c / 262144 <? 240) with false by (symmetry; apply Z.ltb_ge; divmod).
    replace (240 + c / 262144 <? 248) with true by (symmetry; apply Z.ltb_lt; divmod).
    rewrite !continuation_byte by divmod.
    replace ((((240 + c / 262144 - 240) * 64 + (c / 4096) mod 64) * 64
              + (c / 64) mod 64) * 64 + c mod 64) with c by divmod.
    replace ((65536 <=? c) && (c <? 1114112)) with true
      by (symmetry; rewrite andb_true_iff, Z.leb_le, Z.ltb_lt; lia).
    reflexivity.
Qed.

(** A character takes at least one byte. *)
Lemma decode_shorter (s : string) (c : Z) (rest : string) :
  Unicode.decode s = Some (c, rest) ->
  (String.length rest < String.length s)%nat.
Proof.
  unfold Unicode.decode. destruct s as [| lead s]; [discriminate |].
  destruct (Unicode.code lead <? 128).
  { intros [= <- <-]. cbn [String.length]. lia. }
  destruct (Unicode.code lead <? 192); [discriminate |].
  destruct (Unicode.code lead <? 224).
  { destruct s as [| b s]; [discriminate |].
    destruct (Unicode.continuation b); [| discriminate].
    destruct (128 <=? _); [| discriminate].
    intros [= <- <-]. cbn [String.length]. lia. }
  destruct (Unicode.code lead <? 240).
  { destruct s as [| b [| b' s]]; try discriminate.
    destruct (Unicode.continuation b); [| discriminate].
    destruct (Unicode.continuation b'); [| discriminate].
    destruct (_ && _); [| discriminate].
    intros [= <- <-]. cbn [String.length]. lia. }
  destruct (Unicode.code lead <? 248); [| discriminate].
  destruct s as [| b [| b' [| b'' s]]]; try discriminate.
  destruct (Unicode.continuation b); [| discriminate].
  destruct (Unicode.continuation b'); [| discriminate].
  destruct (Unicode.continuation b''); [| discriminate].
  destruct (_ && _); [| discriminate].
  intros [= <- <-]. cbn [String.length]. lia.
Qed.

(** The run of white space never needs more steps than [spaces] allows. *)
Lemma spaces_upto_enough (unicode : Unicode.database) (n : nat) :
  forall s : string,
    (String.length s <= n)%nat ->
    Strptime.spaces_upto unicode n s
    = Strptime.spaces_upto unicode (String.length s) s.
Proof.
  induction n as [n IH] using lt_wf_ind. intros s Hn.
  destruct n as [| n].
  { destruct s; [reflexivity | cbn [String.length] in Hn; lia]. }
  destruct s as [| a s]; [reflexivity |].
  cbn [String.length Strptime.spaces_upto].
  destruct (Unicode.decode (String a s)) as [[c rest] |] eqn:E; [| reflexivity].
  apply decode_shorter in E. cbn [String.length] in E, Hn.
  destruct (Unicode.is_space unicode c); [| reflexivity].
  rewrite (IH n) by lia. rewrite (IH (String.length s)) by lia. reflexivity.
Qed.

Lemma digit_char_code (d : Z) :
  0 <= d <= 9 -> Unicode.code (Datetime.digit_char d) = 48 + d.
Proof.
  intros Hd. unfold Unicode.code, Datetime.digit_char.
  rewrite nat_ascii_embedding by lia. lia.
Qed.

Lemma reads_digit (unicode : Unicode.database) :
  reads (Strptime.digit unicode) (fun _ => true).
Proof.
  intros d rest Hd. unfold Strptime.digit, Unicode.decode.
  rewrite digit_char_code by exact Hd.
  replace (48 + d <? 128) with true by (symmetry; apply Z.ltb_lt; lia).
  unfold Unicode.decimal.
  replace (48 + d <? 128) with true by (symmetry; apply Z.ltb_lt; lia).
  replace ((48 <=? 48 + d) && (48 + d <=? 57)) with true
    by (symmetry; rewrite andb_true_iff, !Z.leb_le; lia).
  do 3 f_equal. lia.
Qed.

Lemma reads_range (lo hi : Z) :
  reads (Strptime.range lo hi) (fun d => (lo <=? d) && (d <=? hi)).
Proof.
  intros d rest Hd. unfold Strptime.range.
  rewrite digit_char_code by exact Hd.
  replace ((48 + lo <=? 48 + d) && (48 + d <=? 48 + hi))
    with ((lo <=? d) && (d <=? hi)).
  - destruct ((lo <=? d) && (d <=? hi)); [| reflexivity].
    do 3 f_equal. lia.
  - f_equal; apply Bool.eq_iff_eq_true; rewrite !Z.leb_le; lia.
Qed.

(** Two digits written by [pad2], read back by [two]. *)
Lemma two_pad2 (p q : string -> list (Z * string)) (okp okq : Z -> bool)
    (n : Z) (rest : string) :
  reads p okp -> reads q okq ->
  0 <= n < 100 ->
  Strptime.two p q (Datetime.pad2 n ++ rest)
  = if okp (n / 10) && okq (n mod 10) then [(n, rest)] else [].
Proof.
  intros Hp Hq Hn. unfold Datetime.pad2, Strptime.two.
  cbn [String.append].
  rewrite Hp by divmod.
  destruct (okp (n / 10)); cbn [flat_map andb]; [| reflexivity].
  rewrite Hq by divmod.
  destruct (okq (n mod 10)); cbn [map app]; [| reflexivity].
  do 2 f_equal. divmod.
Qed.

(** Decide which alternative of a field matches. *)
Ltac alternative b :=
  match goal with
  | |- context [if ?c then _ else _] =>
      replace c with b
        by (symmetry;
            first [ rewrite ?andb_true_r, !andb_true_iff, !Z.leb_le; divmod
                  | rewrite ?andb_true_r, !andb_false_iff, !Z.leb_gt; divmod
                  | reflexivity ])
  end.

Section Accepted.

Variable unicode : Unicode.database.

Lemma field_m_pad2 (n : Z) (rest : string) :
  1 <= n <= 12 ->
  exists more,
    Strptime.field_m (Datetime.pad2 n ++ rest) = (n, rest) :: more.
Proof.
  intros Hn. unfold Strptime.field_m.
  rewrite !(two_pad2 _ _ _ _ n rest (reads_range _ _) (reads_range _ _))
    by lia.
  destruct (Z.lt_ge_cases n 10).
  - alternative false. alternative true. eexists; reflexivity.
  - alternative true. eexists; reflexivity.
Qed.

Lemma field_d_pad2 (n : Z) (rest : string) :
  1 <= n <= 31 ->
  exists more,
    Strptime.field_d unicode (Datetime.pad2 n ++ rest) = (n, rest) :: more.
Proof.
  intros Hn. unfold Strptime.field_d.
  rewrite !(two_pad2 _ _ _ _ n rest (reads_range _ _) (reads_range _ _)),
    (two_pad2 _ _ _ _ n rest (reads_range _ _) (reads_digit unicode)) by lia.
  destruct (Z.lt_ge_cases n 10); [| destruct (Z.lt_ge_cases n 30)].
  - alternative false. alternative false. alternative true.
    eexists; reflexivity.
  - alternative false. alternative true. eexists; reflexivity.
  - alternative true. eexists; reflexivity.
Qed.

Lemma field_H_pad2 (n : Z) (rest : string) :
  0 <= n <= 23 ->
  exists more,
    Strptime.field_H unicode (Datetime.pad2 n ++ rest) = (n, rest) :: more.
Proof.
  intros Hn. unfold Strptime.field_H.
  rewrite (two_pad2 _ _ _ _ n rest (reads_range _ _) (reads_range _ _)),
    (two_pad2 _ _ _ _ n rest (reads_range _ _) (reads_digit unicode)) by lia.
  destruct (Z.lt_ge_cases n 20).
  - alternative false. alternative true. eexists; reflexivity.
  - alternative true. eexists; reflexivity.
Qed.

Lemma field_M_pad2 (n : Z) (rest : string) :
  0 <= n <= 59 ->
  exists more,
    Strptime.field_M unicode (Datetime.pad2 n ++ rest) = (n, rest) :: more.
Proof.
  intros Hn. unfold Strptime.field_M.
  rewrite (two_pad2 _ _ _ _ n rest (reads_range _ _) (reads_digit unicode))
    by lia.
  alternative true. eexists; reflexivity.
Qed.

Lemma field_S_pad2 (n : Z) (rest : string) :
  0 <= n <= 59 ->
  exists more,
    Strptime.field_S unicode (Datetime.pad2 n ++ rest) = (n, rest) :: more.
Proof.
  intros Hn. unfold Strptime.field_S.
  rewrite (two_pad2 _ _ _ _ n rest (reads_range _ _) (reads_range _ _)),
    (two_pad2 _ _ _ _ n rest (reads_range _ _) (reads_digit unicode)) by lia.
  alternative false. alternative true. eexists; reflexivity.
Qed.

Lemma field_Y_pad4 (n : Z) (rest : string) :
  0 <= n <= 9999 ->
  Strptime.field_Y unicode (Datetime.pad4 n ++ rest) = [(n, rest)].
Proof.
  intros Hn. unfold Strptime.field_Y, Datetime.pad4.
  replace ((Datetime.pad2 (n / 100) ++ Datetime.pad2 (n mod 100)) ++ rest)%string
    with (Datetime.pad2 (n / 100) ++ (Datetime.pad2 (n mod 100) ++ rest))%string
    by reflexivity.
  rewrite (two_pad2 _ _ _ _ _ _ (reads_digit unicode) (reads_digit unicode))
    by divmod.
  cbn [andb flat_map].
  rewrite (two_pad2 _ _ _ _ _ _ (reads_digit unicode) (reads_digit unicode))
    by divmod.
  cbn [andb map app]. do 2 f_equal. divmod.
Qed.

Lemma lit_here (c : ascii) (rest : string) :
  Strptime.lit c (String c rest) = [rest].
Proof. unfold Strptime.lit. rewrite Ascii.eqb_refl. reflexivity. Qed.

(** A digit written by [strftime] is not white space. *)
Lemma spaces_at_digit (n : nat) (d : Z) (rest : string) :
  0 <= d <= 9 ->
  Strptime.spaces_upto unicode n (String (Datetime.digit_char d) rest) = [].
Proof.
  intros Hd. destruct n as [| n]; [reflexivity |].
  cbn [Strptime.spaces_upto]. unfold Unicode.decode.
  rewrite digit_char_code by exact Hd.
  replace (48 + d <? 128) with true by (symmetry; apply Z.ltb_lt; lia).
  unfold Unicode.is_space.
  replace (48 + d <? 128) with true by (symmetry; apply Z.ltb_lt; lia).
  replace ((48 + d =? 32) || (9 <=? 48 + d) && (48 + d <=? 13)
           || (28 <=? 48 + d) && (48 + d <=? 31)) with false; [reflexivity |].
  symmetry. rewrite !orb_false_iff, !andb_false_iff, !Z.leb_gt, Z.eqb_neq. lia.
Qed.

Lemma spaces_upto_step (n : nat) (s : string) :
  Strptime.spaces_upto unicode (S n) s
  = match Unicode.decode s with
    | Some (c, rest) =>
        if Unicode.is_space unicode c
        then Strptime.spaces_upto unicode n rest ++ [rest] else []
    | None => []
    end.
Proof. reflexivity. Qed.

Lemma spaces_before_pad2 (n : Z) (rest : string) :
  0 <= n < 100 ->
  Strptime.spaces unicode (String " " (Datetime.pad2 n ++ rest))
  = [(Datetime.pad2 n ++ rest)%string].
Proof.
  intros Hn. unfold Strptime.spaces, Datetime.pad2.
  cbn [String.append String.length]. rewrite spaces_upto_step.
  replace (Unicode.decode (String " " _)) with
    (Some (32, String (Datetime.digit_char (n / 10))
                 (String (Datetime.digit_char (n mod 10)) rest)))
    by reflexivity.
  replace (Unicode.is_space unicode 32) with true by reflexivity.
  rewrite spaces_at_digit by divmod. reflexivity.
Qed.

Lemma matches_date_text (c : Datetime.civil) :
  valid_civil c = true ->
  exists more, Strptime.matches unicode (date_text c) = (c, "") :: more.
Proof.
  unfold valid_civil. rewrite !andb_true_iff, !Z.leb_le.
  destruct c as [Y m d H M S]. cbn [Datetime.year Datetime.month Datetime.day
    Datetime.hour Datetime.minute Datetime.second].
  intros Hc.
  assert (Hd : d <= 31).
  { unfold Datetime.days_in_month in Hc.
    destruct (m =? 2); [destruct (Datetime.is_leap Y) |
      destruct ((m =? 4) || (m =? 6) || (m =? 9) || (m =? 11))]; lia. }
  unfold Strptime.matches, date_text.
  cbn [Datetime.year Datetime.month Datetime.day
       Datetime.hour Datetime.minute Datetime.second].
  rewrite field_Y_pad4 by lia. cbn [flat_map]. rewrite app_nil_r.
  cbn [String.append]. rewrite lit_here. cbn [flat_map]. rewrite app_nil_r.
  edestruct (field_m_pad2 m) as [more_m Hm]; [lia | rewrite Hm; clear Hm].
  cbn [flat_map]. rewrite lit_here. cbn [flat_map]. rewrite app_nil_r.
  edestruct (field_d_pad2 d) as [more_d Hm]; [lia | rewrite Hm; clear Hm].
  cbn [flat_map]. rewrite spaces_before_pad2 by lia.
  cbn [flat_map]. rewrite app_nil_r.
  edestruct (field_H_pad2 H) as [more_H Hm]; [lia | rewrite Hm; clear Hm].
  cbn [flat_map]. rewrite lit_here. cbn [flat_map]. rewrite app_nil_r.
  edestruct (field_M_pad2 M) as [more_M Hm]; [lia | rewrite Hm; clear Hm].
  cbn [flat_map]. rewrite lit_here. cbn [flat_map]. rewrite app_nil_r.
  replace (Datetime.pad2 S) with (Datetime.pad2 S ++ "")%string
    by (unfold Datetime.pad2; reflexivity).
  edestruct (field_S_pad2 S) as [more_S Hm]; [lia | rewrite Hm; clear Hm].
  cbn [map app]. eexists; reflexivity.
Qed.

(** A valid civil time written as YYYY-MM-DD HH:MM:SS parses back to
    itself. *)
Lemma strptime_date_text (c : Datetime.civil) :
  valid_civil c = true ->
  Strptime.strptime unicode (date_text c) = Ok c.
Proof.
  intros Hc. destruct (matches_date_text c Hc) as [more Hm].
  unfold Strptime.strptime. rewrite Hm. cbn [String.eqb negb].
  replace (Strptime.valid c) with true; [reflexivity |].
  symmetry. unfold valid_civil in Hc. unfold Strptime.valid.
  rewrite !andb_true_iff in *. tauto.
Qed.

End Accepted.

(** From the year 1000 on, [strftime] writes the padded form. *)
Lemma strftime_date_text (c : Datetime.civil) :
  1000 <= Datetime.year c -> Datetime.strftime c = date_text c.
Proof.
  intros Hy. unfold Datetime.strftime, date_text, Datetime.year_text.
  replace (Datetime.year c <? 10) with false by (symmetry; apply Z.ltb_ge; lia).
  replace (Datetime.year c <? 100) with false by (symmetry; apply Z.ltb_ge; lia).
  replace (Datetime.year c <? 1000) with false by (symmetry; apply Z.ltb_ge; lia).
  reflexivity.
Qed.

Lemma strptime_strftime (unicode : Unicode.database) (c : Datetime.civil) :
  valid_civil c = true ->
  1000 <= Datetime.year c ->
  Strptime.strptime unicode (Datetime.strftime c) = Ok c.
Proof.
  intros Hc Hy. rewrite (strftime_date_text c Hy).
  apply strptime_date_text. exact Hc.
Qed.

(** A valid civil time is inside the [datetime] range. *)
Lemma valid_civil_in_range (c : Datetime.civil) :
  valid_civil c = true -> Datetime.in_range (Datetime.civil_seconds c) = true.
Proof.
  unfold valid_civil. rewrite !andb_true_iff, !Z.leb_le.
  destruct c as [Y m d H M S]. cbn [Datetime.year Datetime.month Datetime.day
    Datetime.hour Datetime.minute Datetime.second].
  intros Hc.
  unfold Datetime.in_range, Datetime.civil_seconds, Datetime.days_from_civil,
    Datetime.MIN_SECONDS, Datetime.MAX_SECONDS.
  cbn [Datetime.year Datetime.month Datetime.day
       Datetime.hour Datetime.minute Datetime.second].
  assert (Hd : d <= 31 /\ (m = 2 -> d <= 29)
               /\ (m = 4 \/ m = 6 \/ m = 9 \/ m = 11 -> d <= 30)).
  { unfold Datetime.days_in_month in Hc.
    destruct (m =? 2) eqn:E2; [destruct (Datetime.is_leap Y) |
      destruct ((m =? 4) || (m =? 6) || (m =? 9) || (m =? 11)) eqn:E4].
    - lia.
    - lia.
    - lia.
    - apply Z.eqb_neq in E2. rewrite !orb_false_iff, !Z.eqb_neq in E4. lia. }
  rewrite andb_true_iff, !Z.leb_le.
  destruct (m <=? 2) eqn:Em; [apply Z.leb_le in Em | apply Z.leb_gt in Em];
    divmod.
Qed.

(** ** What [strptime] accepts is a valid civil time *)

(** A decimal digit of any script has a value from 0 to 9. *)
Lemma decimal_bounds (unicode : Unicode.database) (c v : Z) :
  Unicode.decimal unicode c = Some v -> 0 <= v <= 9.
Proof.
  unfold Unicode.decimal. destruct (c <? 128).
  - destruct ((48 <=? c) && (c <=? 57)) eqn:E; [| discriminate].
    rewrite andb_true_iff, !Z.leb_le in E. intros [= <-]. lia.
  - destruct (find _ _) as [zero |] eqn:E; [| discriminate].
    apply find_some in E as [_ E].
    rewrite andb_true_iff, Z.leb_le, Z.ltb_lt in E. intros [= <-]. lia.
Qed.

Lemma digit_bounds (unicode : Unicode.database) (s : string) (v : Z)
    (r : string) :
  In (v, r) (Strptime.digit unicode s) -> 0 <= v <= 9.
Proof.
  unfold Strptime.digit.
  destruct (Unicode.decode s) as [[c rest] |]; [| contradiction].
  destruct (Unicode.decimal unicode c) as [v' |] eqn:E; [| contradiction].
  intros [Heq | []]. apply pair_equal_spec in Heq as [<- <-].
  exact (decimal_bounds _ _ _ E).
Qed.

Lemma range_bounds (lo hi : Z) (s : string) (v : Z) (r : string) :
  In (v, r) (Strptime.range lo hi s) -> lo <= v <= hi.
Proof.
  unfold Strptime.range. destruct s as [| a rest]; [contradiction |].
  destruct ((48 + lo <=? Unicode.code a) && (Unicode.code a <=? 48 + hi)) eqn:E;
    [| contradiction].
  rewrite andb_true_iff, !Z.leb_le in E.
  intros [Heq | []]. apply pair_equal_spec in Heq as [<- <-]. lia.
Qed.

Lemma two_bounds (p q : string -> list (Z * string)) (lo1 hi1 lo2 hi2 : Z)
    (s : string) (v : Z) (r : string) :
  (forall s v r, In (v, r) (p s) -> lo1 <= v <= hi1) ->
  (forall s v r, In (v, r) (q s) -> lo2 <= v <= hi2) ->
  In (v, r) (Strptime.two p q s) ->
  10 * lo1 + lo2 <= v <= 10 * hi1 + hi2.
Proof.
  intros Hp Hq. unfold Strptime.two. intros H.
  apply in_flat_map in H as ([a r1] & Ha & H).
  apply in_map_iff in H as ([b r2] & Heq & Hb).
  apply pair_equal_spec in Heq as [<- <-].
  apply Hp in Ha. apply Hq in Hb. lia.
Qed.

Lemma two_range_range (lo1 hi1 lo2 hi2 : Z) (s : string) (v : Z) (r : string) :
  In (v, r) (Strptime.two (Strptime.range lo1 hi1) (Strptime.range lo2 hi2) s) ->
  10 * lo1 + lo2 <= v <= 10 * hi1 + hi2.
Proof. apply two_bounds; apply range_bounds. Qed.

Lemma two_range_digit (unicode : Unicode.database) (lo1 hi1 : Z) (s : string)
    (v : Z) (r : string) :
  In (v, r) (Strptime.two (Strptime.range lo1 hi1) (Strptime.digit unicode) s) ->
  10 * lo1 <= v <= 10 * hi1 + 9.
Proof.
  intros H.
  pose proof (two_bounds _ _ lo1 hi1 0 9 s v r (range_bounds lo1 hi1)
                (digit_bounds unicode) H).
  lia.
Qed.

Lemma two_digit_digit (unicode : Unicode.database) (s : string) (v : Z)
    (r : string) :
  In (v, r) (Strptime.two (Strptime.digit unicode) (Strptime.digit unicode) s) ->
  0 <= v <= 99.
Proof.
  intros H.
  pose proof (two_bounds _ _ 0 9 0 9 s v r (digit_bounds unicode)
                (digit_bounds unicode) H).
  lia.
Qed.

(** Bound a value that one of a field's alternatives produced. *)
Ltac field_bounds H :=
  repeat (apply in_app_or in H; destruct H as [H | H]);
  first [ apply two_range_range in H; lia
        | apply two_range_digit in H; lia
        | apply range_bounds in H; lia
        | apply digit_bounds in H; lia
        | idtac ].

Section Bounds.

Variable unicode : Unicode.database.

Lemma field_Y_bounds (s : string) (v : Z) (r : string) :
  In (v, r) (Strptime.field_Y unicode s) -> 0 <= v <= 9999.
Proof.
  unfold Strptime.field_Y. intros H.
  apply in_flat_map in H as ([hi r1] & Hhi & H).
  apply in_map_iff in H as ([lo r2] & Heq & Hlo).
  apply pair_equal_spec in Heq as [<- <-].
  apply two_digit_digit in Hhi, Hlo. lia.
Qed.

Lemma field_m_bounds (s : string) (v : Z) (r : string) :
  In (v, r) (Strptime.field_m s) -> 1 <= v <= 12.
Proof. unfold Strptime.field_m. intros H. field_bounds H. Qed.

Lemma field_d_bounds (s : string) (v : Z) (r : string) :
  In (v, r) (Strptime.field_d unicode s) -> 1 <= v <= 31.
Proof.
  unfold Strptime.field_d. intros H. field_bounds H.
  apply in_flat_map in H as (r1 & _ & H). apply range_bounds in H. lia.
Qed.

Lemma field_H_bounds (s : string) (v : Z) (r : string) :
  In (v, r) (Strptime.field_H unicode s) -> 0 <= v <= 23.
Proof. unfold Strptime.field_H. intros H. field_bounds H. Qed.

Lemma field_M_bounds (s : string) (v : Z) (r : string) :
  In (v, r) (Strptime.field_M unicode s) -> 0 <= v <= 59.
Proof. unfold Strptime.field_M. intros H. field_bounds H. Qed.

Lemma field_S_bounds (s : string) (v : Z) (r : string) :
  In (v, r) (Strptime.field_S unicode s) -> 0 <= v <= 61.
Proof. unfold Strptime.field_S. intros H. field_bounds H. Qed.

Lemma matches_bounds (s : string) (c : Datetime.civil) (rest : string) :
  In (c, rest) (Strptime.matches unicode s) ->
  0 <= Datetime.year c <= 9999 /\ 1 <= Datetime.month c <= 12
  /\ 1 <= Datetime.day c <= 31 /\ 0 <= Datetime.hour c <= 23
  /\ 0 <= Datetime.minute c <= 59 /\ 0 <= Datetime.second c <= 61.
Proof.
  unfold Strptime.matches. intros H.
  apply in_flat_map in H as ([Y s1] & HY & H).
  apply in_flat_map in H as (s2 & _ & H).
  apply in_flat_map in H as ([m s3] & Hm & H).
  apply in_flat_map in H as (s4 & _ & H).
  apply in_flat_map in H as ([d s5] & Hd & H).
  apply in_flat_map in H as (s6 & _ & H).
  apply in_flat_map in H as ([h s7] & Hh & H).
  apply in_flat_map in H as (s8 & _ & H).
  apply in_flat_map in H as ([mi s9] & Hmi & H).
  apply in_flat_map in H as (s10 & _ & H).
  apply in_map_iff in H as ([se s11] & [= <- <-] & Hse).
  cbn [Datetime.year Datetime.month Datetime.day
       Datetime.hour Datetime.minute Datetime.second].
  apply field_Y_bounds in HY. apply field_m_bounds in Hm.
  apply field_d_bounds in Hd. apply field_H_bounds in Hh.
  apply field_M_bounds in Hmi. apply field_S_bounds in Hse.
  repeat split; lia.
Qed.

Lemma strptime_valid (raw : string) (c : Datetime.civil) :
  Strptime.strptime unicode raw = Ok c -> valid_civil c = true.
Proof.
  unfold Strptime.strptime.
  destruct (Strptime.matches unicode raw) as [| [c' rest] more] eqn:Hm;
    [discriminate |].
  destruct (negb (String.eqb rest "")); [discriminate |].
  destruct (Strptime.valid c') eqn:Hv; [| discriminate].
  intros [= <-].
  assert (Hin : In (c', rest) (Strptime.matches unicode raw))
    by (rewrite Hm; left; reflexivity).
  apply matches_bounds in Hin.
  unfold Strptime.valid in Hv. unfold valid_civil.
  rewrite !andb_true_iff, !Z.leb_le in *. lia.
Qed.

(** What [strptime] accepts is inside the [datetime] range. *)
Lemma strptime_in_range (raw : string) (c : Datetime.civil) :
  Strptime.strptime unicode raw = Ok c ->
  Datetime.in_range (Datetime.civil_seconds c) = true.
Proof. intros H. apply valid_civil_in_range, (strptime_valid raw), H. Qed.

Lemma strptime_raises_value_error (raw : string) (e : exn) :
  Strptime.strptime unicode raw = Raise e -> e = ValueError.
Proof.
  unfold Strptime.strptime.
  destruct (Strptime.matches unicode raw) as [| [c rest] ms]; [congruence |].
  destruct (negb (String.eqb rest "")); [congruence |].
  destruct (Strptime.valid c); congruence.
Qed.

End Bounds.

(** ** Start and end dates *)

Lemma local_ok (utcoffset : Z -> Z) (u v : Z) :
  local utcoffset u = Ok v -> v = u + utcoffset u.
Proof.
  unfold local. destruct (Datetime.in_range _); [| discriminate].
  intros [= <-]. reflexivity.
Qed.

(** In any zone, the instant that is returned is one at which the local
    clock shows [t], unless the clock shows [t] at neither of the two
    instants that are tried; then the later of the two is returned. *)
Lemma local_to_seconds_instant (utcoffset : Z -> Z) (t u : Z) :
  local_to_seconds utcoffset t = Ok u ->
  let first := t - utcoffset t in
  let second := t - utcoffset first in
  clock_shows utcoffset u t
  \/ (~ clock_shows utcoffset first t /\ ~ clock_shows utcoffset second t
      /\ u = Z.max first second).
Proof.
  intros H first second. unfold local_to_seconds in H. unfold clock_shows.
  destruct (local utcoffset t) as [lt |] eqn:E0; cbn [bind] in H;
    [| discriminate].
  apply local_ok in E0.
  replace (t - (lt - t)) with first in H by (subst first; lia).
  destruct (local utcoffset first) as [t1 |] eqn:E1; cbn [bind] in H;
    [| discriminate].
  apply local_ok in E1.
  destruct (t1 =? t) eqn:Et1.
  - apply Z.eqb_eq in Et1.
    destruct (local utcoffset (first - max_fold_seconds)) as [lt2 |];
      cbn [bind] in H; [| discriminate].
    destruct (true && (lt - t =? lt2 - (first - max_fold_seconds))).
    + injection H as <-. left. lia.
    + destruct (local utcoffset (t - (lt2 - (first - max_fold_seconds))))
        as [t2 |] eqn:E3; cbn [bind] in H; [| discriminate].
      apply local_ok in E3.
      destruct (t2 =? t) eqn:Et2; injection H as <-; left.
      * apply Z.eqb_eq in Et2. lia.
      * lia.
  - apply Z.eqb_neq in Et1. cbn [bind andb] in H.
    replace (t - (t1 - first)) with second in H by (subst second; lia).
    destruct (local utcoffset second) as [t2 |] eqn:E3; cbn [bind] in H;
      [| discriminate].
    apply local_ok in E3.
    destruct (t2 =? t) eqn:Et2; injection H as <-.
    + apply Z.eqb_eq in Et2. left. lia.
    + apply Z.eqb_neq in Et2. right.
      split; [lia |]. split; [lia | reflexivity].
Qed.

Section FixedOffsetZone.

Variable utcoffset : Z -> Z.
Variable offset : Z.
Hypothesis fixed : forall u, utcoffset u = offset.

(** In a zone with a constant offset, the instant at which the local
    clock reads [t] is [t - offset]. *)
Lemma local_to_seconds_fixed (t : Z) :
  Datetime.in_range t = true ->
  Datetime.in_range (t + offset) = true ->
  Datetime.in_range (t - 86400) = true ->
  local_to_seconds utcoffset t = Ok (t - offset).
Proof.
  intros Ht Hfwd Hback.
  assert (Hlocal : forall u v, u + offset = v -> Datetime.in_range v = true ->
                               local utcoffset u = Ok v).
  { intros u v <- Hv. unfold local. rewrite fixed, Hv. reflexivity. }
  unfold local_to_seconds, max_fold_seconds.
  rewrite (Hlocal t (t + offset)) by (reflexivity || assumption).
  cbn [bind].
  rewrite (Hlocal _ t) by (lia || assumption).
  cbn [bind]. rewrite Z.eqb_refl.
  rewrite (Hlocal _ (t - 86400)) by (lia || assumption).
  cbn [bind].
  replace (t + offset - t =? t - 86400 - (t - (t + offset - t) - 24 * 3600))
    with true by (symmetry; apply Z.eqb_eq; lia).
  cbn [andb]. f_equal. lia.
Qed.

End FixedOffsetZone.

Section StartAndEndDates.

Variable unicode : Unicode.database.
Variable utcoffset : Z -> Z.

Lemma validate_returns (raw : string) (c : Datetime.civil) (v : pyval) :
  Strptime.strptime unicode raw = Ok c ->
  validate_and_format_timestamp unicode utcoffset raw = Ok v ->
  exists u,
    local_to_seconds utcoffset (Datetime.civil_seconds c) = Ok u
    /\ v = PInt (1000 * u).
Proof.
  intros Hparse. unfold validate_and_format_timestamp, timestamp_ms.
  rewrite Hparse. cbn [bind].
  destruct (local_to_seconds utcoffset (Datetime.civil_seconds c))
    as [u | e]; cbn [bind].
  - intros [= <-]. exists u. split; [reflexivity | f_equal; lia].
  - destruct e; discriminate.
Qed.

Lemma validate_malformed (raw : string) (e : exn) :
  Strptime.strptime unicode raw = Raise e ->
  validate_and_format_timestamp unicode utcoffset raw = Raise (SystemExit 1).
Proof.
  intros H. pose proof (strptime_raises_value_error _ _ _ H) as ->.
  unfold validate_and_format_timestamp. rewrite H. reflexivity.
Qed.

(** A start date that does not parse ends [main] with [sys.exit(1)] before
    anything is requested or written. *)
Lemma main_malformed_start (hostname : string)
    (jwt api_key event actorName targetName withinProjectName
     endTimestamp : option string) (raw : string) (e : exn)
    (replies : list http_outcome) (w : world) :
  py_truthy (opt_arg jwt) || py_truthy (opt_arg api_key) = true ->
  raw <> "" ->
  Strptime.strptime unicode raw = Raise e ->
  main unicode utcoffset
    (parse_args hostname jwt api_key event actorName targetName
       withinProjectName (Some raw) endTimestamp) replies w
  = Raised (SystemExit 1) w.
Proof.
  intros Hcred Hraw Hbad. unfold main, parse_args.
  cbn [dict_get dict_get_d dict_lookup dict_set String.eqb Ascii.eqb Bool.eqb].
  rewrite <- negb_orb, Hcred. cbn [negb].
  unfold format_if_given at 1. cbn [opt_arg py_truthy].
  replace (String.eqb raw "") with false
    by (symmetry; apply String.eqb_neq; exact Hraw).
  cbn [negb]. rewrite (validate_malformed _ _ Hbad). reflexivity.
Qed.

(** So does an end date that does not parse, after a start date that is
    absent or well-formed. *)
Lemma main_malformed_end (hostname : string)
    (jwt api_key event actorName targetName withinProjectName
     startTimestamp : option string) (start : pyval) (raw : string) (e : exn)
    (replies : list http_outcome) (w : world) :
  py_truthy (opt_arg jwt) || py_truthy (opt_arg api_key) = true ->
  format_if_given unicode utcoffset (opt_arg startTimestamp) = Ok start ->
  raw <> "" ->
  Strptime.strptime unicode raw = Raise e ->
  main unicode utcoffset
    (parse_args hostname jwt api_key event actorName targetName
       withinProjectName startTimestamp (Some raw)) replies w
  = Raised (SystemExit 1) w.
Proof.
  intros Hcred Hstart Hraw Hbad. unfold main, parse_args.
  cbn [dict_get dict_get_d dict_lookup dict_set String.eqb Ascii.eqb Bool.eqb].
  rewrite <- negb_orb, Hcred. cbn [negb].
  rewrite Hstart.
  unfold format_if_given at 1. cbn [opt_arg py_truthy].
  replace (String.eqb raw "") with false
    by (symmetry; apply String.eqb_neq; exact Hraw).
  cbn [negb]. rewrite (validate_malformed _ _ Hbad). reflexivity.
Qed.

(** An empty date is not looked at: the run is the run without the date. *)
Lemma main_empty_start (hostname : string)
    (jwt api_key event actorName targetName withinProjectName
     endTimestamp : option string)
    (replies : list http_outcome) (w : world) :
  main unicode utcoffset
    (parse_args hostname jwt api_key event actorName targetName
       withinProjectName (Some "") endTimestamp) replies w
  = main unicode utcoffset
      (parse_args hostname jwt api_key event actorName targetName
         withinProjectName None endTimestamp) replies w.
Proof. reflexivity. Qed.

Lemma main_empty_end (hostname : string)
    (jwt api_key event actorName targetName withinProjectName
     startTimestamp : option string)
    (replies : list http_outcome) (w : world) :
  main unicode utcoffset
    (parse_args hostname jwt api_key event actorName targetName
       withinProjectName startTimestamp (Some "")) replies w
  = main unicode utcoffset
      (parse_args hostname jwt api_key event actorName targetName
         withinProjectName startTimestamp None) replies w.
Proof.
  unfold main, parse_args.
  cbn [dict_get dict_get_d dict_lookup dict_set String.eqb Ascii.eqb Bool.eqb].
  destruct (negb (py_truthy (opt_arg jwt)) && negb (py_truthy (opt_arg api_key)));
    [reflexivity |].
  destruct (format_if_given unicode utcoffset (opt_arg startTimestamp));
    reflexivity.
Qed.

End StartAndEndDates.

(** C8 (amended). The start and end dates are read in the local zone of
    the host, not as UTC.

    - In a zone with a constant offset from UTC, a date string that
      [strptime] accepts is turned into 1000 times the UTC reading of its
      civil time minus the offset, which is the UTC reading only when the
      offset is zero.  (The civil time shifted by the offset, and the civil
      time a day earlier, must be representable.)
    - In any zone, when the conversion of an accepted date string
      returns, it returns 1000 times an instant at which the local clock
      shows that civil time; or, when the clock shows it at neither of the
      two instants that the conversion tries (a time that the local clock
      skips), 1000 times the later of these two instants.
    - Every valid civil time written as YYYY-MM-DD HH:MM:SS with zero
      padding is accepted, whatever the Unicode database; what is accepted
      is a valid civil time.
    - A string that [strptime] rejects makes the conversion end the
      process with status 1.  Given as a start or end date of [main], a
      rejected string that is not empty does so before any request is sent
      and before the file is created.
    - An empty start or end date is not converted at all: the run is the
      same as without that date. *)
Theorem date_is_read_in_the_local_zone
    (unicode : Unicode.database) (utcoffset : Z -> Z) :
  (forall offset raw c,
      (forall u, utcoffset u = offset) ->
      Strptime.strptime unicode raw = Ok c ->
      Datetime.in_range (Datetime.civil_seconds c + offset) = true ->
      Datetime.in_range (Datetime.civil_seconds c - 86400) = true ->
      validate_and_format_timestamp unicode utcoffset raw
      = Ok (PInt (1000 * (Datetime.civil_seconds c - offset))))
  /\ (forall raw c v,
        Strptime.strptime unicode raw = Ok c ->
        validate_and_format_timestamp unicode utcoffset raw = Ok v ->
        exists u,
          v = PInt (1000 * u)
          /\ let t := Datetime.civil_seconds c in
             let first := t - utcoffset t in
             let second := t - utcoffset first in
             clock_shows utcoffset u t
             \/ (~ clock_shows utcoffset first t
                 /\ ~ clock_shows utcoffset second t
                 /\ u = Z.max first second))
  /\ (forall c,
        valid_civil c = true ->
        Strptime.strptime unicode (date_text c) = Ok c)
  /\ (forall raw c,
        Strptime.strptime unicode raw = Ok c -> valid_civil c = true)
  /\ (forall raw e,
        Strptime.strptime unicode raw = Raise e ->
        validate_and_format_timestamp unicode utcoffset raw
        = Raise (SystemExit 1))
  /\ (forall hostname jwt api_key event actorName targetName
             withinProjectName startTimestamp endTimestamp raw e replies w,
        py_truthy (opt_arg jwt) || py_truthy (opt_arg api_key) = true ->
        raw <> "" ->
        Strptime.strptime unicode raw = Raise e ->
        startTimestamp = Some raw
        \/ (endTimestamp = Some raw
            /\ is_ok (format_if_given unicode utcoffset (opt_arg startTimestamp))
               = true) ->
        let run :=
          main unicode utcoffset
            (parse_args hostname jwt api_key event actorName targetName
               withinProjectName startTimestamp endTimestamp) replies w in
        run = Raised (SystemExit 1) w /\ exit_status run = Some 1)
  /\ (forall hostname jwt api_key event actorName targetName
             withinProjectName other replies w,
        main unicode utcoffset
          (parse_args hostname jwt api_key event actorName targetName
             withinProjectName (Some "") other) replies w
        = main unicode utcoffset
            (parse_args hostname jwt api_key event actorName targetName
               withinProjectName None other) replies w
        /\ main unicode utcoffset
             (parse_args hostname jwt api_key event actorName targetName
                withinProjectName other (Some "")) replies w
           = main unicode utcoffset
               (parse_args hostname jwt api_key event actorName targetName
                  withinProjectName other None) replies w).
Proof.
  split; [| split; [| split; [| split; [| split; [| split]]]]].
  - intros offset raw c Hfixed Hparse Hfwd Hback.
    pose proof (strptime_in_range _ _ _ Hparse) as Ht.
    unfold validate_and_format_timestamp, timestamp_ms.
    rewrite Hparse. cbn [bind].
    rewrite (local_to_seconds_fixed utcoffset offset Hfixed _ Ht Hfwd Hback).
    cbn [bind]. do 2 f_equal. lia.
  - intros raw c v Hparse Hv.
    destruct (validate_returns _ _ _ _ _ Hparse Hv) as (u & Hu & ->).
    exists u. split; [reflexivity |].
    exact (local_to_seconds_instant _ _ _ Hu).
  - apply strptime_date_text.
  - apply strptime_valid.
  - intros raw e. apply validate_malformed.
  - intros hostname jwt api_key event actorName targetName withinProjectName
           startTimestamp endTimestamp raw e replies w Hcred Hraw Hbad Hwhich run.
    assert (Hrun : run = Raised (SystemExit 1) w).
    { subst run. destruct Hwhich as [-> | [-> Hstart]].
      - eapply main_malformed_start; eassumption.
      - destruct (format_if_given unicode utcoffset (opt_arg startTimestamp))
          as [start |] eqn:Es; [| discriminate Hstart].
        eapply main_malformed_end; eassumption. }
    rewrite Hrun. split; reflexivity.
  - intros. split; [apply main_empty_start | apply main_empty_end].
Qed.

(** Five hours west of UTC, midnight of 1970-01-01 is 18000000
    milliseconds after the epoch, not 0. *)
Lemma local_midnight_is_not_utc_midnight :
  Strptime.strptime unicode_14 "1970-01-01 00:00:00"
  = Ok (Datetime.mkCivil 1970 1 1 0 0 0)
  /\ 1000 * Datetime.civil_seconds (Datetime.mkCivil 1970 1 1 0 0 0) = 0
  /\ validate_and_format_timestamp unicode_14 zone_minus_5h
       "1970-01-01 00:00:00"
     = Ok (PInt 18000000).
Proof. repeat split. Qed.

(** An empty start date is a string that does not parse, and yet the
    export runs and ends with status 0. *)
Example empty_date_is_not_validated :
  Strptime.strptime unicode_14 "" = Raise ValueError
  /\ exit_status
       (main unicode_14 zone_utc
          (parse_args "https://domino.example" None (Some "k") None None None
             None (Some "") None)
          [page_reply short_page] initial_world)
     = Some 0.
Proof. split; reflexivity. Qed.

(** In the zone with a daylight-saving rule, a civil time that the clock
    skips is turned into the instant one hour later on the clock. *)
Example skipped_local_time :
  Strptime.strptime unicode_14 "1970-01-12 13:16:40"
  = Ok (Datetime.civil_of_seconds 998200)
  /\ validate_and_format_timestamp unicode_14 zone_dst "1970-01-12 13:16:40"
     = Ok (PInt 1001800000)
  /\ 1001800 + zone_dst 1001800 = 1001800.
Proof. repeat split. Qed.

(** ** The theorems at concrete inputs *)

Example dataset_record_columns :
  map (dict_get dataset_record) CSV_HEADERS
  = [ PStr "2024-10-17 17:16:00"; PStr "ana"; PStr "Update Dataset";
      PStr "d-0"; PStr "alpha"; PStr "clean"; PNone; PStr "u-5"; PNone;
      PStr "/a.csv"; PStr "/b.csv"; PStr "ana,bo,cy"; PStr ""; PNone; PNone ].
Proof. reflexivity. Qed.


Lemma flat_record_has_fixed_columns_witness :
  parse_event dataset_event = Ok dataset_record
  /\ keys dataset_record
     = [ UTC_TIMESTAMP; USER_NAME; EVENT; TARGET_NAME; PROJECT_NAME;
         DATASET_NAME; FILE_NAME; TARGET_USER; FEATURE_FLAG; JOBS;
         OLD_VALUE; NEW_VALUE; ADDED_VALUE; REMOVED_VALUE; COMMAND ]
  /\ Permutation (keys dataset_record) CSV_HEADERS
  /\ NoDup CSV_HEADERS
  /\ dict_to_list CSV_HEADERS dataset_record
     = Ok (map (dict_get dataset_record) CSV_HEADERS).
Proof.
  split; [reflexivity |].
  apply (flat_record_has_fixed_columns dataset_event dataset_record).
  reflexivity.
Defined.

Lemma project_name_iff_project_scope_witness :
  parse_event organization_event = Ok organization_record
  /\ py_eq_str (field (field organization_event "in") "entityType") "project"
     = false
  /\ dict_get organization_record PROJECT_NAME = PNone
  /\ parse_event dataset_event = Ok dataset_record
  /\ dict_get dataset_record PROJECT_NAME = PStr "alpha".
Proof.
  split; [reflexivity |]. split; [reflexivity |]. split.
  - apply (project_name_iff_project_scope organization_event organization_record);
      reflexivity.
  - split; [reflexivity |].
    apply (project_name_iff_project_scope dataset_event dataset_record);
      reflexivity.
Defined.

Lemma affecting_last_write_wins_witness :
  parse_event dataset_event = Ok dataset_record
  /\ affecting_column second_dataset = Some DATASET_NAME
  /\ affecting_value second_dataset = PStr "clean"
  /\ dict_get dataset_record DATASET_NAME = affecting_value second_dataset.
Proof.
  split; [reflexivity |]. split; [reflexivity |]. split; [reflexivity |].
  apply (affecting_last_write_wins dataset_event dataset_record
           [first_dataset] [PDict unnamed_file; PDict unnamed_user]
           second_dataset DATASET_NAME).
  - reflexivity.
  - reflexivity.
  - reflexivity.
  - repeat constructor; discriminate.
Defined.

Lemma affecting_file_has_no_id_fallback_witness :
  parse_event dataset_event = Ok dataset_record
  /\ dict_lookup unnamed_file "id" = Some (PStr "f-9")
  /\ dict_get dataset_record FILE_NAME = PNone
  /\ dict_get dataset_record TARGET_USER = PStr "u-5".
Proof.
  split; [reflexivity |]. split; [reflexivity |]. split.
  - apply (affecting_file_has_no_id_fallback dataset_event dataset_record
             [first_dataset; second_dataset] [PDict unnamed_user]
             unnamed_file FILE_NAME).
    + reflexivity.
    + reflexivity.
    + reflexivity.
    + repeat constructor; discriminate.
    + reflexivity.
  - apply (affecting_file_has_no_id_fallback dataset_event dataset_record
             [first_dataset; second_dataset; PDict unnamed_file] []
             unnamed_user TARGET_USER).
    + reflexivity.
    + reflexivity.
    + reflexivity.
    + constructor.
    + reflexivity.
Defined.

Lemma job_target_projection_witness :
  parse_event job_event_with_query = Ok job_record
  /\ dict_get job_record JOBS = PStr "nightly"
  /\ dict_get job_record COMMAND = PStr "SELECT 1"
  /\ dict_get job_record NEW_VALUE = PNone.
Proof.
  split; [reflexivity |].
  apply (job_target_projection job_event_with_query job_record nightly_job []).
  - reflexivity.
  - reflexivity.
  - reflexivity.
Defined.

Lemma repeat_parses (raw_event : pyval) (n : nat) :
  parses raw_event -> Forall parses (repeat raw_event n).
Proof.
  intros H. apply Forall_forall. intros x Hx.
  apply repeat_spec in Hx. subst x. exact H.
Qed.

Lemma repeat_full (raw_event : pyval) : full (repeat raw_event 1000).
Proof. unfold full. rewrite repeat_length. vm_compute. discriminate. Qed.


Example three_pages_three_offsets :
  map (fun i => PInt (BATCH_LIMIT * Z.of_nat i))
    (seq 0 (S (List.length [full_page_a; full_page_b])))
  = [PInt 0; PInt 1000; PInt 2000].
Proof. reflexivity. Qed.

Lemma failed_fetch_ends_the_export_witness :
  let run :=
    export_audit_trail
      ([page_reply full_page_a] ++ ConnectionFailed :: [page_reply short_page])
      "https://domino.example" sample_headers sample_params initial_world in
  run = Raised ConnectionError
          (mkWorld
             (Some (header_row :: flat_map (map row_of_event) [full_page_a]))
             (log initial_world
              ++ IoCreate header_row
                 :: expected_log "https://domino.example" sample_headers
                      sample_params 0 [full_page_a]
                 ++ [IoGet (request_at "https://domino.example" sample_headers
                              sample_params
                              (BATCH_LIMIT * Z.of_nat (List.length [full_page_a])))]))
  /\ exit_status run = Some 1.
Proof.
  apply (failed_fetch_ends_the_export
           [page_reply full_page_a] [page_reply short_page] ConnectionFailed
           ConnectionError [full_page_a]
           "https://domino.example" sample_headers sample_params initial_world).
  - repeat constructor.
  - repeat constructor; apply repeat_full.
  - repeat constructor; apply repeat_parses; reflexivity.
  - reflexivity.
Defined.

Lemma date_is_read_in_the_local_zone_witness :
  validate_and_format_timestamp unicode_14 zone_minus_5h "2024-10-17 17:16:00"
  = Ok (PInt (1000 * (Datetime.civil_seconds
                        (Datetime.mkCivil 2024 10 17 17 16 0) - -18000)))
  /\ (exists u,
        PInt 1001800000 = PInt (1000 * u)
        /\ let t := Datetime.civil_seconds
                      (Datetime.mkCivil 1970 1 12 13 16 40) in
           let first := t - zone_dst t in
           let second := t - zone_dst first in
           clock_shows zone_dst u t
           \/ (~ clock_shows zone_dst first t
               /\ ~ clock_shows zone_dst second t
               /\ u = Z.max first second))
  /\ Strptime.strptime unicode_14
       (date_text (Datetime.mkCivil 987 6 5 4 3 2))
     = Ok (Datetime.mkCivil 987 6 5 4 3 2)
  /\ valid_civil (Datetime.mkCivil 2024 1 5 3 4 5) = true
  /\ validate_and_format_timestamp unicode_14 zone_minus_5h "17/10/2024 17:16"
     = Raise (SystemExit 1)
  /\ main unicode_14 zone_minus_5h
       (parse_args "https://domino.example/" None (Some "k") None None None
          None (Some "yesterday") None)
       [page_reply short_page] initial_world
     = Raised (SystemExit 1) initial_world
  /\ main unicode_14 zone_minus_5h
       (parse_args "https://domino.example/" None (Some "k") None None None
          None (Some "") (Some "2024-10-17 17:16:00"))
       [page_reply short_page] initial_world
     = main unicode_14 zone_minus_5h
         (parse_args "https://domino.example/" None (Some "k") None None None
            None None (Some "2024-10-17 17:16:00"))
         [page_reply short_page] initial_world.
Proof.
  destruct (date_is_read_in_the_local_zone unicode_14 zone_minus_5h)
    as (Hfixed & _ & Hform & Hvalid & Hbad & Hmain & Hempty).
  destruct (date_is_read_in_the_local_zone unicode_14 zone_dst)
    as (_ & Hany & _).
  split; [| split; [| split; [| split; [| split; [| split]]]]].
  - apply (Hfixed (-18000)); reflexivity.
  - apply (Hany "1970-01-12 13:16:40"); reflexivity.
  - apply Hform. reflexivity.
  - apply (Hvalid "2024-1-5  3:4:5"). reflexivity.
  - apply (Hbad _ ValueError). reflexivity.
  - apply (Hmain "https://domino.example/" None (Some "k") None None None None
             (Some "yesterday") None "yesterday" ValueError).
    + reflexivity.
    + discriminate.
    + reflexivity.
    + left. reflexivity.
  - apply (Hempty "https://domino.example/" None (Some "k") None None None None
             (Some "2024-10-17 17:16:00")).
Defined.

(** * Further properties of the script *)

(** ** The calendar: days and civil dates *)

(** The day count of the civil date of a day count is that day count. *)
Lemma civil_days_round_trip (z : Z) :
  let '(y, m, d) := Datetime.civil_from_days z in
  1 <= m <= 12 /\ 1 <= d <= 31 /\ Datetime.days_from_civil y m d = z.
Proof.
  unfold Datetime.civil_from_days, Datetime.days_from_civil.
  set (z' := z + 719468).
  set (era := z' / 146097).
  set (doe := z' - era * 146097).
  assert (Hdoe : 0 <= doe <= 146096) by (subst doe era; divmod).
  set (yoe := (doe - doe / 1460 + doe / 36524 - doe / 146096) / 365).
  assert (Hyoe : 0 <= yoe <= 399) by (subst yoe; divmod).
  set (doy := doe - (365 * yoe + yoe / 4 - yoe / 100)).
  assert (Hdoy : 0 <= doy <= 365) by (subst doy yoe; divmod).
  set (mp := (5 * doy + 2) / 153).
  assert (Hmp : 0 <= mp <= 11) by (subst mp; divmod).
  assert (Hd : 1 <= doy - (153 * mp + 2) / 5 + 1 <= 31) by (subst mp; divmod).
  assert (Hy : forall y', y' = yoe + era * 400 ->
                 y' / 400 = era /\ y' - y' / 400 * 400 = yoe) by (intros; divmod).
  destruct (mp <? 10) eqn:Emp; [apply Z.ltb_lt in Emp | apply Z.ltb_ge in Emp].
  - replace (mp + 3 <=? 2) with false by (symmetry; apply Z.leb_gt; lia).
    destruct (Hy _ eq_refl) as [-> ->].
    replace (mp + 3 - 3) with mp by lia.
    repeat split; lia.
  - replace (mp - 9 <=? 2) with true by (symmetry; apply Z.leb_le; lia).
    replace (yoe + era * 400 + 1 - 1) with (yoe + era * 400) by lia.
    destruct (Hy _ eq_refl) as [-> ->].
    replace (mp - 9 + 9) with mp by lia.
    repeat split; lia.
Qed.

(** The civil date of a day count has a month and a day that exist. *)
Lemma civil_from_days_valid (z : Z) :
  let '(y, m, d) := Datetime.civil_from_days z in
  1 <= m <= 12 /\ 1 <= d <= Datetime.days_in_month y m.
Proof.
  unfold Datetime.civil_from_days.
  set (z' := z + 719468).
  set (era := z' / 146097).
  set (doe := z' - era * 146097).
  assert (Hdoe : 0 <= doe <= 146096) by (subst doe era; divmod).
  set (yoe := (doe - doe / 1460 + doe / 36524 - doe / 146096) / 365).
  assert (Hyoe : 0 <= yoe <= 399) by (subst yoe; divmod).
  set (doy := doe - (365 * yoe + yoe / 4 - yoe / 100)).
  assert (Hdoy : 0 <= doy <= 365) by (subst doy yoe; divmod).
  assert (Hleap : doy = 365 ->
            ((yoe + 1) mod 4 = 0 /\ (yoe + 1) mod 100 <> 0) \/ yoe = 399)
    by (subst doy yoe; divmod).
  set (mp := (5 * doy + 2) / 153).
  assert (Hmp : 0 <= mp <= 11) by (subst mp; divmod).
  set (d := doy - (153 * mp + 2) / 5 + 1).
  assert (Hd : 1 <= d) by (subst d mp; divmod).
  assert (Hlen : (mp = 0 \/ mp = 2 \/ mp = 4 \/ mp = 5 \/ mp = 7 \/ mp = 9
                  \/ mp = 10 -> d <= 31)
                 /\ (mp = 1 \/ mp = 3 \/ mp = 6 \/ mp = 8 -> d <= 30)
                 /\ (mp = 11 -> d <= 29 /\ (d = 29 -> doy = 365)))
    by (subst d mp; divmod).
  unfold Datetime.days_in_month, Datetime.is_leap.
  destruct (mp <? 10) eqn:Emp; [apply Z.ltb_lt in Emp | apply Z.ltb_ge in Emp].
  - replace (mp + 3 <=? 2) with false by (symmetry; apply Z.leb_gt; lia).
    replace (mp + 3 =? 2) with false by (symmetry; apply Z.eqb_neq; lia).
    split; [lia |]. split; [exact Hd |].
    destruct ((mp + 3 =? 4) || (mp + 3 =? 6) || (mp + 3 =? 9) || (mp + 3 =? 11))
      eqn:E30.
    + rewrite !orb_true_iff, !Z.eqb_eq in E30. lia.
    + rewrite !orb_false_iff, !Z.eqb_neq in E30. lia.
  - replace (mp - 9 <=? 2) with true by (symmetry; apply Z.leb_le; lia).
    split; [lia |]. split; [exact Hd |].
    destruct (mp - 9 =? 2) eqn:Efeb.
    + apply Z.eqb_eq in Efeb.
      destruct (((yoe + era * 400 + 1) mod 4 =? 0)
                && negb ((yoe + era * 400 + 1) mod 100 =? 0)
                || ((yoe + era * 400 + 1) mod 400 =? 0)) eqn:El.
      * lia.
      * rewrite orb_false_iff, andb_false_iff, negb_false_iff, !Z.eqb_neq,
          Z.eqb_eq in El.
        assert (d <> 29); [| lia].
        intros H29. assert (Hdoy365 : doy = 365) by lia.
        specialize (Hleap Hdoy365). clear - Hleap El Hyoe. divmod.
    + apply Z.eqb_neq in Efeb.
      replace ((mp - 9 =? 4) || (mp - 9 =? 6) || (mp - 9 =? 9) || (mp - 9 =? 11))
        with false by (symmetry; rewrite !orb_false_iff, !Z.eqb_neq; lia).
      lia.
Qed.

Lemma days_from_civil_before_year_1 (y m d : Z) :
  y <= 0 -> 1 <= m <= 12 -> 1 <= d <= 31 ->
  Datetime.days_from_civil y m d < -719162.
Proof.
  intros Hy Hm Hd. unfold Datetime.days_from_civil.
  destruct (m <=? 2) eqn:Em; [apply Z.leb_le in Em | apply Z.leb_gt in Em];
    divmod.
Qed.

Lemma days_from_civil_after_year_9999 (y m d : Z) :
  10000 <= y -> 1 <= m <= 12 -> 1 <= d <= 31 ->
  2932896 < Datetime.days_from_civil y m d.
Proof.
  intros Hy Hm Hd. unfold Datetime.days_from_civil.
  destruct (m <=? 2) eqn:Em; [apply Z.leb_le in Em | apply Z.leb_gt in Em];
    divmod.
Qed.

Lemma days_in_month_le_31 (y m : Z) : Datetime.days_in_month y m <= 31.
Proof.
  unfold Datetime.days_in_month.
  destruct (m =? 2); [destruct (Datetime.is_leap y) |
    destruct ((m =? 4) || (m =? 6) || (m =? 9) || (m =? 11))]; lia.
Qed.

(** Inside the [datetime] range, the civil reading of an instant is a
    valid civil time whose UTC instant is the one started from. *)
Lemma civil_of_seconds_round_trip (s : Z) :
  Datetime.in_range s = true ->
  valid_civil (Datetime.civil_of_seconds s) = true
  /\ Datetime.civil_seconds (Datetime.civil_of_seconds s) = s.
Proof.
  unfold Datetime.in_range, Datetime.MIN_SECONDS, Datetime.MAX_SECONDS.
  rewrite andb_true_iff, !Z.leb_le. intros Hs.
  unfold Datetime.civil_of_seconds, Datetime.civil_seconds.
  pose proof (civil_days_round_trip (s / 86400)) as Hrt.
  pose proof (civil_from_days_valid (s / 86400)) as Hv.
  destruct (Datetime.civil_from_days (s / 86400)) as [[y m] d].
  destruct Hrt as (Hm & Hd & Hdays). destruct Hv as (_ & Hdim).
  cbn [Datetime.year Datetime.month Datetime.day
       Datetime.hour Datetime.minute Datetime.second].
  assert (Hy : 1 <= y <= 9999).
  { split.
    - apply Z.nlt_ge. intros Hlt.
      pose proof (days_from_civil_before_year_1 y m d ltac:(lia) Hm Hd).
      divmod.
    - apply Z.nlt_ge. intros Hlt.
      pose proof (days_from_civil_after_year_9999 y m d ltac:(lia) Hm Hd).
      divmod. }
  split.
  - unfold valid_civil.
    cbn [Datetime.year Datetime.month Datetime.day
         Datetime.hour Datetime.minute Datetime.second].
    rewrite !andb_true_iff, !Z.leb_le.
    repeat split; try lia; divmod.
  - rewrite Hdays. divmod.
Qed.

(** ** The stages of normalization, column by column *)

Lemma parse_event_stages (raw_event : pyval) (r : dict) :
  parse_event raw_event = Ok r ->
  exists pe0 pe1 pe2,
    project_header raw_event empty_parsed_event = Ok pe0
    /\ project_target raw_event pe0 = Ok pe1
    /\ project_affecting raw_event pe1 = Ok pe2
    /\ project_command raw_event pe2 = Ok r.
Proof.
  intros H. unfold parse_event in H.
  bind_inv H. bind_inv H. bind_inv H.
  eexists _, _, _. repeat split; eassumption.
Qed.

(** The loop over [event.affecting] visits exactly [affecting_entries]. *)
Lemma project_affecting_entries (raw_event : pyval) (pe pe' : dict) :
  project_affecting raw_event pe = Ok pe' ->
  foldM affecting_step pe (affecting_entries raw_event) = Ok pe'.
Proof.
  intros H. unfold project_affecting in H. bind_inv H.
  unfold affecting_entries.
  destruct (py_truthy v) eqn:Ht.
  - rewrite <- (get_list_truthy _ _ _ E Ht).
    bind_inv H.
    destruct v as [| | | s | l | d]; simpl in E0; try discriminate E0;
      injection E0 as <-.
    + destruct s as [| c s]; [discriminate Ht |]. simpl in H. discriminate H.
    + exact H.
    + destruct d as [| [k x] d]; [discriminate Ht |]. simpl in H. discriminate H.
  - injection H as <-.
    pose proof (get_list_falsy _ _ _ E Ht) as Hf.
    destruct (field raw_event "affecting") as [| | | | [| x l] |];
      try reflexivity. discriminate Hf.
Qed.

Lemma affecting_silent_keep (raw_event : pyval) (pe pe' : dict) (col : string) :
  project_affecting raw_event pe = Ok pe' ->
  affecting_silent raw_event col = true ->
  dict_get pe' col = dict_get pe col.
Proof.
  intros H Hs. apply project_affecting_entries in H.
  eapply foldM_affecting_other; [exact H |].
  unfold affecting_silent in Hs. rewrite forallb_forall in Hs.
  apply Forall_forall. intros e He Hcol. specialize (Hs e He).
  unfold writes_column in Hs. rewrite Hcol, String.eqb_refl in Hs.
  discriminate Hs.
Qed.

Lemma project_header_timestamp (raw_event : pyval) (pe pe' : dict) (ms : Z) :
  project_header raw_event pe = Ok pe' ->
  field raw_event "timestamp" = PInt ms ->
  Datetime.in_range (ms / 1000) = true
  /\ dict_get pe' UTC_TIMESTAMP
     = PStr (Datetime.strftime (Datetime.civil_of_seconds (ms / 1000))).
Proof.
  intros H Hf. unfold project_header in H.
  bind_inv H.
  assert (Hv : v = PInt ms).
  { destruct raw_event; simpl in E; try discriminate E.
    apply dict_getitem_get in E. simpl in Hf. congruence. }
  subst v. bind_inv H. cbn [Datetime.fromtimestamp_ms] in E0.
  destruct (Datetime.in_range (ms / 1000)); [| discriminate E0].
  injection E0 as <-. split; [reflexivity |].
  do 7 bind_inv H.
  destruct (py_eq_str v5 "project").
  - do 2 bind_inv H. injection H as <-.
    rewrite !dict_get_set. eqb_closed. reflexivity.
  - injection H as <-.
    rewrite !dict_get_set. eqb_closed. reflexivity.
Qed.

(** What the target stage leaves in each column, for a first target
    [target] of the event. *)
Lemma project_target_values (raw_event : pyval) (pe pe' : dict)
    (target : pyval) (rest : list pyval) :
  project_target raw_event pe = Ok pe' ->
  field raw_event "targets" = PList (target :: rest) ->
  let et := target_type target in
  let name := display_name (field target "entity") in
  let metadata := field raw_event "metadata" in
  dict_get pe' TARGET_NAME = name
  /\ dict_get pe' OLD_VALUE = first_change target "before"
  /\ dict_get pe' NEW_VALUE
     = (if is_job_type et
        then py_or (field metadata "schedule") (first_change target "after")
        else first_change target "after")
  /\ dict_get pe' TARGET_USER
     = (if py_eq_str et "user" then name else dict_get pe TARGET_USER)
  /\ dict_get pe' DATASET_NAME
     = (if is_dataset_type et then name else dict_get pe DATASET_NAME)
  /\ dict_get pe' FILE_NAME
     = (if is_dataset_type et
           && py_eq_str (first_change target "fieldName") "filePath"
        then first_change target "after" else dict_get pe FILE_NAME)
  /\ dict_get pe' JOBS = (if is_job_type et then name else dict_get pe JOBS)
  /\ dict_get pe' COMMAND
     = (if is_job_type et then field metadata "command"
        else dict_get pe COMMAND)
  /\ dict_get pe' FEATURE_FLAG
     = (if py_eq_str et "featureFlag" then name
        else dict_get pe FEATURE_FLAG).
Proof.
  intros H Hf et name metadata. unfold project_target in H.
  bind_inv H. apply (field_list_get _ _ _ _ _ _ Hf) in E. subst v.
  cbn [py_truthy py_getitem_0 bind] in H.
  bind_inv H. bind_inv H.
  destruct (flatten_target_fields _ _ E)
    as (Htype & Hname & Hfield & Hbefore & Hafter).
  apply dict_lookup_getitem in Htype. rewrite Htype in E0.
  injection E0 as <-.
  rewrite Hname, Hafter, Hbefore, Hfield in H.
  fold (target_type target) in H. fold et name in H.
  unfold is_job_type, is_dataset_type.
  destruct (py_eq_str et "user") eqn:Eu.
  { apply py_eq_str_true in Eu. rewrite Eu. injection H as <-.
    rewrite !dict_get_set. eqb_closed. repeat split. }
  destruct (py_eq_str et "dataset" || py_eq_str et "datasetSnapshot") eqn:Ed.
  { assert (Hj : py_eq_str et "scheduledRun" || py_eq_str et "job" = false
                 /\ py_eq_str et "featureFlag" = false).
    { apply orb_true_iff in Ed as [Ed | Ed]; apply py_eq_str_true in Ed;
        rewrite Ed; split; reflexivity. }
    destruct Hj as [-> ->]. cbn [andb].
    destruct (py_eq_str (first_change target "fieldName") "filePath");
      injection H as <-; rewrite !dict_get_set; eqb_closed; repeat split. }
  destruct (py_eq_str et "scheduledRun" || py_eq_str et "job") eqn:Ej.
  { assert (Hff : py_eq_str et "featureFlag" = false).
    { apply orb_true_iff in Ej as [Ej | Ej]; apply py_eq_str_true in Ej;
        rewrite Ej; reflexivity. }
    rewrite Hff. cbn [andb].
    do 4 bind_inv H.
    pose proof (get_sub_field _ _ _ _ _ E0 E1) as Hcommand.
    pose proof (get_sub_field _ _ _ _ _ E2 E3) as Hschedule.
    subst v1 v3. bind_inv H. injection H as <-.
    unfold dict_getitem in E4. rewrite !dict_lookup_set in E4.
    rewrite !dict_get_set. eqb_closed_in E4. eqb_closed.
    repeat split.
    unfold py_or. destruct (py_truthy _); injection E4 as <-; reflexivity. }
  cbn [andb].
  destruct (py_eq_str et "featureFlag");
    injection H as <-; rewrite !dict_get_set; eqb_closed; repeat split.
Qed.

(** ** The rendering of added and removed entities *)

Lemma mapM_names_inv (entities : list pyval) (names : list pyval)
    (strs : list string) :
  mapM (fun obj => py_get obj "name" PNone) entities = Ok names ->
  mapM as_str names = Ok strs ->
  strs = map name_of entities.
Proof.
  revert names strs.
  induction entities as [| e entities IH]; simpl; intros names strs H1 H2.
  - injection H1 as <-. simpl in H2. injection H2 as <-. reflexivity.
  - bind_inv H1. bind_inv H1. injection H1 as <-.
    simpl in H2. bind_inv H2. bind_inv H2. injection H2 as <-.
    apply get_field in E. subst v.
    f_equal.
    + unfold name_of. destruct (field e "name"); try discriminate E1.
      injection E1 as <-. reflexivity.
    + eapply IH; eassumption.
Qed.

(** Whenever the join succeeds, it is the comma-joined names of the
    listed entities. *)
Lemma join_names_inv (source rendered : pyval) :
  join_names source = Ok rendered ->
  rendered = PStr (String.concat "," (map name_of (entities_of source))).
Proof.
  intros H. unfold join_names in H.
  bind_inv H. bind_inv H. bind_inv H. injection H as <-.
  unfold str_join in E1. bind_inv E1. injection E1 as <-.
  destruct source as [| | | s | l | d]; simpl in E; try discriminate E;
    injection E as <-.
  - destruct s as [| c s]; [| discriminate E0].
    simpl in E0. injection E0 as <-. simpl in E2. injection E2 as <-.
    reflexivity.
  - rewrite (mapM_names_inv _ _ _ E0 E2). reflexivity.
  - destruct d as [| [k x] d]; [| discriminate E0].
    simpl in E0. injection E0 as <-. simpl in E2. injection E2 as <-.
    reflexivity.
Qed.

Lemma flatten_target_rendered (target_raw : pyval) (td : dict) :
  flatten_target target_raw = Ok td ->
  dict_get td "added" = rendered_names target_raw "added"
  /\ dict_get td "removed" = rendered_names target_raw "removed".
Proof.
  intros H. unfold flatten_target in H. unfold rendered_names.
  do 5 bind_inv H.
  destruct (py_truthy v3) eqn:Ht.
  - bind_inv H.
    pose proof (get_list_truthy _ _ _ E3 Ht) as Hv3. rewrite <- Hv3, Ht.
    do 5 bind_inv H.
    destruct (getitem_0_dict _ _ _ _ _ E4 E5) as [rest Hrest].
    assert (Hfc : forall k, first_change target_raw k = field v4 k).
    { intros k. unfold first_change. rewrite <- Hv3, Hrest. reflexivity. }
    do 4 bind_inv H. injection H as <-.
    apply join_names_inv in E11, E13. subst v11 v13.
    assert (Hent : forall k listed,
               py_get v4 k (PList []) = Ok listed ->
               entities_of listed = entities_of (field v4 k)).
    { intros k listed Hv. apply py_get_inv in Hv as (cd & -> & ->).
      simpl. unfold dict_get, dict_get_d.
      destruct (dict_lookup cd k); reflexivity. }
    rewrite !Hfc, <- (Hent _ _ E10), <- (Hent _ _ E12).
    split; reflexivity.
  - injection H as <-.
    rewrite (get_list_falsy _ _ _ E3 Ht). split; reflexivity.
Qed.

Lemma project_target_rendered (raw_event : pyval) (pe pe' : dict)
    (target : pyval) (rest : list pyval) :
  project_target raw_event pe = Ok pe' ->
  field raw_event "targets" = PList (target :: rest) ->
  dict_get pe' ADDED_VALUE = rendered_names target "added"
  /\ dict_get pe' REMOVED_VALUE = rendered_names target "removed".
Proof.
  intros H Hf. unfold project_target in H.
  bind_inv H. apply (field_list_get _ _ _ _ _ _ Hf) in E. subst v.
  cbn [py_truthy py_getitem_0 bind] in H.
  bind_inv H. bind_inv H.
  destruct (flatten_target_rendered _ _ E) as [Hadded Hremoved].
  rewrite Hadded, Hremoved in H.
  repeat match type of H with
         | (if ?c then _ else _) = Ok _ => destruct c
         end;
    repeat bind_inv H; injection H as <-;
    rewrite !dict_get_set; eqb_closed; split; reflexivity.
Qed.

(** Under a successful target stage the event either has no targets, and
    the stage changes nothing, or has a first target. *)
Lemma project_target_cases (raw_event : pyval) (pe pe' : dict) :
  project_target raw_event pe = Ok pe' ->
  (py_truthy (field raw_event "targets") = false /\ pe' = pe)
  \/ exists target rest, field raw_event "targets" = PList (target :: rest).
Proof.
  intros H. unfold project_target in H. bind_inv H.
  destruct (py_truthy v) eqn:Ht.
  - right. pose proof (get_list_truthy _ _ _ E Ht) as Hv.
    bind_inv H. bind_inv H. unfold flatten_target in E1. bind_inv E1.
    destruct (getitem_0_dict _ _ _ _ _ E0 E2) as [rest Hrest].
    exists v0, rest. congruence.
  - left. injection H as <-. split; [| reflexivity].
    eapply get_list_falsy; eassumption.
Qed.

(** ** Columns of the flat record *)

Lemma digit_at_hyphen (unicode : Unicode.database) (rest : string) :
  Strptime.digit unicode (String "-" rest) = [].
Proof. reflexivity. Qed.

(** A year written with fewer than four digits is not a year for
    [strptime]. *)
Lemma field_Y_short_year (unicode : Unicode.database) (y : Z) (rest : string) :
  0 <= y < 1000 ->
  Strptime.field_Y unicode (Datetime.year_text y ++ String "-" rest) = [].
Proof.
  intros Hy. unfold Datetime.year_text, Strptime.field_Y.
  destruct (y <? 10) eqn:E1; [| destruct (y <? 100) eqn:E2;
    [| replace (y <? 1000) with true by (symmetry; apply Z.ltb_lt; lia)]].
  - cbn [String.append]. unfold Strptime.two at 2.
    rewrite (reads_digit unicode) by (apply Z.ltb_lt in E1; lia).
    cbn [flat_map]. rewrite digit_at_hyphen. reflexivity.
  - apply Z.ltb_ge in E1. apply Z.ltb_lt in E2.
    rewrite (two_pad2 _ _ _ _ _ _ (reads_digit unicode) (reads_digit unicode))
      by lia.
    cbn [andb flat_map]. unfold Strptime.two.
    rewrite digit_at_hyphen. reflexivity.
  - apply Z.ltb_ge in E2. cbn [String.append].
    unfold Datetime.pad2. cbn [String.append].
    unfold Strptime.two at 2.
    rewrite (reads_digit unicode) by divmod. cbn [flat_map].
    rewrite (reads_digit unicode) by divmod. cbn [map app flat_map].
    unfold Strptime.two.
    rewrite (reads_digit unicode) by divmod. cbn [flat_map].
    rewrite digit_at_hyphen. reflexivity.
Qed.

Lemma strptime_short_year (unicode : Unicode.database) (c : Datetime.civil) :
  0 <= Datetime.year c < 1000 ->
  Strptime.strptime unicode (Datetime.strftime c) = Raise ValueError.
Proof.
  intros Hy. unfold Strptime.strptime, Strptime.matches, Datetime.strftime.
  cbn [String.append]. rewrite (field_Y_short_year unicode _ _ Hy).
  reflexivity.
Qed.

(** X1. The timestamp column is the UTC civil time of the event's
    millisecond timestamp, cut to whole seconds, as [strftime] writes it.
    From the year 1000 on that is the padded form YYYY-MM-DD HH:MM:SS,
    and read back with the date format of the command line it gives the
    civil time whose UTC instant is the timestamp divided by 1000 and
    rounded down.  Before the year 1000 the year is written with fewer
    than four digits, and the date format rejects the text. *)
Theorem timestamp_column_reads_back (unicode : Unicode.database)
    (raw_event : pyval) (r : dict) (ms : Z) :
  parse_event raw_event = Ok r ->
  field raw_event "timestamp" = PInt ms ->
  let moment := Datetime.civil_of_seconds (ms / 1000) in
  dict_get r UTC_TIMESTAMP = PStr (Datetime.strftime moment)
  /\ Datetime.civil_seconds moment = ms / 1000
  /\ (1000 <= Datetime.year moment ->
      Datetime.strftime moment = date_text moment
      /\ Strptime.strptime unicode (Datetime.strftime moment) = Ok moment)
  /\ (Datetime.year moment < 1000 ->
      Strptime.strptime unicode (Datetime.strftime moment) = Raise ValueError).
Proof.
  intros H Hms moment.
  destruct (parse_event_stages _ _ H) as (pe0 & pe1 & pe2 & H0 & H1 & H2 & H3).
  destruct (project_header_timestamp _ _ _ _ H0 Hms) as [Hrange Hcol].
  destruct (civil_of_seconds_round_trip _ Hrange) as [Hvalid Hback].
  split; [| split; [| split]].
  - rewrite (project_command_frame _ _ _ _ H3) by untouched_closed.
    rewrite (project_affecting_frame _ _ _ _ H2) by untouched_closed.
    rewrite (project_target_frame _ _ _ _ H1) by untouched_closed.
    exact Hcol.
  - exact Hback.
  - intros Hyear. split.
    + apply strftime_date_text. exact Hyear.
    + apply strptime_strftime; assumption.
  - intros Hyear. apply strptime_short_year.
    fold moment in Hvalid. unfold valid_civil in Hvalid.
    rewrite !andb_true_iff, !Z.leb_le in Hvalid. lia.
Qed.

(** X2. The user-name column is the actor's display name (its name, else
    its id, else [None]) and the event column is the action's eventName;
    no later stage writes either. *)
Theorem actor_and_action_columns (raw_event : pyval) (r : dict) :
  parse_event raw_event = Ok r ->
  dict_get r USER_NAME = display_name (field raw_event "actor")
  /\ dict_get r EVENT = field (field raw_event "action") "eventName".
Proof.
  intros H.
  destruct (parse_event_stages _ _ H) as (pe0 & pe1 & pe2 & H0 & H1 & H2 & H3).
  destruct (project_header_values _ _ _ H0) as [Huser Hevent].
  split.
  - rewrite (project_command_frame _ _ _ _ H3) by untouched_closed.
    rewrite (project_affecting_frame _ _ _ _ H2) by untouched_closed.
    rewrite (project_target_frame _ _ _ _ H1) by untouched_closed.
    exact Huser.
  - rewrite (project_command_frame _ _ _ _ H3) by untouched_closed.
    rewrite (project_affecting_frame _ _ _ _ H2) by untouched_closed.
    rewrite (project_target_frame _ _ _ _ H1) by untouched_closed.
    exact Hevent.
Qed.

(** The columns that only the target stage writes keep its values. *)
Lemma after_target_stage (raw_event : pyval) (pe1 pe2 r : dict) (col : string) :
  project_affecting raw_event pe1 = Ok pe2 ->
  project_command raw_event pe2 = Ok r ->
  untouched [COMMAND] col ->
  untouched [DATASET_NAME; TARGET_USER; FILE_NAME] col ->
  dict_get r col = dict_get pe1 col.
Proof.
  intros H2 H3 Hc Ha.
  rewrite (project_command_frame _ _ _ _ H3 Hc).
  apply (project_affecting_frame _ _ _ _ H2 Ha).
Qed.

(** A column that no affecting entry writes keeps the target stage's
    value. *)
Lemma after_silent_affecting (raw_event : pyval) (pe1 pe2 r : dict)
    (col : string) :
  project_affecting raw_event pe1 = Ok pe2 ->
  project_command raw_event pe2 = Ok r ->
  untouched [COMMAND] col ->
  affecting_silent raw_event col = true ->
  dict_get r col = dict_get pe1 col.
Proof.
  intros H2 H3 Hc Hs.
  rewrite (project_command_frame _ _ _ _ H3 Hc).
  apply (affecting_silent_keep _ _ _ _ H2 Hs).
Qed.

(** X3. For every event with a first target, whatever its type: the
    target-name column is the display name of the target's entity, the
    old-value column is the first field change's before value, and,
    unless the target is a job or scheduled run, the new-value column is
    the first field change's after value. *)
Theorem target_value_columns (raw_event : pyval) (r : dict)
    (target : pyval) (rest : list pyval) :
  parse_event raw_event = Ok r ->
  field raw_event "targets" = PList (target :: rest) ->
  dict_get r TARGET_NAME = display_name (field target "entity")
  /\ dict_get r OLD_VALUE = first_change target "before"
  /\ (is_job_type (target_type target) = false ->
      dict_get r NEW_VALUE = first_change target "after").
Proof.
  intros H Hf.
  destruct (parse_event_stages _ _ H) as (pe0 & pe1 & pe2 & H0 & H1 & H2 & H3).
  destruct (project_target_values _ _ _ _ _ H1 Hf)
    as (Hname & Hold & Hnew & _).
  split; [| split].
  - rewrite (after_target_stage _ _ _ _ _ H2 H3) by untouched_closed.
    exact Hname.
  - rewrite (after_target_stage _ _ _ _ _ H2 H3) by untouched_closed.
    exact Hold.
  - intros Hjob.
    rewrite (after_target_stage _ _ _ _ _ H2 H3) by untouched_closed.
    rewrite Hnew, Hjob. reflexivity.
Qed.

(** X4. The added and removed columns hold the names of the entities
    listed under "added" and "removed" in the first target's first field
    change, joined by single commas: the empty string when the list is
    empty or the key is missing, and [None] when the target has no field
    changes. *)
Theorem added_and_removed_columns (raw_event : pyval) (r : dict)
    (target : pyval) (rest : list pyval) :
  parse_event raw_event = Ok r ->
  field raw_event "targets" = PList (target :: rest) ->
  dict_get r ADDED_VALUE = rendered_names target "added"
  /\ dict_get r REMOVED_VALUE = rendered_names target "removed".
Proof.
  intros H Hf.
  destruct (parse_event_stages _ _ H) as (pe0 & pe1 & pe2 & H0 & H1 & H2 & H3).
  destruct (project_target_rendered _ _ _ _ _ H1 Hf) as [Hadded Hremoved].
  split.
  - rewrite (after_target_stage _ _ _ _ _ H2 H3) by untouched_closed.
    exact Hadded.
  - rewrite (after_target_stage _ _ _ _ _ H2 H3) by untouched_closed.
    exact Hremoved.
Qed.

Lemma empty_parsed_event_null (col : string) :
  dict_get empty_parsed_event col = PNone.
Proof.
  unfold dict_get, dict_get_d, empty_parsed_event. cbn [dict_lookup].
  repeat match goal with
         | |- context [if String.eqb ?k col then _ else _] =>
             destruct (String.eqb k col)
         end; reflexivity.
Qed.

Lemma header_leaves_target_columns (raw_event : pyval) (pe0 : dict) (col : string) :
  project_header raw_event empty_parsed_event = Ok pe0 ->
  untouched [UTC_TIMESTAMP; USER_NAME; EVENT; PROJECT_NAME] col ->
  dict_get pe0 col = PNone.
Proof.
  intros H Hc. rewrite (project_header_frame _ _ _ _ H Hc).
  apply empty_parsed_event_null.
Qed.

(** X5. For an event whose first target is a user, the target-user column
    is the target's display name unless an affecting entry of type user
    or appliedUser overwrites it; the target writes no dataset, file,
    jobs or feature-flag column. *)
Theorem user_target_columns (raw_event : pyval) (r : dict)
    (target : pyval) (rest : list pyval) :
  parse_event raw_event = Ok r ->
  field raw_event "targets" = PList (target :: rest) ->
  py_eq_str (target_type target) "user" = true ->
  (affecting_silent raw_event TARGET_USER = true ->
   dict_get r TARGET_USER = display_name (field target "entity"))
  /\ (affecting_silent raw_event DATASET_NAME = true ->
      dict_get r DATASET_NAME = PNone)
  /\ (affecting_silent raw_event FILE_NAME = true ->
      dict_get r FILE_NAME = PNone)
  /\ dict_get r JOBS = PNone
  /\ dict_get r FEATURE_FLAG = PNone.
Proof.
  intros H Hf Huser.
  destruct (parse_event_stages _ _ H) as (pe0 & pe1 & pe2 & H0 & H1 & H2 & H3).
  destruct (project_target_values _ _ _ _ _ H1 Hf)
    as (_ & _ & _ & Htu & Hds & Hfile & Hjobs & _ & Hflag).
  apply py_eq_str_true in Huser. rewrite Huser in *.
  cbn [py_eq_str is_job_type is_dataset_type String.eqb Ascii.eqb Bool.eqb
       orb andb] in *.
  repeat split.
  - intros Hs.
    rewrite (after_silent_affecting _ _ _ _ _ H2 H3) by (untouched_closed || exact Hs).
    exact Htu.
  - intros Hs.
    rewrite (after_silent_affecting _ _ _ _ _ H2 H3) by (untouched_closed || exact Hs).
    rewrite Hds. apply (header_leaves_target_columns _ _ _ H0). untouched_closed.
  - intros Hs.
    rewrite (after_silent_affecting _ _ _ _ _ H2 H3) by (untouched_closed || exact Hs).
    rewrite Hfile. apply (header_leaves_target_columns _ _ _ H0). untouched_closed.
  - rewrite (after_target_stage _ _ _ _ _ H2 H3) by untouched_closed.
    rewrite Hjobs. apply (header_leaves_target_columns _ _ _ H0). untouched_closed.
  - rewrite (after_target_stage _ _ _ _ _ H2 H3) by untouched_closed.
    rewrite Hflag. apply (header_leaves_target_columns _ _ _ H0). untouched_closed.
Qed.

(** X6. For an event whose first target is a dataset or a dataset
    snapshot, the dataset-name column is the target's display name, and
    the file-name column is the first field change's after value exactly
    when that change's fieldName is "filePath" (else [None]), each unless
    an affecting entry overwrites the column. *)
Theorem dataset_target_columns (raw_event : pyval) (r : dict)
    (target : pyval) (rest : list pyval) :
  parse_event raw_event = Ok r ->
  field raw_event "targets" = PList (target :: rest) ->
  is_dataset_type (target_type target) = true ->
  (affecting_silent raw_event DATASET_NAME = true ->
   dict_get r DATASET_NAME = display_name (field target "entity"))
  /\ (affecting_silent raw_event FILE_NAME = true ->
      dict_get r FILE_NAME
      = if py_eq_str (first_change target "fieldName") "filePath"
        then first_change target "after" else PNone).
Proof.
  intros H Hf Hds.
  destruct (parse_event_stages _ _ H) as (pe0 & pe1 & pe2 & H0 & H1 & H2 & H3).
  destruct (project_target_values _ _ _ _ _ H1 Hf)
    as (_ & _ & _ & _ & Hname & Hfile & _).
  rewrite Hds in Hname, Hfile. cbn [andb] in Hfile.
  split; intros Hs;
    rewrite (after_silent_affecting _ _ _ _ _ H2 H3)
      by (untouched_closed || exact Hs).
  - exact Hname.
  - rewrite Hfile.
    destruct (py_eq_str (first_change target "fieldName") "filePath");
      [reflexivity |].
    apply (header_leaves_target_columns _ _ _ H0). untouched_closed.
Qed.

(** X7. The jobs column is non-null only for an event whose first target
    is a job or scheduled run, and the feature-flag column only for one
    whose first target is a feature flag, whose display name it then is. *)
Theorem jobs_and_feature_flag_columns (raw_event : pyval) (r : dict) :
  parse_event raw_event = Ok r ->
  (dict_get r JOBS <> PNone ->
   exists target rest,
     field raw_event "targets" = PList (target :: rest)
     /\ is_job_type (target_type target) = true)
  /\ (dict_get r FEATURE_FLAG <> PNone ->
      exists target rest,
        field raw_event "targets" = PList (target :: rest)
        /\ py_eq_str (target_type target) "featureFlag" = true)
  /\ (forall target rest,
        field raw_event "targets" = PList (target :: rest) ->
        py_eq_str (target_type target) "featureFlag" = true ->
        dict_get r FEATURE_FLAG = display_name (field target "entity")).
Proof.
  intros H.
  destruct (parse_event_stages _ _ H) as (pe0 & pe1 & pe2 & H0 & H1 & H2 & H3).
  assert (Hjobs : dict_get r JOBS = dict_get pe1 JOBS)
    by (apply (after_target_stage _ _ _ _ _ H2 H3); untouched_closed).
  assert (Hflag : dict_get r FEATURE_FLAG = dict_get pe1 FEATURE_FLAG)
    by (apply (after_target_stage _ _ _ _ _ H2 H3); untouched_closed).
  assert (Hj0 : dict_get pe0 JOBS = PNone)
    by (apply (header_leaves_target_columns _ _ _ H0); untouched_closed).
  assert (Hf0 : dict_get pe0 FEATURE_FLAG = PNone)
    by (apply (header_leaves_target_columns _ _ _ H0); untouched_closed).
  rewrite Hjobs, Hflag.
  destruct (project_target_cases _ _ _ H1)
    as [[_ ->] | (target & rest & Hf)].
  - repeat split; try (intros Hn; exfalso; apply Hn; assumption).
    intros target rest Hf.
    destruct (project_target_values _ _ _ _ _ H1 Hf)
      as (_ & _ & _ & _ & _ & _ & _ & _ & Hff).
    intros Htype. rewrite Hff, Htype. reflexivity.
  - destruct (project_target_values _ _ _ _ _ H1 Hf)
      as (_ & _ & _ & _ & _ & _ & Hj & _ & Hff).
    repeat split.
    + intros Hn. exists target, rest. split; [exact Hf |].
      destruct (is_job_type (target_type target)); [reflexivity |].
      exfalso. apply Hn. rewrite Hj. exact Hj0.
    + intros Hn. exists target, rest. split; [exact Hf |].
      destruct (py_eq_str (target_type target) "featureFlag"); [reflexivity |].
      exfalso. apply Hn. rewrite Hff. exact Hf0.
    + intros target' rest' Hf' Htype.
      rewrite Hf in Hf'. injection Hf' as <- <-.
      rewrite Hff, Htype. reflexivity.
Qed.

(** X8. Unless the first target is a job or scheduled run, the command
    column is [metadata.query] ([None] without one): only the job branch
    reads [metadata.command]. *)
Theorem command_column_without_job (raw_event : pyval) (r : dict) :
  parse_event raw_event = Ok r ->
  (forall target rest,
      field raw_event "targets" = PList (target :: rest) ->
      is_job_type (target_type target) = false) ->
  dict_get r COMMAND = field (field raw_event "metadata") "query".
Proof.
  intros H Hnojob.
  destruct (parse_event_stages _ _ H) as (pe0 & pe1 & pe2 & H0 & H1 & H2 & H3).
  rewrite (project_command_value _ _ _ H3).
  rewrite (project_affecting_frame _ _ _ _ H2) by untouched_closed.
  assert (Hc0 : dict_get pe0 COMMAND = PNone)
    by (apply (header_leaves_target_columns _ _ _ H0); untouched_closed).
  assert (Hc1 : dict_get pe1 COMMAND = PNone).
  { destruct (project_target_cases _ _ _ H1)
      as [[_ ->] | (target & rest & Hf)]; [exact Hc0 |].
    destruct (project_target_values _ _ _ _ _ H1 Hf)
      as (_ & _ & _ & _ & _ & _ & _ & Hcmd & _).
    rewrite Hcmd, (Hnojob _ _ Hf). exact Hc0. }
  rewrite Hc1. reflexivity.
Qed.

(** X9. An event without targets (missing, null or empty) has null
    target-name, old-value, new-value, added, removed, jobs and
    feature-flag columns, and each of the dataset-name, target-user and
    file-name columns is null unless an affecting entry writes it. *)
Theorem columns_without_targets (raw_event : pyval) (r : dict) :
  parse_event raw_event = Ok r ->
  py_truthy (field raw_event "targets") = false ->
  Forall (fun col => dict_get r col = PNone)
    [ TARGET_NAME; OLD_VALUE; NEW_VALUE; ADDED_VALUE; REMOVED_VALUE; JOBS;
      FEATURE_FLAG ]
  /\ Forall (fun col => affecting_silent raw_event col = true ->
                         dict_get r col = PNone)
       [ DATASET_NAME; TARGET_USER; FILE_NAME ].
Proof.
  intros H Hnone.
  destruct (parse_event_stages _ _ H) as (pe0 & pe1 & pe2 & H0 & H1 & H2 & H3).
  assert (Hsame : pe1 = pe0).
  { destruct (project_target_cases _ _ _ H1)
      as [[_ ->] | (target & rest & Hf)]; [reflexivity |].
    rewrite Hf in Hnone. discriminate Hnone. }
  subst pe1.
  split.
  - repeat constructor;
      (rewrite (after_target_stage _ _ _ _ _ H2 H3) by untouched_closed;
       apply (header_leaves_target_columns _ _ _ H0); untouched_closed).
  - repeat constructor; intros Hs;
      (rewrite (after_silent_affecting _ _ _ _ _ H2 H3)
         by (untouched_closed || exact Hs);
       apply (header_leaves_target_columns _ _ _ H0); untouched_closed).
Qed.

(** ** Only the first target and its first field change are read *)

(** Walk through two runs of the same code that read dictionaries equal
    but for one entry. *)
Ltac same_step :=
  first
    [ reflexivity
    | progress (unfold dict_getitem, dict_get, dict_get_d)
    | progress (rewrite ?dict_lookup_set)
    | progress eqb_closed
    | progress cbn [bind py_get py_getitem_str dict_getitem py_truthy
                    py_getitem_0]
    | match goal with
      | |- bind ?m _ = bind ?m _ => destruct m; cbn [bind]
      | |- (if ?c then _ else _) = (if ?c then _ else _) => destruct c
      | |- match ?x with _ => _ end = match ?x with _ => _ end => destruct x
      end ].

Lemma flatten_target_first_change (d : dict) (change : pyval)
    (changes : list pyval) :
  flatten_target (PDict (dict_set d "fieldChanges" (PList (change :: changes))))
  = flatten_target (PDict (dict_set d "fieldChanges" (PList [change]))).
Proof.
  unfold flatten_target. repeat same_step.
Qed.

Lemma parse_event_first_target (d : dict) (target : pyval) (rest : list pyval) :
  parse_event (PDict (dict_set d "targets" (PList (target :: rest))))
  = parse_event (PDict (dict_set d "targets" (PList [target]))).
Proof.
  unfold parse_event, project_header, project_target, project_affecting,
    project_command.
  repeat same_step.
Qed.

Lemma dict_set_same (d : dict) (k : string) (v : pyval) :
  dict_lookup d k = Some v -> dict_set d k v = d.
Proof.
  induction d as [| [k0 v0] d IH]; simpl; [discriminate |].
  destruct (String.eqb k0 k) eqn:E.
  - intros [= ->]. reflexivity.
  - intros H. rewrite (IH H). reflexivity.
Qed.

(** X10. Only the first target of an event is read, and only the first
    field change of a target: cutting the target list down to its first
    element changes nothing in the outcome of normalization, and cutting
    the field changes down to the first changes nothing in the outcome
    of the flattener. *)
Theorem later_targets_and_changes_are_ignored
    (d : dict) (first : pyval) (later : list pyval) :
  (dict_lookup d "targets" = Some (PList (first :: later)) ->
   parse_event (PDict d)
   = parse_event (PDict (dict_set d "targets" (PList [first]))))
  /\ (dict_lookup d "fieldChanges" = Some (PList (first :: later)) ->
      flatten_target (PDict d)
      = flatten_target (PDict (dict_set d "fieldChanges" (PList [first])))).
Proof.
  split; intros H.
  - rewrite <- (dict_set_same _ _ _ H) at 1. apply parse_event_first_target.
  - rewrite <- (dict_set_same _ _ _ H) at 1. apply flatten_target_first_change.
Qed.

(** ** Invariants of every run of the driver *)

Lemma dict_to_list_width (fieldnames : list string) (rowdict : dict)
    (row : list pyval) :
  dict_to_list fieldnames rowdict = Ok row ->
  List.length row = List.length fieldnames.
Proof.
  unfold dict_to_list. destruct (forallb _ _); [| discriminate].
  intros [= <-]. apply length_map.
Qed.

Lemma writerows_width (rowdicts : list dict) :
  Forall (fun row => List.length row = List.length CSV_HEADERS)
    (fst (writerows rowdicts)).
Proof.
  induction rowdicts as [| rowdict rest IH]; cbn [writerows].
  - constructor.
  - destruct (dict_to_list CSV_HEADERS rowdict) as [row | e] eqn:E.
    + destruct (writerows rest) as [rows err]. cbn [fst] in *.
      constructor; [eapply dict_to_list_width; exact E | exact IH].
    + constructor.
Qed.

Lemma requests_of_app (lg lg' : list io_event) :
  requests_of (lg ++ lg') = requests_of lg ++ requests_of lg'.
Proof. unfold requests_of. apply flat_map_app. Qed.

(** The loop, started at any offset in any world whose file exists. *)
Lemma export_loop_invariant (replies : list http_outcome) :
  forall (hostname : string) (request_headers params params0 : dict)
         (offset : Z) (rows0 : list (list pyval)) (lg : list io_event),
    same_but_offset params params0 ->
    let run := export_loop replies hostname request_headers params offset
                 (mkWorld (Some rows0) lg) in
    exists (n : nat) (rows : list (list pyval)),
      (1 <= n <= S (List.length replies))%nat
      /\ requests_of (log (final_world run))
         = requests_of lg
           ++ map (fun i => request_at hostname request_headers params0
                              (offset + BATCH_LIMIT * Z.of_nat i))
                (seq 0 n)
      /\ file (final_world run) = Some (rows0 ++ rows)
      /\ Forall (fun row => List.length row = List.length CSV_HEADERS) rows
      /\ (forall final, returned run = Some final ->
            final = offset + BATCH_LIMIT * Z.of_nat (n - 1)).
Proof.
  induction replies as [| reply replies IH];
    intros hostname request_headers params params0 offset rows0 lg Hparams run.
  - exists 1%nat, []. subst run.
    cbn [export_loop send_request snd final_world log file List.length seq map].
    rewrite requests_of_app, (Hparams (PInt offset)), app_nil_r.
    change (Z.of_nat 0) with 0. rewrite Z.mul_0_r, Z.add_0_r.
    repeat split; try lia; try constructor. discriminate.
  - subst run. cbn [export_loop get_events_batch send_request].
    rewrite (Hparams (PInt offset)).
    fold (request_at hostname request_headers params0 offset).
    set (lg1 := lg ++ [IoGet (request_at hostname request_headers params0 offset)]).
    assert (Hone : exists rows : list (list pyval),
               requests_of lg1
               = requests_of lg
                 ++ map (fun i => request_at hostname request_headers params0
                                    (offset + BATCH_LIMIT * Z.of_nat i))
                      (seq 0 1)
               /\ Some rows0 = Some (rows0 ++ rows)
               /\ Forall (fun row => List.length row = List.length CSV_HEADERS) rows).
    { exists []. subst lg1. rewrite requests_of_app, app_nil_r.
      cbn [seq map]. change (Z.of_nat 0) with 0. rewrite Z.mul_0_r, Z.add_0_r.
      repeat split; constructor. }
    destruct Hone as (rows_none & Hreq1 & Hfile1 & Hwidth1).
    assert (Hstop : forall e,
               exists (n : nat) (rows : list (list pyval)),
                 (1 <= n <= S (S (List.length replies)))%nat
                 /\ requests_of (log (final_world (@Raised Z e (mkWorld (Some rows0) lg1))))
                    = requests_of lg
                      ++ map (fun i => request_at hostname request_headers params0
                                         (offset + BATCH_LIMIT * Z.of_nat i))
                           (seq 0 n)
                 /\ file (final_world (@Raised Z e (mkWorld (Some rows0) lg1)))
                    = Some (rows0 ++ rows)
                 /\ Forall (fun row => List.length row = List.length CSV_HEADERS) rows
                 /\ (forall final,
                        returned (@Raised Z e (mkWorld (Some rows0) lg1)) = Some final ->
                        final = offset + BATCH_LIMIT * Z.of_nat (n - 1))).
    { intros e. exists 1%nat, rows_none. cbn [final_world log file returned].
      repeat split; try lia; try assumption. discriminate. }
    destruct reply as [| status [data |]]; cbn [bind];
      [apply Hstop | | apply Hstop].
    destruct (py_get data "events" (PList [])) as [raw_events | e];
      cbn [bind]; [| apply Hstop].
    destruct (parse_events raw_events) as [parsed_events | e];
      cbn [bind]; [| apply Hstop].
    unfold write_to_csv. cbn [file_rows file log].
    pose proof (writerows_width parsed_events) as Hwidth.
    destruct (writerows parsed_events) as [rows err]. cbn [fst] in Hwidth.
    set (lg2 := lg1 ++ [IoAppend rows]).
    assert (Hreq2 : requests_of lg2
                    = requests_of lg
                      ++ [request_at hostname request_headers params0 offset]).
    { subst lg2. rewrite requests_of_app, app_nil_r, Hreq1.
      cbn [seq map]. change (Z.of_nat 0) with 0.
      rewrite Z.mul_0_r, Z.add_0_r. reflexivity. }
    assert (Hend : forall run',
               final_world run' = mkWorld (Some (rows0 ++ rows)) lg2 ->
               (forall final, returned run' = Some final -> final = offset) ->
               exists (n : nat) (rows' : list (list pyval)),
                 (1 <= n <= S (S (List.length replies)))%nat
                 /\ requests_of (log (final_world run'))
                    = requests_of lg
                      ++ map (fun i => request_at hostname request_headers params0
                                         (offset + BATCH_LIMIT * Z.of_nat i))
                           (seq 0 n)
                 /\ file (final_world run') = Some (rows0 ++ rows')
                 /\ Forall (fun row => List.length row = List.length CSV_HEADERS) rows'
                 /\ (forall final, returned run' = Some final ->
                        final = offset + BATCH_LIMIT * Z.of_nat (n - 1))).
    { intros run' Hw Hret. exists 1%nat, rows. rewrite Hw. cbn [log file].
      repeat split; try lia; try assumption.
      - rewrite Hreq2. cbn [seq map]. change (Z.of_nat 0) with 0.
        rewrite Z.mul_0_r, Z.add_0_r. reflexivity.
      - intros final Hf. rewrite (Hret _ Hf). cbn. lia. }
    destruct err as [e |]; cbn [bind].
    { apply Hend; [reflexivity | discriminate]. }
    destruct (py_len raw_events) as [count | e]; cbn [bind].
    2: { apply Hend; [reflexivity | discriminate]. }
    destruct (count <? BATCH_LIMIT).
    { apply Hend; [reflexivity |]. intros final [= <-]. reflexivity. }
    destruct (IH hostname request_headers
                (dict_set params0 "offset" (PInt offset)) params0
                (offset + BATCH_LIMIT) (rows0 ++ rows) lg2
                (same_but_offset_set _ _ _ (same_but_offset_refl params0)))
      as (n & rows' & Hn & Hreq & Hfile & Hwidth' & Hret).
    subst lg2 lg1. exists (S n), (rows ++ rows'). cbn [List.length].
    repeat split.
    + lia.
    + lia.
    + rewrite Hreq, Hreq2, <- app_assoc. f_equal.
      cbn [seq map app]. change (Z.of_nat 0) with 0.
      rewrite Z.mul_0_r, Z.add_0_r. f_equal.
      rewrite <- seq_shift, map_map. apply map_ext. intros i.
      f_equal. lia.
    + rewrite Hfile, app_assoc. reflexivity.
    + apply Forall_app. split; assumption.
    + intros final Hf. rewrite (Hret _ Hf).
      replace (S n - 1)%nat with (S (n - 1)) by lia. lia.
Qed.

(** X11. Every run of the driver, however the remote answers, sends at
    least one request and at most one more than it gets replies; all go
    to the same URL with the same headers and the same filters, and
    their offsets are 0, limit, 2*limit, ... with none repeated and none
    skipped.  When the run returns, it returns the offset of its last
    request. *)
Theorem every_run_requests_consecutive_offsets
    (replies : list http_outcome) (hostname : string)
    (request_headers request_params : dict) (w : world) :
  let run :=
    export_audit_trail replies hostname request_headers request_params w in
  exists n : nat,
    (1 <= n <= S (List.length replies))%nat
    /\ requests_of (log (final_world run))
       = requests_of (log w)
         ++ map (fun i => request_at hostname request_headers request_params
                            (BATCH_LIMIT * Z.of_nat i))
              (seq 0 n)
    /\ (forall final, returned run = Some final ->
          final = BATCH_LIMIT * Z.of_nat (n - 1)).
Proof.
  intros run. subst run. unfold export_audit_trail, initialize_csv.
  destruct (export_loop_invariant replies hostname request_headers
              request_params request_params 0
              [map PStr CSV_HEADERS] (log w ++ [IoCreate (map PStr CSV_HEADERS)])
              (same_but_offset_refl _))
    as (n & rows & Hn & Hreq & _ & _ & Hret).
  exists n. split; [exact Hn |]. split.
  - rewrite Hreq, requests_of_app, app_nil_r. reflexivity.
  - exact Hret.
Qed.

(** The rows that the loop appends depend on the replies alone. *)
Lemma export_loop_rows (replies : list http_outcome) :
  exists rows : list (list pyval),
    Forall (fun row => List.length row = List.length CSV_HEADERS) rows
    /\ forall (hostname : string) (request_headers params : dict)
              (offset : Z) (rows0 : list (list pyval)) (lg : list io_event),
         file (final_world
                 (export_loop replies hostname request_headers params offset
                    (mkWorld (Some rows0) lg)))
         = Some (rows0 ++ rows).
Proof.
  induction replies as [| reply replies (rows' & Hwidth' & IH)].
  - exists []. split; [constructor |]. intros.
    cbn [export_loop send_request snd final_world file].
    rewrite app_nil_r. reflexivity.
  - assert (Hstop : forall P : list (list pyval) -> Prop,
               P [] ->
               exists rows : list (list pyval),
                 Forall (fun row => List.length row = List.length CSV_HEADERS) rows
                 /\ P rows).
    { intros P HP. exists []. split; [constructor | exact HP]. }
    destruct reply as [| status [data |]].
    + apply Hstop. intros.
      cbn [export_loop get_events_batch send_request bind final_world file].
      rewrite app_nil_r. reflexivity.
    + destruct (py_get data "events" (PList [])) as [raw_events | e] eqn:Hget.
      2: { apply Hstop. intros.
           cbn [export_loop get_events_batch send_request bind].
           rewrite Hget. cbn [bind final_world file].
           rewrite app_nil_r. reflexivity. }
      destruct (parse_events raw_events) as [parsed_events | e] eqn:Hparse.
      2: { apply Hstop. intros.
           cbn [export_loop get_events_batch send_request bind].
           rewrite Hget. cbn [bind]. rewrite Hparse.
           cbn [bind final_world file]. rewrite app_nil_r. reflexivity. }
      pose proof (writerows_width parsed_events) as Hwidth.
      destruct (writerows parsed_events) as [rows err] eqn:Hrows.
      cbn [fst] in Hwidth.
      assert (Hpage : forall (hostname : string) (request_headers params : dict)
                             (offset : Z) (rows0 : list (list pyval))
                             (lg : list io_event),
                 export_loop (Responded status (Some data) :: replies) hostname
                   request_headers params offset (mkWorld (Some rows0) lg)
                 = let w := mkWorld (Some (rows0 ++ rows))
                              ((lg ++ [IoGet (mkRequest
                                                (hostname ++ "/" ++ AUDIT_TRAIL_PATH)
                                                request_headers
                                                (dict_set params "offset" (PInt offset)))])
                               ++ [IoAppend rows]) in
                   match (_ <- match err with
                               | None => Ok tt
                               | Some e => Raise e
                               end ;; py_len raw_events) with
                   | Raise e => Raised e w
                   | Ok n =>
                       if n <? BATCH_LIMIT then Returned offset w
                       else export_loop replies hostname request_headers
                              (dict_set params "offset" (PInt offset))
                              (offset + BATCH_LIMIT) w
                   end).
      { intros. cbn [export_loop get_events_batch send_request bind].
        rewrite Hget. cbn [bind]. rewrite Hparse. cbn [bind].
        unfold write_to_csv. rewrite Hrows. cbn [file_rows file log].
        destruct err; reflexivity. }
      destruct err as [e |].
      { exists rows. split; [exact Hwidth |]. intros. rewrite Hpage.
        reflexivity. }
      destruct (py_len raw_events) as [count | e].
      2: { exists rows. split; [exact Hwidth |]. intros. rewrite Hpage.
           reflexivity. }
      destruct (count <? BATCH_LIMIT) eqn:Hcount.
      * exists rows. split; [exact Hwidth |]. intros. rewrite Hpage.
        cbn [bind]. rewrite Hcount. reflexivity.
      * exists (rows ++ rows'). split; [apply Forall_app; split; assumption |].
        intros. rewrite Hpage. cbn [bind]. rewrite Hcount.
        cbv zeta. rewrite IH, app_assoc. reflexivity.
    + apply Hstop. intros.
      cbn [export_loop get_events_batch send_request bind final_world file].
      rewrite app_nil_r. reflexivity.
Qed.

(** X12. What the file holds after a run depends on the replies alone:
    the header row, then rows that each have as many cells as the header.
    Whatever the file held before the run is gone, and the hostname, the
    headers and the query parameters leave no trace in it. *)
Theorem every_run_leaves_header_and_full_rows (replies : list http_outcome) :
  exists rows : list (list pyval),
    Forall (fun row => List.length row = List.length header_row) rows
    /\ forall (hostname : string) (request_headers request_params : dict)
              (w : world),
         file (final_world
                 (export_audit_trail replies hostname request_headers
                    request_params w))
         = Some (header_row :: rows).
Proof.
  destruct (export_loop_rows replies) as (rows & Hwidth & Hfile).
  exists rows. split.
  - unfold header_row. rewrite length_map. exact Hwidth.
  - intros. unfold export_audit_trail, initialize_csv. rewrite Hfile.
    reflexivity.
Qed.

Lemma mapM_first_failure {A B} (f : A -> res B) (good more : list A)
    (bad : A) (e : exn) :
  Forall (fun x => is_ok (f x) = true) good ->
  f bad = Raise e ->
  mapM f (good ++ bad :: more) = Raise e.
Proof.
  intros Hgood Hbad.
  induction Hgood as [| x good Hx _ IH]; simpl.
  - rewrite Hbad. reflexivity.
  - destruct (f x); [| discriminate Hx]. simpl. rewrite IH. reflexivity.
Qed.

(** X13. A page is written whole or not at all: when one event of a page
    cannot be normalized, the exception of the first such event ends the
    export, and no row of that page reaches the file, not even the rows
    of the events before the failing one; the pages before stay
    written. *)
Theorem failing_event_discards_its_page
    (replies rest : list http_outcome) (reply : http_outcome)
    (fulls : list (list pyval)) (good more : list pyval) (bad : pyval)
    (e : exn) (hostname : string) (request_headers request_params : dict)
    (w : world) :
  Forall2 (fun reply page => reply_events reply = Some page) replies fulls ->
  Forall full fulls ->
  Forall (Forall parses) fulls ->
  reply_events reply = Some (good ++ bad :: more) ->
  Forall parses good ->
  parse_event bad = Raise e ->
  export_audit_trail (replies ++ reply :: rest) hostname request_headers
    request_params w
  = Raised e
      (mkWorld (Some (header_row :: flat_map (map row_of_event) fulls))
         (log w ++ IoCreate header_row
            :: expected_log hostname request_headers request_params 0 fulls
            ++ [IoGet (request_at hostname request_headers request_params
                         (BATCH_LIMIT * Z.of_nat (List.length fulls)))])).
Proof.
  intros Hreplies Hfull Hparses Hreply Hgood Hbad.
  unfold export_audit_trail, initialize_csv.
  destruct (export_loop_full_pages fulls replies (reply :: rest)
              hostname request_headers request_params request_params 0
              [header_row] (log w ++ [IoCreate header_row])
              Hreplies Hfull Hparses (same_but_offset_refl _))
    as (params' & Hparams' & Hrun).
  fold header_row. rewrite Hrun.
  destruct reply as [| status [[| | | | | d] |]]; try discriminate Hreply.
  simpl in Hreply.
  destruct (dict_get_d d "events" (PList [])) as [| | | | events |] eqn:Hevents;
    try discriminate Hreply.
  injection Hreply as ->.
  cbn [export_loop get_events_batch send_request bind py_get file log].
  rewrite Hevents. unfold parse_events. cbn [py_iter bind].
  rewrite (mapM_first_failure parse_event good more bad e Hgood Hbad).
  cbn [bind]. rewrite (Hparams' (PInt _)). unfold request_at.
  rewrite <- !app_assoc. reflexivity.
Qed.

(** ** The query parameters *)

Lemma dict_lookup_absent (d : dict) (k : string) :
  ~ In k (keys d) -> dict_lookup d k = None.
Proof.
  unfold keys. induction d as [| [k0 v0] d IH]; simpl; intros H.
  - reflexivity.
  - destruct (String.eqb k0 k) eqn:E.
    + apply String.eqb_eq in E. exfalso. apply H. left. exact E.
    + apply IH. intros Hin. apply H. right. exact Hin.
Qed.

Lemma dict_lookup_filter_rejected (p : string * pyval -> bool) (d : dict)
    (k : string) :
  (forall v, p (k, v) = false) -> dict_lookup (filter p d) k = None.
Proof.
  intros Hp. induction d as [| [k0 v0] d IH]; simpl; [reflexivity |].
  destruct (p (k0, v0)) eqn:E; [| exact IH].
  simpl. destruct (String.eqb k0 k) eqn:Ek; [| exact IH].
  apply String.eqb_eq in Ek. subst k0. rewrite Hp in E. discriminate E.
Qed.

Lemma dict_lookup_filter (p : string * pyval -> bool) (d : dict) (k : string) :
  NoDup (keys d) ->
  dict_lookup (filter p d) k
  = match dict_lookup d k with
    | Some v => if p (k, v) then Some v else None
    | None => None
    end.
Proof.
  unfold keys. induction d as [| [k0 v0] d IH]; simpl; intros Hnd.
  - reflexivity.
  - inversion Hnd as [| ? ? Hnotin Hnd']; subst.
    destruct (String.eqb k0 k) eqn:Ek.
    + apply String.eqb_eq in Ek. subst k0.
      destruct (p (k, v0)) eqn:E.
      * simpl. rewrite String.eqb_refl. reflexivity.
      * rewrite (IH Hnd'), (dict_lookup_absent d k Hnotin). reflexivity.
    + destruct (p (k0, v0)); [simpl; rewrite Ek |]; apply (IH Hnd').
Qed.

(** X14. The query parameters built from a namespace never hold its
    hostname, jwt or api_key entry; they always hold the limit 1000 and
    the sort order "-timestamp"; and every other entry of the namespace
    is passed on unchanged unless its value is [None], in which case it
    is left out. *)
Theorem build_request_params_contents (args : dict) :
  NoDup (keys args) ->
  (forall k, In k ["hostname"; "jwt"; "api_key"] ->
             dict_lookup (build_request_params args) k = None)
  /\ dict_lookup (build_request_params args) "limit" = Some (PInt 1000)
  /\ dict_lookup (build_request_params args) "sort" = Some (PStr "-timestamp")
  /\ (forall k,
        ~ In k ["hostname"; "jwt"; "api_key"; "limit"; "sort"] ->
        dict_lookup (build_request_params args) k
        = match dict_lookup args k with
          | Some PNone => None
          | found => found
          end).
Proof.
  intros Hnd. unfold build_request_params.
  split; [| split; [| split]].
  - intros k Hk. rewrite !dict_lookup_set.
    replace (String.eqb "sort" k) with false
      by (simpl in Hk; decompose [or] Hk; subst; try reflexivity; contradiction).
    replace (String.eqb "limit" k) with false
      by (simpl in Hk; decompose [or] Hk; subst; try reflexivity; contradiction).
    apply dict_lookup_filter_rejected. intros v.
    simpl in Hk. decompose [or] Hk; subst; try contradiction;
      destruct v; reflexivity.
  - rewrite !dict_lookup_set. reflexivity.
  - rewrite !dict_lookup_set. reflexivity.
  - intros k Hk. rewrite !dict_lookup_set.
    assert (Hne : forall c, In c ["hostname"; "jwt"; "api_key"; "limit"; "sort"] ->
                            String.eqb c k = false).
    { intros c Hc. apply String.eqb_neq. intros ->. apply Hk, Hc. }
    rewrite (Hne "sort"), (Hne "limit") by (simpl; tauto).
    rewrite (dict_lookup_filter _ _ _ Hnd).
    destruct (dict_lookup args k) as [v |]; [| reflexivity].
    cbn [existsb]. rewrite !(String.eqb_sym k).
    rewrite (Hne "hostname"), (Hne "jwt"), (Hne "api_key") by (simpl; tauto).
    destruct v; reflexivity.
Qed.

(** ** [main]: configuration, then export *)

Lemma local_raises (utcoffset : Z -> Z) (u : Z) (e : exn) :
  local utcoffset u = Raise e -> e = ValueError.
Proof.
  unfold local. destruct (Datetime.in_range _); [discriminate |].
  intros [= <-]. reflexivity.
Qed.

Lemma local_to_seconds_raises (utcoffset : Z -> Z) (t : Z) (e : exn) :
  local_to_seconds utcoffset t = Raise e -> e = ValueError.
Proof.
  unfold local_to_seconds.
  repeat match goal with
    | |- (x <- local utcoffset ?u ;; _) = Raise _ -> _ =>
        let E := fresh "E" in
        destruct (local utcoffset u) eqn:E; cbn [bind];
        [| intros [= <-]; exact (local_raises _ _ _ E)]
    | |- (if ?c then _ else _) = Raise _ -> _ => destruct c
    | |- (x <- (if ?c then _ else _) ;; _) = Raise _ -> _ =>
        destruct c; cbn [bind andb]
    | |- (x <- (y <- local utcoffset ?u ;; _) ;; _) = Raise _ -> _ =>
        let E := fresh "E" in
        destruct (local utcoffset u) eqn:E; cbn [bind andb];
        [| intros [= <-]; exact (local_raises _ _ _ E)]
    | |- Ok _ = Raise _ -> _ => discriminate
    end.
Qed.

(** Date validation fails in one way only: [sys.exit(1)]. *)
Lemma validate_raises (unicode : Unicode.database) (utcoffset : Z -> Z) (raw : string) (e : exn) :
  validate_and_format_timestamp unicode utcoffset raw = Raise e -> e = SystemExit 1.
Proof.
  unfold validate_and_format_timestamp, timestamp_ms.
  destruct (Strptime.strptime unicode raw) as [c | e'] eqn:Es; cbn [bind].
  - destruct (local_to_seconds utcoffset (Datetime.civil_seconds c))
      as [u | e'] eqn:El; cbn [bind]; [discriminate |].
    apply local_to_seconds_raises in El. subst e'.
    intros [= <-]. reflexivity.
  - apply strptime_raises_value_error in Es. subst e'.
    intros [= <-]. reflexivity.
Qed.

Lemma format_if_given_raises (unicode : Unicode.database) (utcoffset : Z -> Z) (o : option string) (e : exn) :
  format_if_given unicode utcoffset (opt_arg o) = Raise e -> e = SystemExit 1.
Proof.
  unfold format_if_given. destruct o as [raw |]; cbn [opt_arg py_truthy].
  - destruct (negb (String.eqb raw "")); [| discriminate].
    apply validate_raises.
  - discriminate.
Qed.

(** [main] on a parsed command line, step by step. *)
Lemma main_steps (unicode : Unicode.database) (utcoffset : Z -> Z) (hostname : string)
    (jwt api_key event actorName targetName withinProjectName
     startTimestamp endTimestamp : option string)
    (replies : list http_outcome) (w : world) :
  main unicode utcoffset
    (parse_args hostname jwt api_key event actorName targetName
       withinProjectName startTimestamp endTimestamp) replies w
  = if negb (credentials_given jwt api_key) then Raised (SystemExit 1) w
    else
      match format_if_given unicode utcoffset (opt_arg startTimestamp) with
      | Raise e => Raised e w
      | Ok start =>
          match format_if_given unicode utcoffset (opt_arg endTimestamp) with
          | Raise e => Raised e w
          | Ok stop =>
              match export_audit_trail replies (strip_slash hostname)
                      (build_request_headers (opt_arg jwt) (opt_arg api_key))
                      (build_request_params
                         (checked_namespace hostname jwt api_key event
                            actorName targetName withinProjectName start stop))
                      w with
              | Returned _ w' => Returned tt w'
              | Raised e w' => Raised e w'
              | Starved w' => Starved w'
              end
          end
      end.
Proof.
  unfold main, parse_args, credentials_given.
  cbn [dict_get dict_get_d dict_lookup dict_set String.eqb Ascii.eqb Bool.eqb].
  rewrite negb_orb.
  destruct (negb (py_truthy (opt_arg jwt)) && negb (py_truthy (opt_arg api_key)));
    [reflexivity |].
  destruct (format_if_given unicode utcoffset (opt_arg startTimestamp)); [| reflexivity].
  destruct (format_if_given unicode utcoffset (opt_arg endTimestamp)); reflexivity.
Qed.

Lemma ends_with_slash_app (h : string) : ends_with_slash (h ++ "/") = true.
Proof.
  induction h as [| c h IH]; [reflexivity |].
  cbn [append ends_with_slash]. rewrite IH.
  destruct (h ++ "/")%string eqn:E; [| reflexivity].
  destruct h; discriminate E.
Qed.

Lemma drop_last_app (h : string) : drop_last (h ++ "/") = h.
Proof.
  induction h as [| c h IH]; [reflexivity |].
  cbn [append drop_last]. rewrite IH.
  destruct (h ++ "/")%string eqn:E; [| reflexivity].
  destruct h; discriminate E.
Qed.

Lemma final_world_main (run : outcome Z) :
  final_world match run with
              | Returned _ w' => Returned tt w'
              | Raised e w' => Raised e w'
              | Starved w' => Starved w'
              end
  = final_world run.
Proof. destruct run; reflexivity. Qed.

Lemma nth_error_map_seq {A} (f : nat -> A) (n : nat) :
  forall (a i : nat) (r : A),
    nth_error (map f (seq a n)) i = Some r -> r = f (a + i)%nat /\ (i < n)%nat.
Proof.
  induction n as [| n IH]; intros a i r; cbn [seq map].
  - destruct i; discriminate.
  - destruct i as [| i]; cbn [nth_error].
    + intros [= <-]. rewrite Nat.add_0_r. split; [reflexivity | lia].
    + intros H. destruct (IH _ _ _ H) as [-> Hi].
      split; [f_equal; lia | lia].
Qed.

Lemma dict_lookup_present (d : dict) (k : string) (v : pyval) :
  dict_lookup d k = Some v -> In k (keys d).
Proof.
  unfold keys. induction d as [| [k0 v0] d IH]; simpl; [discriminate |].
  destruct (String.eqb k0 k) eqn:E.
  - apply String.eqb_eq in E. intros _. left. exact E.
  - intros H. right. exact (IH H).
Qed.

Lemma checked_namespace_keys (hostname : string)
    (jwt api_key event actorName targetName withinProjectName : option string)
    (start stop : pyval) :
  NoDup (keys (checked_namespace hostname jwt api_key event actorName
                 targetName withinProjectName start stop)).
Proof.
  unfold checked_namespace, keys. cbn [map fst].
  repeat (constructor; [simpl; intuition discriminate |]). constructor.
Qed.

Lemma date_passes_format (unicode : Unicode.database) (utcoffset : Z -> Z)
    (date : option string) :
  is_ok (format_if_given unicode utcoffset (opt_arg date))
  = date_passes unicode utcoffset date.
Proof.
  unfold format_if_given, date_passes. destruct date as [raw |]; [| reflexivity].
  cbn [opt_arg py_truthy]. destruct (String.eqb raw ""); reflexivity.
Qed.

(** X15. [main] either stops before touching anything or starts the
    export.  It stops when neither credential is given (an empty one
    counts as not given), or when a start or end date is given, is not
    empty, and cannot be turned into a timestamp: the process exits with
    status 1, no file is created and no request is sent.  Otherwise, and
    so also with an empty date, which is not validated, the file is
    created with the header row and at least one request goes out,
    however the run ends. *)
Theorem main_stops_early_or_starts_the_export (unicode : Unicode.database)
    (utcoffset : Z -> Z) (hostname : string)
    (jwt api_key event actorName targetName withinProjectName
     startTimestamp endTimestamp : option string)
    (replies : list http_outcome) (w : world) :
  let run :=
    main unicode utcoffset
      (parse_args hostname jwt api_key event actorName targetName
         withinProjectName startTimestamp endTimestamp) replies w in
  if credentials_given jwt api_key
     && date_passes unicode utcoffset startTimestamp
     && date_passes unicode utcoffset endTimestamp
  then
    (exists rows, file (final_world run) = Some (header_row :: rows))
    /\ (List.length (requests_of (log w))
        < List.length (requests_of (log (final_world run))))%nat
  else run = Raised (SystemExit 1) w /\ exit_status run = Some 1.
Proof.
  intros run. subst run. rewrite main_steps, <- !date_passes_format.
  destruct (credentials_given jwt api_key); cbn [negb andb];
    [| split; reflexivity].
  destruct (format_if_given unicode utcoffset (opt_arg startTimestamp))
    as [start | e] eqn:Hstart; cbn [is_ok andb];
    [| rewrite (format_if_given_raises _ _ _ _ Hstart); split; reflexivity].
  destruct (format_if_given unicode utcoffset (opt_arg endTimestamp))
    as [stop | e] eqn:Hstop; cbn [is_ok];
    [| rewrite (format_if_given_raises _ _ _ _ Hstop); split; reflexivity].
  rewrite final_world_main. unfold export_audit_trail, initialize_csv.
  match goal with
  | |- context [export_loop replies ?h ?hd ?p 0 (mkWorld (Some ?r) ?l)] =>
      destruct (export_loop_invariant replies h hd p p 0 r l
                  (same_but_offset_refl _))
        as (n & rows & Hn & Hreq & Hfile & _ & _)
  end.
  split.
  - exists rows. exact Hfile.
  - rewrite Hreq, requests_of_app, !length_app, length_map, length_seq.
    cbn [requests_of flat_map List.length]. lia.
Qed.

(** X16. What [main] puts on the wire.  With a credential given and
    dates that validate to [start] and [stop], the requests of a run, in
    order, all go to the hostname (one trailing slash dropped) followed
    by /api/audittrail/v1/auditevents.  A non-empty JWT is sent as a
    bearer token and the API key is then not sent at all; otherwise the
    API key is sent.  The query holds the filters that were given, the
    two timestamps where dates were given, limit 1000, the sort order,
    and as offset 1000 times the number of requests before; it never
    holds the hostname or a credential, and nothing else. *)
Theorem main_requests_on_the_wire (unicode : Unicode.database) (utcoffset : Z -> Z) (hostname : string)
    (jwt api_key event actorName targetName withinProjectName
     startTimestamp endTimestamp : option string) (start stop : pyval)
    (replies : list http_outcome) (w : world) :
  credentials_given jwt api_key = true ->
  format_if_given unicode utcoffset (opt_arg startTimestamp) = Ok start ->
  format_if_given unicode utcoffset (opt_arg endTimestamp) = Ok stop ->
  let run :=
    main unicode utcoffset
      (parse_args hostname jwt api_key event actorName targetName
         withinProjectName startTimestamp endTimestamp) replies w in
  exists sent : list request,
    requests_of (log (final_world run)) = requests_of (log w) ++ sent
    /\ (1 <= List.length sent <= S (List.length replies))%nat
    /\ forall (i : nat) (r : request),
         nth_error sent i = Some r ->
         req_url r = (strip_slash hostname ++ "/api/audittrail/v1/auditevents")%string
         /\ (forall token, jwt = Some token -> token <> ""%string ->
               req_headers r
               = [ ("accept", PStr "application/json");
                   ("Authorization", PStr ("Bearer " ++ token)) ])
         /\ (jwt = None \/ jwt = Some ""%string ->
               req_headers r
               = [ ("accept", PStr "application/json");
                   ("X-Domino-Api-Key", opt_arg api_key) ])
         /\ dict_lookup (req_params r) "offset"
            = Some (PInt (1000 * Z.of_nat i))
         /\ dict_lookup (req_params r) "limit" = Some (PInt 1000)
         /\ dict_lookup (req_params r) "sort" = Some (PStr "-timestamp")
         /\ dict_lookup (req_params r) "event" = option_map PStr event
         /\ dict_lookup (req_params r) "actorName" = option_map PStr actorName
         /\ dict_lookup (req_params r) "targetName" = option_map PStr targetName
         /\ dict_lookup (req_params r) "withinProjectName"
            = option_map PStr withinProjectName
         /\ dict_lookup (req_params r) "startTimestamp" = query_entry start
         /\ dict_lookup (req_params r) "endTimestamp" = query_entry stop
         /\ (forall k, dict_lookup (req_params r) k <> None ->
               In k [ "event"; "actorName"; "targetName"; "withinProjectName";
                      "startTimestamp"; "endTimestamp"; "limit"; "sort";
                      "offset" ]%string).
Proof.
  intros Hcred Hstart Hstop run. subst run.
  rewrite main_steps, Hcred, Hstart, Hstop. cbn [negb].
  rewrite final_world_main. unfold export_audit_trail, initialize_csv.
  match goal with
  | |- context [export_loop replies ?h ?hd ?p 0 (mkWorld (Some ?r) ?l)] =>
      destruct (export_loop_invariant replies h hd p p 0 r l
                  (same_but_offset_refl _))
        as (n & rows & Hn & Hreq & _ & _ & _);
      set (params := p) in *
  end.
  rewrite requests_of_app, app_nil_r in Hreq.
  eexists. split; [exact Hreq |].
  split; [rewrite length_map, length_seq; exact Hn |].
  intros i r Hr. apply nth_error_map_seq in Hr. destruct Hr as [-> _].
  unfold request_at. cbn [req_url req_headers req_params Nat.add].
  pose proof (checked_namespace_keys hostname jwt api_key event actorName
                targetName withinProjectName start stop) as Hnd.
  assert (Hlook : forall k,
            dict_lookup (dict_set params "offset" (PInt (0 + BATCH_LIMIT * Z.of_nat i))) k
            = if String.eqb "offset" k then Some (PInt (1000 * Z.of_nat i))
              else if String.eqb "sort" k then Some (PStr "-timestamp")
              else if String.eqb "limit" k then Some (PInt 1000)
              else match dict_lookup
                           (checked_namespace hostname jwt api_key event
                              actorName targetName withinProjectName start stop) k with
                   | Some PNone => None
                   | Some v =>
                       if existsb (String.eqb k) ["hostname"; "jwt"; "api_key"]%string
                       then None else Some v
                   | None => None
                   end).
  { intros k. subst params. unfold build_request_params.
    rewrite !dict_lookup_set, (dict_lookup_filter _ _ _ Hnd).
    unfold BATCH_LIMIT. rewrite Z.add_0_l.
    destruct (String.eqb "offset" k); [reflexivity |].
    destruct (String.eqb "sort" k); [reflexivity |].
    destruct (String.eqb "limit" k); [reflexivity |].
    destruct (dict_lookup _ k) as [v |]; [| reflexivity].
    destruct v; cbn [negb]; try reflexivity;
      destruct (existsb _ _); reflexivity. }
  repeat split.
  - intros token -> Hne. unfold build_request_headers.
    cbn [opt_arg py_truthy]. destruct (String.eqb token "") eqn:E.
    + apply String.eqb_eq in E. contradiction.
    + reflexivity.
  - intros [-> | ->]; reflexivity.
  - rewrite Hlook. reflexivity.
  - rewrite Hlook. reflexivity.
  - rewrite Hlook. reflexivity.
  - rewrite Hlook. destruct event; reflexivity.
  - rewrite Hlook. destruct actorName; reflexivity.
  - rewrite Hlook. destruct targetName; reflexivity.
  - rewrite Hlook. destruct withinProjectName; reflexivity.
  - rewrite Hlook. destruct start; reflexivity.
  - rewrite Hlook. destruct stop; reflexivity.
  - intros k. rewrite Hlook.
    destruct (String.eqb "offset" k) eqn:E1;
      [apply String.eqb_eq in E1; subst k; simpl; tauto |].
    destruct (String.eqb "sort" k) eqn:E2;
      [apply String.eqb_eq in E2; subst k; simpl; tauto |].
    destruct (String.eqb "limit" k) eqn:E3;
      [apply String.eqb_eq in E3; subst k; simpl; tauto |].
    destruct (dict_lookup _ k) as [v |] eqn:Ek; [| congruence].
    apply dict_lookup_present in Ek.
    unfold checked_namespace, keys in Ek. cbn [map fst] in Ek.
    intros Hsome. simpl in Ek.
    decompose [or] Ek; subst; try contradiction;
      try (simpl; tauto);
      destruct v; simpl in Hsome; congruence.
Qed.

(** X17. A trailing slash on the hostname makes no difference: the run
    is the same as without it, action for action. *)
Theorem trailing_slash_makes_no_difference (unicode : Unicode.database) (utcoffset : Z -> Z)
    (hostname : string)
    (jwt api_key event actorName targetName withinProjectName
     startTimestamp endTimestamp : option string)
    (replies : list http_outcome) (w : world) :
  ends_with_slash hostname = false ->
  main unicode utcoffset
    (parse_args (hostname ++ "/") jwt api_key event actorName targetName
       withinProjectName startTimestamp endTimestamp) replies w
  = main unicode utcoffset
      (parse_args hostname jwt api_key event actorName targetName
         withinProjectName startTimestamp endTimestamp) replies w.
Proof.
  intros Hplain. rewrite !main_steps.
  unfold checked_namespace, strip_slash.
  rewrite ends_with_slash_app, drop_last_app, Hplain. reflexivity.
Qed.

(** ** The properties at sample inputs *)

Lemma timestamp_column_reads_back_witness :
  parse_event dataset_event = Ok dataset_record
  /\ dict_get dataset_record UTC_TIMESTAMP = PStr "2024-10-17 17:16:00"
  /\ Datetime.civil_seconds (Datetime.mkCivil 2024 10 17 17 16 0)
     = 1729185360064 / 1000
  /\ Strptime.strptime unicode_14 "2024-10-17 17:16:00"
     = Ok (Datetime.mkCivil 2024 10 17 17 16 0)
  /\ parse_event medieval_event = Ok medieval_record
  /\ dict_get medieval_record UTC_TIMESTAMP = PStr "999-12-31 23:59:59"
  /\ Strptime.strptime unicode_14 "999-12-31 23:59:59" = Raise ValueError.
Proof.
  split; [reflexivity |].
  destruct (timestamp_column_reads_back unicode_14 dataset_event
              dataset_record 1729185360064 eq_refl eq_refl)
    as (Hcol & Hback & Hlate & _).
  split; [exact Hcol |]. split; [exact Hback |].
  split; [apply Hlate; discriminate |].
  split; [reflexivity |].
  destruct (timestamp_column_reads_back unicode_14 medieval_event
              medieval_record (-30610224000001) eq_refl eq_refl)
    as (Hcol' & _ & _ & Hearly).
  split; [exact Hcol' | apply Hearly; reflexivity].
Defined.

Lemma actor_and_action_columns_witness :
  parse_event role_change_event = Ok role_change_record
  /\ dict_get role_change_record USER_NAME = PStr "u-1"
  /\ dict_get role_change_record EVENT = PStr "Change Role".
Proof.
  split; [reflexivity |].
  apply (actor_and_action_columns role_change_event role_change_record).
  reflexivity.
Defined.

Lemma target_value_columns_witness :
  parse_event role_change_event = Ok role_change_record
  /\ is_job_type (target_type (PDict role_change_target)) = false
  /\ dict_get role_change_record TARGET_NAME = PStr "ana"
  /\ dict_get role_change_record OLD_VALUE = PStr "Practitioner"
  /\ dict_get role_change_record NEW_VALUE = PStr "SysAdmin".
Proof.
  split; [reflexivity |]. split; [reflexivity |].
  destruct (target_value_columns role_change_event role_change_record
              (PDict role_change_target) [nightly_job] eq_refl eq_refl)
    as (Hname & Hold & Hnew).
  split; [exact Hname |]. split; [exact Hold |]. exact (Hnew eq_refl).
Defined.

Lemma added_and_removed_columns_witness :
  parse_event dataset_event = Ok dataset_record
  /\ dict_get dataset_record ADDED_VALUE = PStr "ana,bo,cy"
  /\ dict_get dataset_record REMOVED_VALUE = PStr "".
Proof.
  split; [reflexivity |].
  apply (added_and_removed_columns dataset_event dataset_record
           (first_target dataset_event) []); reflexivity.
Defined.

Lemma user_target_columns_witness :
  parse_event role_change_event = Ok role_change_record
  /\ py_eq_str (target_type (PDict role_change_target)) "user" = true
  /\ dict_get role_change_record TARGET_USER = PStr "ana"
  /\ dict_get role_change_record DATASET_NAME = PNone
  /\ dict_get role_change_record FILE_NAME = PNone
  /\ dict_get role_change_record JOBS = PNone
  /\ dict_get role_change_record FEATURE_FLAG = PNone.
Proof.
  split; [reflexivity |]. split; [reflexivity |].
  destruct (user_target_columns role_change_event role_change_record
              (PDict role_change_target) [nightly_job]
              eq_refl eq_refl eq_refl)
    as (Huser & Hdataset & Hfile & Hjobs & Hflag).
  split; [exact (Huser eq_refl) |]. split; [exact (Hdataset eq_refl) |].
  split; [exact (Hfile eq_refl) |]. split; [exact Hjobs | exact Hflag].
Defined.

Lemma dataset_target_columns_witness :
  parse_event snapshot_event = Ok snapshot_record
  /\ is_dataset_type (target_type snapshot_target) = true
  /\ affecting_silent snapshot_event DATASET_NAME = true
  /\ affecting_silent snapshot_event FILE_NAME = true
  /\ dict_get snapshot_record DATASET_NAME = PStr "snap-4"
  /\ dict_get snapshot_record FILE_NAME = PStr "/b.csv".
Proof.
  split; [reflexivity |]. split; [reflexivity |].
  split; [reflexivity |]. split; [reflexivity |].
  destruct (dataset_target_columns snapshot_event snapshot_record
              snapshot_target [] eq_refl eq_refl eq_refl)
    as (Hdataset & Hfile).
  split; [exact (Hdataset eq_refl) | exact (Hfile eq_refl)].
Defined.

Lemma jobs_and_feature_flag_columns_witness :
  parse_event nameless_target_event = Ok nameless_target_record
  /\ py_eq_str (target_type (first_target nameless_target_event)) "featureFlag"
     = true
  /\ dict_get nameless_target_record FEATURE_FLAG = PStr "ff-3"
  /\ parse_event job_event_with_query = Ok job_record
  /\ dict_get job_record JOBS <> PNone
  /\ exists target rest,
       field job_event_with_query "targets" = PList (target :: rest)
       /\ is_job_type (target_type target) = true.
Proof.
  split; [reflexivity |]. split; [reflexivity |].
  destruct (jobs_and_feature_flag_columns nameless_target_event
              nameless_target_record eq_refl) as (_ & _ & Hflag).
  split; [exact (Hflag (first_target nameless_target_event) [] eq_refl eq_refl) |].
  split; [reflexivity |].
  assert (Hjobs : dict_get job_record JOBS <> PNone) by discriminate.
  split; [exact Hjobs |].
  destruct (jobs_and_feature_flag_columns job_event_with_query job_record
              eq_refl) as (Hjob & _ & _).
  exact (Hjob Hjobs).
Defined.

Lemma command_column_without_job_witness :
  parse_event role_change_event = Ok role_change_record
  /\ is_job_type (target_type (first_target role_change_event)) = false
  /\ field (field role_change_event "metadata") "command" = PStr "run.sh"
  /\ dict_get role_change_record COMMAND = PStr "role=SysAdmin".
Proof.
  split; [reflexivity |]. split; [reflexivity |]. split; [reflexivity |].
  apply (command_column_without_job role_change_event role_change_record).
  - reflexivity.
  - intros target rest [= <- <-]. reflexivity.
Defined.

Lemma columns_without_targets_witness :
  parse_event organization_event = Ok organization_record
  /\ py_truthy (field organization_event "targets") = false
  /\ Forall (fun col => dict_get organization_record col = PNone)
       [ TARGET_NAME; OLD_VALUE; NEW_VALUE; ADDED_VALUE; REMOVED_VALUE; JOBS;
         FEATURE_FLAG; DATASET_NAME; TARGET_USER; FILE_NAME ].
Proof.
  split; [reflexivity |]. split; [reflexivity |].
  destruct (columns_without_targets organization_event organization_record
              eq_refl eq_refl) as [Htarget Haffecting].
  apply Forall_app with (l1 := [ TARGET_NAME; OLD_VALUE; NEW_VALUE; ADDED_VALUE;
                                 REMOVED_VALUE; JOBS; FEATURE_FLAG ]).
  split; [exact Htarget |].
  eapply Forall_impl; [| exact Haffecting].
  intros col Hcol. apply Hcol. reflexivity.
Defined.

Lemma later_targets_and_changes_are_ignored_witness :
  dict_lookup role_change_fields "targets"
  = Some (PList [PDict role_change_target; nightly_job])
  /\ parse_event (PDict role_change_fields)
     = parse_event
         (PDict (dict_set role_change_fields "targets"
                   (PList [PDict role_change_target])))
  /\ exists first later,
       dict_lookup role_change_target "fieldChanges"
       = Some (PList (first :: later))
       /\ later <> []
       /\ flatten_target (PDict role_change_target)
          = flatten_target
              (PDict (dict_set role_change_target "fieldChanges"
                        (PList [first]))).
Proof.
  split; [reflexivity |]. split.
  - apply (later_targets_and_changes_are_ignored role_change_fields
             (PDict role_change_target) [nightly_job]).
    reflexivity.
  - do 2 eexists. split; [reflexivity |]. split; [discriminate |].
    eapply later_targets_and_changes_are_ignored. reflexivity.
Defined.

Lemma failing_event_discards_its_page_witness :
  parse_event event_without_timestamp = Raise KeyError
  /\ export_audit_trail
       ([page_reply full_page_a]
        ++ page_reply (broken_page_start
                       ++ event_without_timestamp :: broken_page_end)
           :: [page_reply short_page])
       "https://domino.example" sample_headers sample_params initial_world
     = Raised KeyError
         (mkWorld
            (Some (header_row :: flat_map (map row_of_event) [full_page_a]))
            (log initial_world
             ++ IoCreate header_row
                :: expected_log "https://domino.example" sample_headers
                     sample_params 0 [full_page_a]
                ++ [IoGet (request_at "https://domino.example" sample_headers
                             sample_params
                             (BATCH_LIMIT * Z.of_nat (List.length [full_page_a])))])).
Proof.
  split; [reflexivity |].
  apply (failing_event_discards_its_page
           [page_reply full_page_a] [page_reply short_page]
           (page_reply (broken_page_start
                        ++ event_without_timestamp :: broken_page_end))
           [full_page_a] broken_page_start broken_page_end
           event_without_timestamp KeyError
           "https://domino.example" sample_headers sample_params initial_world).
  - repeat constructor.
  - repeat constructor; apply repeat_full.
  - repeat constructor; apply repeat_parses; reflexivity.
  - reflexivity.
  - repeat constructor.
  - reflexivity.
Defined.

Lemma build_request_params_contents_witness :
  NoDup (keys sample_namespace)
  /\ dict_lookup (build_request_params sample_namespace) "jwt" = None
  /\ dict_lookup (build_request_params sample_namespace) "limit"
     = Some (PInt 1000)
  /\ dict_lookup (build_request_params sample_namespace) "sort"
     = Some (PStr "-timestamp")
  /\ dict_lookup (build_request_params sample_namespace) "event"
     = Some (PStr "Login")
  /\ dict_lookup (build_request_params sample_namespace) "actorName" = None.
Proof.
  assert (Hkeys : NoDup (keys sample_namespace)).
  { unfold sample_namespace, parse_args, keys. cbn [map fst].
    repeat (constructor; [simpl; intuition discriminate |]). constructor. }
  split; [exact Hkeys |].
  destruct (build_request_params_contents sample_namespace Hkeys)
    as (Hsecret & Hlimit & Hsort & Hother).
  split; [apply Hsecret; simpl; tauto |].
  split; [exact Hlimit |]. split; [exact Hsort |].
  split.
  - apply (Hother "event"). simpl. intuition discriminate.
  - apply (Hother "actorName"). simpl. intuition discriminate.
Defined.

Lemma main_stops_early_or_starts_the_export_witness :
  main unicode_14 zone_utc
    (parse_args "https://domino.example" None (Some "") None None None None
       None None)
    [page_reply short_page] used_world
  = Raised (SystemExit 1) used_world
  /\ main unicode_14 zone_utc
       (parse_args "https://domino.example" None (Some "k") None None None
          None (Some "2024-10-17") None)
       [page_reply short_page] used_world
     = Raised (SystemExit 1) used_world
  /\ (exists rows,
        file (final_world
                (main unicode_14 zone_utc
                   (parse_args "https://domino.example" None (Some "k") None
                      None None None (Some "") None)
                   [ConnectionFailed] used_world))
        = Some (header_row :: rows)).
Proof.
  split; [| split].
  - exact (proj1 (main_stops_early_or_starts_the_export unicode_14 zone_utc
                    "https://domino.example" None (Some "") None None None
                    None None None [page_reply short_page] used_world)).
  - exact (proj1 (main_stops_early_or_starts_the_export unicode_14 zone_utc
                    "https://domino.example" None (Some "k") None None None
                    None (Some "2024-10-17") None [page_reply short_page]
                    used_world)).
  - exact (proj1 (main_stops_early_or_starts_the_export unicode_14 zone_utc
                    "https://domino.example" None (Some "k") None None None
                    None (Some "") None [ConnectionFailed] used_world)).
Defined.

Lemma main_requests_on_the_wire_witness :
  credentials_given (Some "tok") (Some "k") = true
  /\ format_if_given unicode_14 zone_minus_5h (PStr "2024-10-17 17:16:00")
     = Ok (PInt 1729203360000)
  /\ exists sent : list request,
       requests_of
         (log (final_world
                 (main unicode_14 zone_minus_5h sample_namespace [page_reply short_page]
                    initial_world)))
       = sent
       /\ (1 <= List.length sent <= 2)%nat
       /\ forall (i : nat) (r : request),
            nth_error sent i = Some r ->
            req_url r = "https://domino.example/api/audittrail/v1/auditevents"
            /\ req_headers r
               = [ ("accept", PStr "application/json");
                   ("Authorization", PStr "Bearer tok") ]
            /\ dict_lookup (req_params r) "offset"
               = Some (PInt (1000 * Z.of_nat i))
            /\ dict_lookup (req_params r) "event" = Some (PStr "Login")
            /\ dict_lookup (req_params r) "startTimestamp"
               = Some (PInt 1729203360000)
            /\ dict_lookup (req_params r) "endTimestamp" = None.
Proof.
  split; [reflexivity |]. split; [reflexivity |].
  destruct (main_requests_on_the_wire unicode_14 zone_minus_5h "https://domino.example/"
              (Some "tok") (Some "k") (Some "Login") None None None
              (Some "2024-10-17 17:16:00") None (PInt 1729203360000) PNone
              [page_reply short_page] initial_world eq_refl eq_refl eq_refl)
    as (sent & Hreq & Hlen & Hall).
  exists sent. split; [exact Hreq |]. split; [exact Hlen |].
  intros i r Hr.
  destruct (Hall i r Hr)
    as (Hurl & Hjwt & _ & Hoffset & _ & _ & Hevent & _ & _ & _ & Hstart
        & Hstop & _).
  split; [exact Hurl |].
  split; [apply (Hjwt "tok"); [reflexivity | discriminate] |].
  split; [exact Hoffset |]. split; [exact Hevent |].
  split; [exact Hstart | exact Hstop].
Defined.

Lemma trailing_slash_makes_no_difference_witness :
  ends_with_slash "https://domino.example" = false
  /\ main unicode_14 zone_utc
       (parse_args "https://domino.example/" None (Some "k") None None None
          None None None)
       [page_reply short_page] initial_world
     = main unicode_14 zone_utc
         (parse_args "https://domino.example" None (Some "k") None None None
            None None None)
         [page_reply short_page] initial_world.
Proof.
  split; [reflexivity |].
  exact (trailing_slash_makes_no_difference unicode_14 zone_utc "https://domino.example"
           None (Some "k") None None None None None None
           [page_reply short_page] initial_world eq_refl).
Defined.

Lemma every_run_leaves_header_and_full_rows_witness :
  file (final_world
          (export_audit_trail [page_reply short_page; ConnectionFailed]
             "https://domino.example" sample_headers sample_params used_world))
  = file (final_world
            (export_audit_trail [page_reply short_page; ConnectionFailed]
               "https://other.example" [] [] initial_world))
  /\ file (final_world
             (export_audit_trail [ConnectionFailed] "https://domino.example"
                sample_headers sample_params used_world))
     = Some [header_row].
Proof.
  split.
  - destruct (every_run_leaves_header_and_full_rows
                [page_reply short_page; ConnectionFailed])
      as (rows & _ & Hfile).
    rewrite !Hfile. reflexivity.
  - reflexivity.
Defined.
